(** * Sensor pipeline: scoring, persistence, change detection, mock source

    A shallow embedding of [app/sensor_data.py], [app/sensor_connector.py]
    and [ml_model_monitor.py].  Python dictionaries are finite maps from
    strings, Python floats are IEEE-754 binary64 values in the executable
    specification of the Standard Library ([spec_float], precision 53,
    exponent bound 1024), raised exceptions are values of an error monad,
    and the file system, the clock and the mail channel are explicit
    state. *)

From Stdlib Require Import ZArith QArith Qpower Lia String Ascii List SpecFloat.
From stdpp Require Import gmap strings pretty sorting.

Local Open Scope string_scope.
Local Open Scope list_scope.
Local Open Scope Z_scope.

(** ** Binary64 arithmetic *)

Module F64.

Definition prec : Z := 53.
Definition emax : Z := 1024.

Definition add := SFadd prec emax.
Definition mul := SFmul prec emax.
Definition div := SFdiv prec emax.
Definition ltb := SFltb.
Definition leb := SFleb.

(** Nearest-even rounding of an integer. *)
Definition of_Z (z : Z) : spec_float := binary_normalize prec emax z 0 false.

(** A decimal literal [n / d] of the source text: the binary64 value
    nearest to the quotient. *)
Definition dec (n d : Z) : spec_float := div (of_Z n) (of_Z d).

Definition is_zero (x : spec_float) : bool :=
  match x with S754_zero _ => true | _ => false end.

Definition is_infinite (x : spec_float) : bool :=
  match x with S754_infinity _ => true | _ => false end.

(** The values a Python float can hold. *)
Definition binary64 (x : spec_float) : Prop := valid_binary prec emax x = true.

(** The rational a finite binary64 denotes: [(-1)^s * m * 2^e]. *)
Definition to_Q (s : bool) (m : positive) (e : Z) : Q :=
  inject_Z (cond_Zopp s (Zpos m)) * (2 ^ e)%Q.

(** The order of the extended real line on binary64 values against a
    rational bound; NaN is unordered, so it is neither below nor above
    anything. *)
Definition lies_below (x : spec_float) (q : Q) : Prop :=
  match x with
  | S754_nan => False
  | S754_infinity s => s = true
  | S754_zero _ => (0 < q)%Q
  | S754_finite s m e => (to_Q s m e < q)%Q
  end.

Definition lies_above (x : spec_float) (q : Q) : Prop :=
  match x with
  | S754_nan => False
  | S754_infinity s => s = false
  | S754_zero _ => (q < 0)%Q
  | S754_finite s m e => (q < to_Q s m e)%Q
  end.

End F64.

(** ** Python values, exceptions, builtins *)

Inductive pyval :=
| VNone
| VBool (b : bool)
| VInt (z : Z)
| VFloat (f : spec_float)
| VStr (s : string).

Inductive exn :=
| TypeError
| ValueError
| OverflowError
| ZeroDivisionError
| OSError.

Inductive result (A : Type) :=
| Ok (a : A)
| Raise (e : exn).
Arguments Ok {A} a.
Arguments Raise {A} e.

Global Instance result_ret : MRet result := fun A a => Ok a.
Global Instance result_bind : MBind result := fun A B k x =>
  match x with
  | Ok a => k a
  | Raise e => Raise e
  end.

(** A Python dict with string keys. *)
Abbreviation dict := (gmap string pyval).

(** [d.get(k, default)] *)
Definition dict_get (d : dict) (k : string) (dflt : pyval) : pyval :=
  match d !! k with
  | Some v => v
  | None => dflt
  end.

(** [bool(v)] *)
Definition truthy (v : pyval) : bool :=
  match v with
  | VNone => false
  | VBool b => b
  | VInt z => negb (z =? 0)%Z
  | VFloat f => negb (F64.is_zero f)
  | VStr s => negb (String.eqb s "")
  end.

Module Scorer.
Section WithParser.

(** [float(s)] on a str goes through the interpreter's numeric parser,
    which is not part of the repository; [None] stands for a text
    that the parser rejects. *)
Variable float_of_str : string -> option spec_float.

(** [float(v)] *)
Definition py_float (v : pyval) : result spec_float :=
  match v with
  | VNone => Raise TypeError
  | VBool b => Ok (F64.of_Z (if b then 1 else 0))
  | VInt z =>
      let f := F64.of_Z z in
      if F64.is_infinite f then Raise OverflowError else Ok f
  | VFloat f => Ok f
  | VStr s =>
      match float_of_str s with
      | Some f => Ok f
      | None => Raise ValueError
      end
  end.

(** [max(a, b)] on two floats: the second argument replaces the first
    only when it compares greater. *)
Definition py_max (a b : spec_float) : spec_float :=
  if F64.ltb a b then b else a.

(** [min(a, b)] *)
Definition py_min (a b : spec_float) : spec_float :=
  if F64.ltb b a then b else a.

(** [a / b] *)
Definition py_truediv (a b : spec_float) : result spec_float :=
  if F64.is_zero b then Raise ZeroDivisionError else Ok (F64.div a b).

(** Normal operating ranges. *)
Definition temp_normal : spec_float * spec_float := (F64.of_Z 50, F64.of_Z 90).
Definition vibration_normal : spec_float * spec_float := (F64.dec 1 10, F64.dec 50 10).
Definition pressure_normal : spec_float * spec_float := (F64.dec 8 10, F64.dec 12 10).
Definition rpm_normal : spec_float * spec_float := (F64.of_Z 1000, F64.of_Z 3000).

(** [x < normal[0] or x > normal[1]] *)
Definition anomalous (normal : spec_float * spec_float) (x : spec_float) : bool :=
  F64.ltb x (fst normal) || F64.ltb (snd normal) x.

(** The rule-based fallback of the [if anomaly_detected:] block: the
    running pair [(failure_probability, failure_type)]. *)
Definition failure_rules (temperature vibration : spec_float)
    (temp_anomaly vibration_anomaly pressure_anomaly rpm_anomaly : bool)
  : spec_float * string :=
  let failure_probability := F64.dec 0 10 in
  let failure_type := "Unknown" in
  let '(failure_probability, failure_type) :=
    if temp_anomaly && F64.ltb (snd temp_normal) temperature
    then (F64.add failure_probability (F64.dec 3 10), "Overheating")
    else (failure_probability, failure_type) in
  let '(failure_probability, failure_type) :=
    if vibration_anomaly && F64.ltb (snd vibration_normal) vibration
    then (F64.add failure_probability (F64.dec 4 10),
          if String.eqb failure_type "Unknown" then "Bearing Failure" else failure_type)
    else (failure_probability, failure_type) in
  let '(failure_probability, failure_type) :=
    if pressure_anomaly
    then (F64.add failure_probability (F64.dec 2 10),
          if String.eqb failure_type "Unknown" then "Pressure Issue" else failure_type)
    else (failure_probability, failure_type) in
  let '(failure_probability, failure_type) :=
    if rpm_anomaly
    then (F64.add failure_probability (F64.dec 1 10),
          if String.eqb failure_type "Unknown" then "Motor Issue" else failure_type)
    else (failure_probability, failure_type) in
  (py_min failure_probability (F64.dec 95 100), failure_type).

(** [process_sensor_data(data)]; [now] is the formatted reading of
    [datetime.now()]. *)
Definition process_sensor_data (now : string) (data : dict) : result dict :=
  temperature ← py_float (dict_get data "temperature" (VInt 0));
  vibration ← py_float (dict_get data "vibration" (VInt 0));
  pressure ← py_float (dict_get data "pressure" (VInt 0));
  rpm ← py_float (dict_get data "rpm" (VInt 0));
  let machine_id := dict_get data "machine_id" (VStr "unknown") in
  let timestamp := now in
  vibration_to_rpm_ratio ← py_truediv vibration (py_max rpm (F64.of_Z 1));
  temperature_pressure_ratio ← py_truediv temperature (py_max pressure (F64.dec 1 10));
  let temp_anomaly := anomalous temp_normal temperature in
  let vibration_anomaly := anomalous vibration_normal vibration in
  let pressure_anomaly := anomalous pressure_normal pressure in
  let rpm_anomaly := anomalous rpm_normal rpm in
  let anomaly_detected :=
    temp_anomaly || vibration_anomaly || pressure_anomaly || rpm_anomaly in
  let processed_data : dict :=
    list_to_map
      [ ("timestamp", VStr timestamp);
        ("machine_id", machine_id);
        ("temperature", VFloat temperature);
        ("vibration", VFloat vibration);
        ("pressure", VFloat pressure);
        ("rpm", VFloat rpm);
        ("vibration_to_rpm_ratio", VFloat vibration_to_rpm_ratio);
        ("temperature_pressure_ratio", VFloat temperature_pressure_ratio);
        ("temp_anomaly", VBool temp_anomaly);
        ("vibration_anomaly", VBool vibration_anomaly);
        ("pressure_anomaly", VBool pressure_anomaly);
        ("rpm_anomaly", VBool rpm_anomaly);
        ("anomaly_detected", VBool anomaly_detected) ] in
  if anomaly_detected then
    let '(failure_probability, failure_type) :=
      failure_rules temperature vibration
        temp_anomaly vibration_anomaly pressure_anomaly rpm_anomaly in
    Ok (<["failure_type" := VStr failure_type]>
          (<["failure_probability" := VFloat failure_probability]> processed_data))
  else Ok processed_data.

End WithParser.
End Scorer.


(** ** The mock source: [generate_mock_data] *)

Module Mock.

(** The state behind [random]: raw draws, consumed left to right. *)
Definition rng := list Z.

(** [random.randint(a, b)]: an integer of the closed range. *)
Definition randint (a b : Z) (g : rng) : Z * rng :=
  match g with
  | [] => (a, [])
  | z :: g' => (a + z mod (b - a + 1), g')
  end.

(** The literal [3.14159] of the source. *)
Definition pi_literal : spec_float := F64.dec 314159 100000.

(** [2 * 3.14159 * rotation_speed * torque / 60], left to right. *)
Definition power_of (rotation_speed torque : Z) : spec_float :=
  F64.div
    (F64.mul
       (F64.mul (F64.mul (F64.of_Z 2) pi_literal) (F64.of_Z rotation_speed))
       (F64.of_Z torque))
    (F64.of_Z 60).

(** One pass through the body of the [while True:] loop, up to the
    [put]; [now] is the reading of [time.time()]. *)
Definition mock_sample (now : spec_float) (g : rng) : dict * rng :=
  let '(tool_wear, g) := randint 0 300 g in
  let '(air_temp, g) := randint 290 310 g in
  let '(process_temp, g) := randint 290 330 g in
  let '(rotation_speed, g) := randint 1000 3000 g in
  let '(torque, g) := randint 5 75 g in
  let data : dict :=
    list_to_map
      [ ("tool_wear", VInt tool_wear);
        ("air_temp", VInt air_temp);
        ("process_temp", VInt process_temp);
        ("rotation_speed", VInt rotation_speed);
        ("torque", VInt torque);
        ("timestamp", VFloat now) ] in
  let data := <["temp_diff" := VInt (process_temp - air_temp)]> data in
  let data := <["power" := VFloat (power_of rotation_speed torque)]> data in
  (data, g).

Record state := mk_state {
  entropy : rng;
  iteration : nat;
  data_queue : list dict
}.

(** One iteration: build the sample, [data_queue.put(data)], sleep. *)
Definition mock_iter (time : nat -> spec_float) (st : state) : state :=
  let '(data, g) := mock_sample (time (iteration st)) (entropy st) in
  mk_state g (S (iteration st)) (data_queue st ++ [data]).

(** The first [n] iterations of the endless loop. *)
Definition generate_mock_data (time : nat -> spec_float) (n : nat) (st : state) : state :=
  Nat.iter n (mock_iter time) st.

(** The formula [2 pi r t / 60] evaluated in binary64, left to right,
    at a given binary64 [pi]. *)
Definition power_formula (pi : spec_float) (rotation_speed torque : Z) : spec_float :=
  F64.div
    (F64.mul
       (F64.mul (F64.mul (F64.of_Z 2) pi) (F64.of_Z rotation_speed))
       (F64.of_Z torque))
    (F64.of_Z 60).

End Mock.

(** ** State with exceptions *)

Definition io (W A : Type) : Type := W -> result A * W.

Global Instance io_ret {W} : MRet (io W) := fun A a w => (Ok a, w).
Global Instance io_bind {W} : MBind (io W) := fun A B k c w =>
  match c w with
  | (Ok a, w') => k a w'
  | (Raise e, w') => (Raise e, w')
  end.

(** [os.path.join(a, b)] on POSIX paths. *)
Definition starts_with_slash (s : string) : bool :=
  match s with
  | String c _ => Ascii.eqb c "/"
  | EmptyString => false
  end.

Fixpoint ends_with_slash (s : string) : bool :=
  match s with
  | EmptyString => false
  | String c EmptyString => Ascii.eqb c "/"
  | String _ s' => ends_with_slash s'
  end.

Definition path_join (a b : string) : string :=
  if starts_with_slash b then b
  else if String.eqb a "" || ends_with_slash a then a +:+ b
  else a +:+ "/" +:+ b.

Fixpoint has_slash (s : string) : bool :=
  match s with
  | EmptyString => false
  | String c s' => Ascii.eqb c "/" || has_slash s'
  end.

(** [os.path.basename(p)]: what follows the last slash. *)
Fixpoint basename (p : string) : string :=
  match p with
  | EmptyString => EmptyString
  | String c p' =>
      if has_slash p' then basename p'
      else if Ascii.eqb c "/" then p' else p
  end.

(** [p] up to and including its last slash. *)
Fixpoint upto_last_slash (p : string) : string :=
  match p with
  | EmptyString => EmptyString
  | String c p' =>
      if has_slash p' then String c (upto_last_slash p')
      else if Ascii.eqb c "/" then "/" else EmptyString
  end.

(** [s.rstrip('/')] *)
Fixpoint rstrip_slash (s : string) : string :=
  match s with
  | EmptyString => EmptyString
  | String c s' =>
      let r := rstrip_slash s' in
      if String.eqb r "" && Ascii.eqb c "/" then EmptyString else String c r
  end.

(** [os.path.dirname(p)]: the head loses its trailing slashes unless it
    consists of slashes only. *)
Definition dirname (p : string) : string :=
  let head := upto_last_slash p in
  if String.eqb (rstrip_slash head) "" then head else rstrip_slash head.

(** ** Persistence: [store_data] *)

Module Sink.

(** What a write leaves in a file: a header line, a data line, or a
    dumped JSON document. *)
Inductive chunk :=
| CsvHeader (columns : list string)
| CsvRow (record : dict)
| JsonDoc (record : dict).

Record world := mk_world {
  files : gmap string (list chunk);
  (** outcome of the successive write attempts: [true] fails *)
  faults : list bool;
  stdout : list string
}.

(** [os.path.isfile(p)] *)
Definition isfile (p : string) : io world bool :=
  fun w => (Ok (bool_decide (is_Some (files w !! p))), w).

(** Every attempt to write consults the next outcome. *)
Definition attempt : io world unit :=
  fun w =>
    match faults w with
    | [] => (Ok tt, w)
    | false :: fs => (Ok tt, mk_world (files w) fs (stdout w))
    | true :: fs => (Raise OSError, mk_world (files w) fs (stdout w))
    end.

Definition set_file (p : string) (cs : list chunk) : io world unit :=
  fun w => (Ok tt, mk_world (<[p := cs]> (files w)) (faults w) (stdout w)).

(** What is in the file so far; nothing when it does not exist. *)
Definition contents (p : string) : io world (list chunk) :=
  fun w => (Ok (default [] (files w !! p)), w).

(** [pd.DataFrame([record]).to_csv(p, mode='a', header=h, index=False)] *)
Definition to_csv_append (record : dict) (p : string) (header : bool) : io world unit :=
  _ ← attempt;
  old ← contents p;
  set_file p
    (old ++ (if header then [CsvHeader (map fst (map_to_list record))] else [])
         ++ [CsvRow record]).

(** [open(p, 'w')] truncates. *)
Definition open_w (p : string) : io world unit :=
  _ ← attempt; set_file p [].

(** [json.dump(record, f, indent=2)] *)
Definition json_dump (record : dict) (p : string) : io world unit :=
  _ ← attempt; set_file p [JsonDoc record].

Definition print (line : string) : world -> world :=
  fun w => mk_world (files w) (faults w) (stdout w ++ [line]).

Section WithEnv.

(** The module constant [DATA_DIR]; [repr] of a float, which the
    interpreter provides. *)
Variable DATA_DIR : string.
Variable repr_float : spec_float -> string.

(** [str(v)], as an f-string formats it. *)
Definition py_str (v : pyval) : string :=
  match v with
  | VNone => "None"
  | VBool b => if b then "True" else "False"
  | VInt z => pretty z
  | VFloat f => repr_float f
  | VStr s => s
  end.

Definition csv_file_of (machine_id : pyval) : string :=
  path_join DATA_DIR (py_str machine_id +:+ "_sensor_data.csv").
Definition alert_file_of (machine_id : pyval) : string :=
  path_join DATA_DIR (py_str machine_id +:+ "_alerts.csv").
Definition alert_json_of (machine_id : pyval) : string :=
  path_join DATA_DIR (py_str machine_id +:+ "_latest_alert.json").

(** The body of the [try:] block. *)
Definition store_body (processed_data : dict) : io world bool :=
  let machine_id := dict_get processed_data "machine_id" (VStr "unknown") in
  let csv_file := csv_file_of machine_id in
  file_exists ← isfile csv_file;
  _ ← to_csv_append processed_data csv_file (negb file_exists);
  _ ← (if truthy (dict_get processed_data "anomaly_detected" (VBool false)) then
         let alert_file := alert_file_of machine_id in
         alert_exists ← isfile alert_file;
         _ ← to_csv_append processed_data alert_file (negb alert_exists);
         let alert_json := alert_json_of machine_id in
         _ ← open_w alert_json;
         json_dump processed_data alert_json
       else mret tt);
  mret true.

(** [store_data(processed_data)]: the [except Exception] handler
    prints and answers [False]. *)
Definition store_data (processed_data : dict) (w : world) : bool * world :=
  match store_body processed_data w with
  | (Ok b, w') => (b, w')
  | (Raise e, w') => (false, print "Error storing data" w')
  end.

End WithEnv.
End Sink.

(** ** Change detection: [ModelMonitor] *)

Module Monitor.

(** A [DataFrame]: named columns and data rows. *)
Record frame := mk_frame {
  columns : list string;
  rows : list (list pyval)
}.

(** [len(df)] *)
Definition len (df : frame) : Z := Z.of_nat (length (rows df)).

Record column_stat := mk_column_stat {
  current_mean : spec_float;
  previous_mean : spec_float;
  current_std : spec_float;
  previous_std : spec_float
}.

Record container_stats := mk_container_stats {
  cpu_percentage : string;
  memory_usage : string;
  memory_percentage : string
}.

(** The [stats] dict of [_compare_csv_changes], with the optional
    ['container_stats'] entry. *)
Record change_report := mk_report {
  current_rows : Z;
  previous_rows : Z;
  rows_changed : Z;
  timestamp : string;
  column_stats : list (string * column_stat);
  container : option container_stats
}.

(** The library calls the monitor relies on: [hashlib], [pandas] and
    [json].  [read_csv] answers [None] where pandas raises, and so do
    [mean] and [std], which raise on a column that is not numeric. *)
Record externals := mk_externals {
  md5_hexdigest : string -> string;
  read_csv : string -> option frame;
  to_csv : frame -> string;
  numeric_columns : frame -> list string;
  mean : frame -> string -> option spec_float;
  std : frame -> string -> option spec_float;
  json_dumps : change_report -> string
}.

(** The readings of [datetime.now()] during one call, each as the
    code renders it: the ["%Y%m%d_%H%M%S"] stamp in the name of the
    snapshot, the [isoformat()] stamp in the report, the
    ["%Y%m%d_%H%M%S"] stamp in the name of the metrics file, and the
    value kept in [last_check_time]. *)
Record clock := mk_clock {
  backup_stamp : string;
  report_stamp : string;
  metrics_stamp : string;
  check_time : string
}.

Inductive level := INFO | ERROR.

(** The file that [logging.FileHandler] appends to. *)
Definition log_path : string := "model_monitor.log".

(** The disk is the log file and the other files.  [log_file] holds
    the lines of [model_monitor.log], which every call of [logging]
    appends to; [files] holds every other file, addressed by directory
    and entry name: the monitor is not pointed at its own log file.
    [docker] is what the [docker stats] subprocess would answer and
    [smtp_up] whether the mail server accepts the message;
    [alerts_raised] records the calls of [_send_alert]. *)
Record world := mk_world {
  files : gmap (string * string) string;
  faults : list bool;
  docker : option container_stats;
  smtp_up : bool;
  log_file : list (level * string);
  alerts_raised : list (string * string);
  outbox : list (string * string * string)
}.

Definition set_files (f : gmap (string * string) string) (w : world) : world :=
  mk_world f (faults w) (docker w) (smtp_up w) (log_file w) (alerts_raised w) (outbox w).
Definition set_faults (fs : list bool) (w : world) : world :=
  mk_world (files w) fs (docker w) (smtp_up w) (log_file w) (alerts_raised w) (outbox w).

(** [logging.info(msg)] and [logging.error(msg)]: the line is appended
    to the log file.  A line is kept as its level and its message,
    an error message without the text of the exception that the
    source appends to it. *)
Definition logging (l : level) (msg : string) (w : world) : world :=
  mk_world (files w) (faults w) (docker w) (smtp_up w) (log_file w ++ [(l, msg)])
    (alerts_raised w) (outbox w).
Definition record_alert (subject message : string) (w : world) : world :=
  mk_world (files w) (faults w) (docker w) (smtp_up w) (log_file w)
    (alerts_raised w ++ [(subject, message)]) (outbox w).
Definition deliver (to subject message : string) (w : world) : world :=
  mk_world (files w) (faults w) (docker w) (smtp_up w) (log_file w)
    (alerts_raised w) (outbox w ++ [(to, subject, message)]).

Record monitor := mk_monitor {
  container_name : string;
  csv_path : string;
  check_interval : Z;
  backup_dir : string;
  metrics_dir : string;
  alert_email : option string;
  last_hash : option string;
  last_check_time : string
}.

Definition set_last_hash (h : option string) (m : monitor) : monitor :=
  mk_monitor (container_name m) (csv_path m) (check_interval m) (backup_dir m)
    (metrics_dir m) (alert_email m) h (last_check_time m).
Definition set_last_check_time (t : string) (m : monitor) : monitor :=
  mk_monitor (container_name m) (csv_path m) (check_interval m) (backup_dir m)
    (metrics_dir m) (alert_email m) (last_hash m) t.

(** Where [open(p)] looks. *)
Definition locate (p : string) : string * string := (dirname p, basename p).

(** Writing a file consults the next outcome of [faults]. *)
Definition write_file (at_ : string * string) (bytes : string) (w : world) : bool * world :=
  match faults w with
  | true :: fs => (false, set_faults fs w)
  | false :: fs => (true, set_files (<[at_ := bytes]> (files w)) (set_faults fs w))
  | [] => (true, set_files (<[at_ := bytes]> (files w)) w)
  end.

(** [os.listdir(d)]; the directory is there, the constructor having
    created it. *)
Definition listdir (d : string) (w : world) : list string :=
  map (fun kv => snd (fst kv))
    (filter (fun kv => fst (fst kv) = d) (map_to_list (files w))).

(** [sorted(names)]: str values compare code point by code point. *)
Definition sorted (names : list string) : list string := merge_sort String.le names.

(** A str is true unless it is empty; [None] is false. *)
Definition hash_truthy (h : option string) : bool :=
  match h with
  | Some s => negb (String.eqb s "")
  | None => false
  end.

Section WithExternals.

Variable ext : externals.

Definition _get_file_hash (m : monitor) (w : world) : option string * world :=
  match files w !! locate (csv_path m) with
  | Some bytes => (Some (md5_hexdigest ext bytes), w)
  | None => (None, logging ERROR "Error hashing file" w)
  end.

Definition _get_container_stats (m : monitor) (w : world) : option container_stats * world :=
  match docker w with
  | Some cs => (Some cs, w)
  | None => (None, logging ERROR "Error getting container stats" w)
  end.

Definition _backup_current_csv (now : clock) (m : monitor) (w : world)
  : option (string * string) * world :=
  let timestamp := backup_stamp now in
  let backup_path := (backup_dir m, basename (csv_path m) +:+ "." +:+ timestamp) in
  match files w !! locate (csv_path m) ≫= read_csv ext with
  | Some df =>
      let '(written, w) := write_file backup_path (to_csv ext df) w in
      if written
      then (Some backup_path,
            logging INFO ("Created backup at " +:+ path_join (fst backup_path) (snd backup_path)) w)
      else (None, logging ERROR "Error creating backup" w)
  | None => (None, logging ERROR "Error creating backup" w)
  end.

(** The entry of [col_stats] for one column; [None] where one of the
    four statistics raises. *)
Definition column_stat_of (current_df previous_df : frame) (col : string)
  : option (string * column_stat) :=
  current_mean ← mean ext current_df col;
  previous_mean ← mean ext previous_df col;
  current_std ← std ext current_df col;
  previous_std ← std ext previous_df col;
  Some (col, mk_column_stat current_mean previous_mean current_std previous_std).

(** The loop over the numeric columns of the current frame that the
    previous frame has as well. *)
Definition column_stats_of (current_df previous_df : frame)
  : option (list (string * column_stat)) :=
  mapM (column_stat_of current_df previous_df)
    (filter (fun col => col ∈ columns previous_df) (numeric_columns ext current_df)).

Definition _compare_csv_changes (now : clock) (m : monitor)
    (previous_path : string * string) (w : world) : option change_report * world :=
  match files w !! locate (csv_path m) ≫= read_csv ext,
        files w !! previous_path ≫= read_csv ext with
  | Some current_df, Some previous_df =>
      match column_stats_of current_df previous_df with
      | Some col_stats =>
          (Some (mk_report (len current_df) (len previous_df)
                   (Z.abs (len current_df - len previous_df)) (report_stamp now)
                   col_stats None), w)
      | None => (None, logging ERROR "Error comparing CSVs" w)
      end
  | _, _ => (None, logging ERROR "Error comparing CSVs" w)
  end.

Definition _save_metrics (now : clock) (m : monitor) (metrics : option change_report)
    (w : world) : world :=
  match metrics with
  | None => w
  | Some metrics =>
      let timestamp := metrics_stamp now in
      let metrics_path := (metrics_dir m, "metrics_" +:+ timestamp +:+ ".json") in
      let '(written, w) := write_file metrics_path (json_dumps ext metrics) w in
      if written
      then logging INFO ("Saved metrics to " +:+ path_join (fst metrics_path) (snd metrics_path)) w
      else logging ERROR "Error saving metrics" w
  end.

(** [if not self.alert_email: return]: no address and the empty
    address both end the call before any mail is made. *)
Definition _send_alert (m : monitor) (subject message : string) (w : world) : world :=
  let w := record_alert subject message w in
  match alert_email m with
  | None => w
  | Some to =>
      if String.eqb to "" then w
      else if smtp_up w
      then logging INFO ("Sent alert email to " +:+ to) (deliver to subject message w)
      else logging ERROR "Error sending alert" w
  end.

Definition backups_of (m : monitor) (w : world) : list string :=
  sorted (filter (fun f => String.prefix (basename (csv_path m)) f = true)
            (listdir (backup_dir m) w)).

Definition check_for_changes (now : clock) (m : monitor) (w : world) : monitor * world :=
  let '(current_hash, w) := _get_file_hash m w in
  let '(m, w) :=
    if hash_truthy current_hash && negb (bool_decide (current_hash = last_hash m)) then
      let w := logging INFO ("Changes detected in " +:+ csv_path m) w in
      let '(backup_path, w) := _backup_current_csv now m w in
      let backups := backups_of m w in
      let w :=
        if (2 <=? length backups)%nat then
          let previous_backup := (backup_dir m, nth (length backups - 2)%nat backups "") in
          let '(changes, w) := _compare_csv_changes now m previous_backup w in
          match changes with
          | Some changes =>
              let '(container_stats, w) := _get_container_stats m w in
              let changes :=
                match container_stats with
                | Some cs =>
                    mk_report (current_rows changes) (previous_rows changes)
                      (rows_changed changes) (timestamp changes) (column_stats changes)
                      (Some cs)
                | None => changes
                end in
              let w := _save_metrics now m (Some changes) w in
              if 1000 <? rows_changed changes
              then _send_alert m "ML Model Alert: Significant CSV Changes"
                     ("Detected " +:+ pretty (rows_changed changes)
                        +:+ " row changes in " +:+ csv_path m) w
              else w
          | None => w
          end
        else w in
      (set_last_hash current_hash m, w)
    else (m, w) in
  (set_last_check_time (check_time now) m, w).

(** [ModelMonitor(...)]: the constructor. *)
Definition init (now : clock) (container_name csv_path : string) (check_interval : Z)
    (backup_dir metrics_dir : string) (alert_email : option string) (w : world)
  : monitor * world :=
  let m := mk_monitor container_name csv_path check_interval backup_dir metrics_dir
             alert_email None (check_time now) in
  let '(h, w) := _get_file_hash m w in
  let m := set_last_hash h m in
  let '(_, w) := _backup_current_csv now m w in
  let w := logging INFO ("Started monitoring for CSV: " +:+ csv_path) w in
  let w := logging INFO ("Container: " +:+ container_name) w in
  (m, w).

End WithExternals.
End Monitor.

(** ** The vocabulary of the specification *)

Module Spec.

(** The documented normal ranges, as exact decimals. *)
Definition temp_range : Q * Q := (50, 90)%Q.
Definition vibration_range : Q * Q := (1 # 10, 5)%Q.
Definition pressure_range : Q * Q := (8 # 10, 12 # 10)%Q.
Definition rpm_range : Q * Q := (1000, 3000)%Q.

(** A reading lies outside a range when it is below the lower bound
    or above the upper bound. *)
Definition outside (range : Q * Q) (x : spec_float) : Prop :=
  F64.lies_below x (fst range) \/ F64.lies_above x (snd range).

(** A reading lies inside a range when it is a number between the
    bounds, both included. *)
Definition within (range : Q * Q) (x : spec_float) : Prop :=
  match x with
  | S754_zero _ => (fst range <= 0 /\ 0 <= snd range)%Q
  | S754_finite s m e =>
      (fst range <= F64.to_Q s m e /\ F64.to_Q s m e <= snd range)%Q
  | _ => False
  end.

(** Entries of a scored record. *)
Definition reading (r : dict) (k : string) : spec_float :=
  match r !! k with
  | Some (VFloat f) => f
  | _ => S754_nan
  end.

Definition flag (r : dict) (k : string) : bool :=
  match r !! k with
  | Some (VBool b) => b
  | _ => false
  end.

(** A rule category: whether the record matches it, the failure type
    it names and the probability it adds. *)
Record category := mk_category {
  matches : bool;
  label : string;
  increment : spec_float
}.

(** The four categories in their evaluation order, given which of
    them match. *)
Definition four (b1 b2 b3 b4 : bool) : list category :=
  [ mk_category b1 "Overheating" (F64.dec 3 10);
    mk_category b2 "Bearing Failure" (F64.dec 4 10);
    mk_category b3 "Pressure Issue" (F64.dec 2 10);
    mk_category b4 "Motor Issue" (F64.dec 1 10) ].

(** The categories of a scored record: temperature above its upper
    bound, vibration above its upper bound, pressure anomaly, rpm
    anomaly. *)
Definition categories (r : dict) : list category :=
  four (F64.ltb (F64.of_Z 90) (reading r "temperature"))
       (F64.ltb (F64.dec 50 10) (reading r "vibration"))
       (flag r "pressure_anomaly")
       (flag r "rpm_anomaly").

(** The type of the first matching category, ["Unknown"] when none
    matches. *)
Definition first_match (cs : list category) : string :=
  match List.find matches cs with
  | Some c => label c
  | None => "Unknown"
  end.

(** The increments of all matching categories, added in order from
    [0.0], then capped at [0.95]. *)
Definition accumulated (cs : list category) : spec_float :=
  fold_left (fun acc c => if matches c then F64.add acc (increment c) else acc)
    cs (F64.dec 0 10).

Definition capped (cs : list category) : spec_float :=
  Scorer.py_min (accumulated cs) (F64.dec 95 100).

(** Every category matching on the left also matches on the right. *)
Definition included (cs cs' : list category) : Prop :=
  Forall2 (fun c c' => matches c = true -> matches c' = true) cs cs'.

(** Scenario A and scenario B of the specification. *)
Definition scenario_A : dict :=
  list_to_map
    [ ("temperature", VInt 95); ("vibration", VFloat (F64.dec 60 10));
      ("pressure", VFloat (F64.dec 10 10)); ("rpm", VInt 2000) ].

Definition scenario_B : dict :=
  list_to_map
    [ ("temperature", VInt 70); ("vibration", VFloat (F64.dec 20 10));
      ("pressure", VFloat (F64.dec 10 10)); ("rpm", VInt 2000) ].

(** The formula [2 pi r t / 60] over the rationals. *)
Definition power_exact (pi : Q) (rotation_speed torque : Z) : Q :=
  (2 * pi * inject_Z rotation_speed * inject_Z torque / 60)%Q.

(** The comparison of two frames can compute its statistics: no
    [mean()] or [std()] of a compared column raises. *)
Definition statistics_defined (ext : Monitor.externals)
    (current_df previous_df : Monitor.frame) : Prop :=
  forall col : string,
    col ∈ Monitor.numeric_columns ext current_df ->
    col ∈ Monitor.columns previous_df ->
    is_Some (Monitor.mean ext current_df col) /\
    is_Some (Monitor.mean ext previous_df col) /\
    is_Some (Monitor.std ext current_df col) /\
    is_Some (Monitor.std ext previous_df col).

(** The binary64 nearest to pi. *)
Definition pi64 : spec_float := S754_finite false 7074237752028440 (-51).

End Spec.

(** ** Concrete runs *)

Module Example.

(** No text is a number. *)
Definition no_text : string -> option spec_float := fun _ => None.

Definition clock : string := "2024-01-01 00:00:00".

Definition scored (data : dict) : dict :=
  match Scorer.process_sensor_data no_text clock data with
  | Ok r => r
  | Raise _ => ∅
  end.

(** Scenario A with the pressure out of range as well. *)
Definition scenario_A_pressure : dict :=
  <["pressure" := VFloat (F64.dec 20 10)]> Spec.scenario_A.

(** Scenario B with a cold machine. *)
Definition scenario_B_cold : dict :=
  <["temperature" := VInt 40]> Spec.scenario_B.

Definition empty_disk : Sink.world := Sink.mk_world ∅ [] [].

(** A stand-in for the libraries, enough to run the monitor: a file
    of [k] characters reads as a frame of [k] rows and is written
    back as such. *)
Fixpoint stripes (k : nat) : string :=
  match k with
  | O => EmptyString
  | S k' => String "r" (stripes k')
  end.

Definition blank_frame (k : nat) : Monitor.frame :=
  Monitor.mk_frame [] (replicate k []).

Definition line_externals : Monitor.externals :=
  Monitor.mk_externals
    (fun bytes => "md5-" +:+ bytes)
    (fun bytes => Some (blank_frame (String.length bytes)))
    (fun df => stripes (length (Monitor.rows df)))
    (fun _ => [])
    (fun _ _ => Some S754_nan)
    (fun _ _ => Some S754_nan)
    (fun report => pretty (Monitor.rows_changed report)).

Definition target : string := "data/machine_1_sensor_data.csv".

(** A call during which every reading of the clock renders as the one
    stamp. *)
Definition at_ (stamp : string) : Monitor.clock :=
  Monitor.mk_clock stamp stamp stamp stamp.

(** Scenario C: the monitor starts on a file of 500 rows, which then
    grows to 1600 rows. *)
Definition disk_500 : Monitor.world :=
  Monitor.mk_world {[ Monitor.locate target := stripes 500 ]} [] None false [] [] [].

Definition started : Monitor.monitor * Monitor.world :=
  Monitor.init line_externals (at_ "20240101_000000") "busy_haslett" target 300
    "./csv_backups" "./metrics" (Some "ops@example.com") disk_500.

Definition grown : Monitor.world :=
  Monitor.set_files
    (<[Monitor.locate target := stripes 1600]> (Monitor.files (snd started)))
    (snd started).

End Example.

(** ** The serial reader: [ArduinoConnector] *)

Module Connector.

(** What the port offers when the loop looks at it: nothing waiting, a
    line for [readline()], or a [SerialException]. *)
Inductive port_event :=
| Quiet
| Line (raw : string)
| Broken.

(** One turn of the loop as the outside world shapes it: whether
    opening the port would succeed, what the port offers, and the
    reading of [time.time()]. *)
Record tick := mk_tick {
  opens : bool;
  port_offers : port_event;
  time_now : spec_float
}.

(** What [json.loads] makes of a line: an object, some other value, or
    a [JSONDecodeError]. *)
Inductive parsed :=
| JObject (d : dict)
| JOther
| JInvalid.

(** The library calls on the received bytes; [decode_utf8] answers
    [None] where [bytes.decode] raises [UnicodeDecodeError]. *)
Record codec := mk_codec {
  decode_utf8 : string -> option string;
  strip : string -> string;
  json_loads : string -> parsed
}.

(** The attributes of the connector; [serial_conn] is [None] until a
    port was opened and then tells whether that port is still open.
    A [data_queue] of [None] is the default of the constructor. *)
Record connector := mk_connector {
  port : string;
  baudrate : Z;
  serial_conn : option bool;
  connected : bool;
  data_queue : option (list dict);
  running : bool;
  stdout : list string
}.

Definition print (line : string) (c : connector) : connector :=
  mk_connector (port c) (baudrate c) (serial_conn c) (connected c) (data_queue c)
    (running c) (stdout c ++ [line]).

(** [ArduinoConnector(port, baudrate, data_queue)] *)
Definition init (port : string) (baudrate : Z) (data_queue : option (list dict)) : connector :=
  mk_connector port baudrate None false data_queue false [].

(** [connect()] *)
Definition connect (opens : bool) (c : connector) : bool * connector :=
  if opens
  then (true,
        print ("Connected to Arduino on " +:+ port c)
          (mk_connector (port c) (baudrate c) (Some true) true (data_queue c)
             (running c) (stdout c)))
  else (false, print "Failed to connect to Arduino" c).

(** The [except serial.SerialException] handler. *)
Definition drop_connection (c : connector) : connector :=
  let c := print "Serial connection error" c in
  mk_connector (port c) (baudrate c)
    (match serial_conn c with Some _ => Some false | None => None end)
    false (data_queue c) (running c) (stdout c).

(** [self.running = b] *)
Definition set_running (b : bool) (c : connector) : connector :=
  mk_connector (port c) (baudrate c) (serial_conn c) (connected c) (data_queue c)
    b (stdout c).

(** The connector holds an open port whenever it says it is
    connected. *)
Definition well_formed (c : connector) : Prop :=
  connected c = true -> serial_conn c = Some true.

(** [self.data_queue.put(sensor_data)], then the print. *)
Definition put (sensor_data : dict) (c : connector) : connector :=
  match data_queue c with
  | Some q =>
      print "Data received"
        (mk_connector (port c) (baudrate c) (serial_conn c) (connected c)
           (Some (q ++ [sensor_data])) (running c) (stdout c))
  | None => c
  end.

Section WithCodec.

Variable cd : codec.

(** One pass through the body of the [while self.running:] loop.  An
    exception that no handler of the loop catches leaves through
    [Raise]. *)
Definition read_step (ev : tick) : io connector unit :=
  fun c =>
    let '(go, c) :=
      if connected c then (true, c)
      else
        let '(ok, c) := connect (opens ev) c in
        if ok then (true, c)
        else (false, print "Waiting to reconnect to Arduino..." c) in
    if negb go then (Ok tt, c)
    else
      match port_offers ev with
      | Broken => (Ok tt, drop_connection c)
      | Quiet => (Ok tt, c)
      | Line raw =>
          match decode_utf8 cd raw with
          | None => (Raise ValueError, c)
          | Some text =>
              let line := strip cd text in
              match json_loads cd line with
              | JInvalid => (Ok tt, print ("Invalid data received: " +:+ line) c)
              | JOther => (Raise TypeError, c)
              | JObject d =>
                  let sensor_data := <["timestamp" := VFloat (time_now ev)]> d in
                  (Ok tt, put sensor_data c)
              end
          end
      end.

(** The loop, for as many turns as there are ticks. *)
Fixpoint read_loop (ticks : list tick) : io connector unit :=
  match ticks with
  | [] => mret tt
  | ev :: rest =>
      fun c =>
        if running c then (_ ← read_step ev; read_loop rest) c
        else (Ok tt, c)
  end.

(** [read_data()] *)
Definition read_data (ticks : list tick) : io connector unit :=
  fun c => read_loop ticks (set_running true c).

(** The sample a tick contributes to the queue of a live connection,
    if any. *)
Definition accepted (ev : tick) : option dict :=
  match port_offers ev with
  | Line raw =>
      match decode_utf8 cd raw with
      | Some text =>
          match json_loads cd (strip cd text) with
          | JObject d => Some (<["timestamp" := VFloat (time_now ev)]> d)
          | _ => None
          end
      | None => None
      end
  | _ => None
  end.

(** A tick that no handler of the loop would stumble on: its line, if
    any, decodes and is not a JSON value other than an object. *)
Definition harmless (ev : tick) : Prop :=
  match port_offers ev with
  | Line raw =>
      match decode_utf8 cd raw with
      | Some text => json_loads cd (strip cd text) <> JOther
      | None => False
      end
  | _ => True
  end.

(** A tick on which the port can be opened and read without error. *)
Definition readable (ev : tick) : Prop :=
  opens ev = true /\ port_offers ev <> Broken /\ harmless ev.

End WithCodec.
End Connector.

(** ** The monitoring loop: [run_monitor_loop] *)

Module Loop.
Section WithExternals.

Variable ext : Monitor.externals.

(** The first turns of the endless loop, one per entry of [clock],
    which holds the readings of the clock during that turn: a check,
    the log line, the sleep. *)
Fixpoint run_monitor_loop (clock : list Monitor.clock) (m : Monitor.monitor)
    (w : Monitor.world)
  : Monitor.monitor * Monitor.world :=
  match clock with
  | [] => (m, w)
  | now :: later =>
      let '(m, w) := Monitor.check_for_changes ext now m w in
      let w :=
        Monitor.logging Monitor.INFO
          ("Next check in " +:+ pretty (Monitor.check_interval m) +:+ " seconds") w in
      run_monitor_loop later m w
  end.

End WithExternals.
End Loop.

(** ** The consumer: [data_processing_loop] of [main.py] *)

Module Pipeline.

(** The further positional arguments that [main.py] passes after the
    sample or the record. *)
Inductive extra_arg :=
| TheModel
| TheCsvFile.

Record state := mk_state {
  data_queue : list dict;
  (** the count that [put] raises and [task_done] lowers *)
  unfinished_tasks : nat;
  disk : Sink.world;
  (** [csv_file and not csv_file.closed] *)
  csv_open : bool;
  stdout : list string
}.

Definition set_queue (q : list dict) (st : state) : state :=
  mk_state q (unfinished_tasks st) (disk st) (csv_open st) (stdout st).
Definition set_disk (d : Sink.world) (st : state) : state :=
  mk_state (data_queue st) (unfinished_tasks st) d (csv_open st) (stdout st).
Definition print (line : string) (st : state) : state :=
  mk_state (data_queue st) (unfinished_tasks st) (disk st) (csv_open st) (stdout st ++ [line]).

(** [data_queue.task_done()]; called once too often it raises
    [ValueError]. *)
Definition task_done (st : state) : result state :=
  match unfinished_tasks st with
  | O => Raise ValueError
  | S k => Ok (mk_state (data_queue st) k (disk st) (csv_open st) (stdout st))
  end.

(** [v == 1] *)
Definition equals_one (v : pyval) : bool :=
  match v with
  | VBool b => b
  | VInt z => (z =? 1)%Z
  | VFloat f => SFeqb f (F64.of_Z 1)
  | _ => false
  end.

Section WithEnv.

Variable float_of_str : string -> option spec_float.
Variable DATA_DIR : string.
Variable repr_float : spec_float -> string.

(** [f"{v:.4f}"]; [None] where the formatting raises. *)
Variable format_4f : pyval -> option string.

(** [process_sensor_data] called with a sample and further positional
    arguments: the function has the one parameter [data], so any
    further argument is a [TypeError]. *)
Definition call_process_sensor_data (now : string) (data : dict) (more : list extra_arg)
  : result dict :=
  match more with
  | [] => Scorer.process_sensor_data float_of_str now data
  | _ :: _ => Raise TypeError
  end.

(** [store_data] called in the same way: one parameter as well. *)
Definition call_store_data (processed_data : dict) (more : list extra_arg)
  : io Sink.world bool :=
  fun w =>
    match more with
    | [] =>
        let '(ok, w') := Sink.store_data DATA_DIR repr_float processed_data w in
        (Ok ok, w')
    | _ :: _ => (Raise TypeError, w)
    end.

(** The [except Exception] handler of the loop. *)
Definition handler (st : state) : state := print "Error in data processing" st.

(** One turn of [while not stop_event.is_set():]; [now] is the clock
    as the scorer reads it. *)
Definition loop_turn (now : string) (st : state) : state :=
  match data_queue st with
  | [] => st
  | data :: rest =>
      let st := set_queue rest st in
      match call_process_sensor_data now data [TheModel] with
      | Raise _ => handler st
      | Ok processed_data =>
          let '(stored, st) :=
            if csv_open st then
              match call_store_data processed_data [TheCsvFile] (disk st) with
              | (Ok _, d) => (true, set_disk d st)
              | (Raise _, d) => (false, set_disk d st)
              end
            else (true, st) in
          if negb stored then handler st
          else
            match processed_data !! "prediction_label" with
            | None => handler st
            | Some label =>
                match processed_data !! "prediction_score" ≫= format_4f with
                | None => handler st
                | Some score =>
                    let st :=
                      print ((if equals_one label
                              then "FAILURE PREDICTED! Score: "
                              else "Normal operation. Score: ") +:+ score) st in
                    match task_done st with
                    | Ok st' => st'
                    | Raise _ => handler st
                    end
                end
            end
      end
  end.

(** The loop, for as many turns as the stop event allows. *)
Definition data_processing_loop (clock : list string) (st : state) : state :=
  foldl (fun st now => loop_turn now st) st clock.

End WithEnv.
End Pipeline.

(** ** Vocabulary for the further properties *)

Module Derived.

(** The error of the first conversion that raises. *)
Fixpoint first_error (conversions : list (result spec_float)) : option exn :=
  match conversions with
  | [] => None
  | Raise e :: _ => Some e
  | Ok _ :: rest => first_error rest
  end.

(** The keys of every scored record, and the two more of an anomalous
    one. *)
Definition record_keys : gset string :=
  list_to_set
    [ "timestamp"; "machine_id"; "temperature"; "vibration"; "pressure"; "rpm";
      "vibration_to_rpm_ratio"; "temperature_pressure_ratio"; "temp_anomaly";
      "vibration_anomaly"; "pressure_anomaly"; "rpm_anomaly"; "anomaly_detected" ].

Definition failure_keys : gset string :=
  list_to_set [ "failure_probability"; "failure_type" ].

(** Whether [store_data] treats a record as an alert. *)
Definition is_alert (record : dict) : bool :=
  truthy (dict_get record "anomaly_detected" (VBool false)).

(** A CSV file that received these records, the first on creation. *)
Definition csv_of (records : list dict) : option (list Sink.chunk) :=
  match records with
  | [] => None
  | first :: _ =>
      Some (Sink.CsvHeader (map fst (map_to_list first)) :: map Sink.CsvRow records)
  end.

(** The latest-alert file after these alerts. *)
Definition snapshot_of (alerts : list dict) : option (list Sink.chunk) :=
  (fun record => [Sink.JsonDoc record]) <$> last alerts.

(** The keys of a mock sample. *)
Definition mock_keys : gset string :=
  list_to_set
    [ "tool_wear"; "air_temp"; "process_temp"; "rotation_speed"; "torque"; "timestamp";
      "temp_diff"; "power" ].

(** A file that a check writes, or leaves alone. *)
Definition write_opt (at_ : string * string) (bytes : option string)
    (fs : gmap (string * string) string) : gmap (string * string) string :=
  match bytes with
  | Some b => <[at_ := b]> fs
  | None => fs
  end.

(** The mails that calls of [_send_alert] put into the outbox. *)
Definition mails_for (m : Monitor.monitor) (up : bool) (calls : list (string * string))
  : list (string * string * string) :=
  match Monitor.alert_email m with
  | Some to =>
      if negb (String.eqb to "") && up
      then map (fun call => (to, fst call, snd call)) calls
      else []
  | None => []
  end.

(** Two worlds with the same alerts, mails, mail server and container,
    the log file of the second continuing that of the first. *)
Definition quiet (w w' : Monitor.world) : Prop :=
  Monitor.alerts_raised w' = Monitor.alerts_raised w /\
  Monitor.outbox w' = Monitor.outbox w /\
  Monitor.smtp_up w' = Monitor.smtp_up w /\
  Monitor.docker w' = Monitor.docker w /\
  Monitor.log_file w `prefix_of` Monitor.log_file w'.

(** The monitor has nothing to detect: the file is missing, hashes to
    the empty str, or hashes to the stored value. *)
Definition settled (ext : Monitor.externals) (m : Monitor.monitor) (w : Monitor.world) : Prop :=
  match Monitor.files w !! Monitor.locate (Monitor.csv_path m) with
  | None => True
  | Some bytes =>
      Monitor.md5_hexdigest ext bytes = ""
      \/ Monitor.last_hash m = Some (Monitor.md5_hexdigest ext bytes)
  end.

(** The two log lines of a loop turn that finds no file. *)
Definition missing_file_lines (m : Monitor.monitor) : list (Monitor.level * string) :=
  [ (Monitor.ERROR, "Error hashing file");
    (Monitor.INFO, "Next check in " +:+ pretty (Monitor.check_interval m) +:+ " seconds") ].

End Derived.

(** ** Further concrete runs *)

Module Cases.

(** A sample whose temperature is text and whose rpm is [None]. *)
Definition unreadable_sample : dict :=
  list_to_map [ ("temperature", VStr "hot"); ("rpm", VNone) ].

(** A sample whose four readings are NaN. *)
Definition nan_sample : dict :=
  list_to_map
    [ ("temperature", VFloat S754_nan); ("vibration", VFloat S754_nan);
      ("pressure", VFloat S754_nan); ("rpm", VFloat S754_nan) ].

(** A disk on which the second write fails. *)
Definition flaky_disk : Sink.world := Sink.mk_world ∅ [false; true] [].

(** A monitor started before its file exists, and the disk once the
    file has appeared with 2000 rows. *)
Definition bare_disk : Monitor.world := Monitor.mk_world ∅ [] None false [] [] [].

Definition early : Monitor.monitor * Monitor.world :=
  Monitor.init Example.line_externals (Example.at_ "20240101_000000") "busy_haslett"
    Example.target 300
    "./csv_backups" "./metrics" (Some "ops@example.com") bare_disk.


(** The file of scenario C grown from 500 to 1500 rows. *)
Definition grown_to_1500 : Monitor.world :=
  Monitor.set_files
    (<[Monitor.locate Example.target := Example.stripes 1500]>
       (Monitor.files (snd Example.started)))
    (snd Example.started).

(** A stand-in for the decoding and parsing of lines: the line [{}] is
    an object, the line [42] a number, anything else no JSON. *)
Definition line_codec : Connector.codec :=
  Connector.mk_codec
    (fun raw => Some raw)
    (fun text => text)
    (fun line =>
       if String.eqb line "{}" then Connector.JObject ∅
       else if String.eqb line "42" then Connector.JOther
       else Connector.JInvalid).

Definition fresh_connector : Connector.connector :=
  Connector.init "/dev/ttyACM0" 9600 (Some []).

Definition live_connector : Connector.connector :=
  snd (Connector.connect true fresh_connector).

(** An object, a line of noise, a silent turn. *)
Definition calm_ticks : list Connector.tick :=
  [ Connector.mk_tick true (Connector.Line "{}") (F64.of_Z 1);
    Connector.mk_tick true (Connector.Line "noise") (F64.of_Z 2);
    Connector.mk_tick true Connector.Quiet (F64.of_Z 3) ].

(** Two turns with the port unplugged. *)
Definition unplugged_ticks : list Connector.tick :=
  [ Connector.mk_tick false (Connector.Line "{}") (F64.of_Z 1);
    Connector.mk_tick false Connector.Quiet (F64.of_Z 2) ].

End Cases.

(** * Properties *)

(** ** The order of binary64 values against decimal bounds *)

Section Binary64Order.

Lemma digits2_bounds (m : positive) :
  2 ^ (Zpos (digits2_pos m) - 1) <= Zpos m < 2 ^ Zpos (digits2_pos m).
Proof.
  induction m as [m IH | m IH |]; cbn [digits2_pos].
  - rewrite Pos2Z.inj_succ.
    replace (Z.succ (Zpos (digits2_pos m)) - 1) with (Z.succ (Zpos (digits2_pos m) - 1)) by lia.
    rewrite !Z.pow_succ_r by lia. lia.
  - rewrite Pos2Z.inj_succ.
    replace (Z.succ (Zpos (digits2_pos m)) - 1) with (Z.succ (Zpos (digits2_pos m) - 1)) by lia.
    rewrite !Z.pow_succ_r by lia. lia.
  - cbn. lia.
Qed.

Lemma bounded_inv (m : positive) (e : Z) :
  bounded F64.prec F64.emax m e = true ->
  -1074 <= e /\ Zpos m < 2 ^ 53 /\ (-1074 < e -> 2 ^ 52 <= Zpos m).
Proof.
  unfold bounded, canonical_mantissa, fexp, SpecFloat.emin, F64.prec, F64.emax.
  intros [Hc _]%andb_prop. apply Z.eqb_eq in Hc.
  pose proof (digits2_bounds m) as [Hlo Hhi].
  set (d := Zpos (digits2_pos m)) in *.
  assert (Hd : 0 < d) by (unfold d; lia).
  assert (Hcase : d = 53 \/ (e = -1074 /\ d <= 53)) by lia.
  split; [lia|]. split.
  - eapply Z.lt_le_trans; [exact Hhi|]. apply Z.pow_le_mono_r; lia.
  - intros He. destruct Hcase as [->|[? _]]; [|lia]. exact Hlo.
Qed.

Lemma pow2_pos (e : Z) : (0 < 2 ^ e)%Q.
Proof. apply Qpower_0_lt. reflexivity. Qed.

Lemma to_Q_mono (e : Z) (m1 m2 : positive) :
  Zpos m1 <= Zpos m2 -> (F64.to_Q false m1 e <= F64.to_Q false m2 e)%Q.
Proof.
  intros H. unfold F64.to_Q; cbn [cond_Zopp].
  apply Qmult_le_compat_r; [|apply Qlt_le_weak, pow2_pos].
  rewrite <- Zle_Qle. exact H.
Qed.

Lemma to_Q_next_exponent (m1 m2 : positive) (e1 e2 : Z) :
  e1 < e2 -> Zpos m1 < 2 ^ 53 -> 2 ^ 52 <= Zpos m2 ->
  (F64.to_Q false m1 e1 <= F64.to_Q false m2 e2)%Q.
Proof.
  intros He H1 H2. unfold F64.to_Q; cbn [cond_Zopp].
  pose proof (pow2_pos e1) as Hp.
  assert (E : (2 ^ (e1 + 1) == 2 ^ e1 * inject_Z 2)%Q)
    by (rewrite Qpower_plus by discriminate; reflexivity).
  apply Qle_trans with (inject_Z (2 ^ 52) * 2 ^ (e1 + 1))%Q.
  - rewrite E.
    setoid_replace (inject_Z (2 ^ 52) * (2 ^ e1 * inject_Z 2))%Q
      with (inject_Z (2 ^ 53) * 2 ^ e1)%Q using relation Qeq
      by (change (2 ^ 53) with (2 ^ 52 * 2); rewrite inject_Z_mult; ring).
    apply Qmult_le_compat_r; [|apply Qlt_le_weak, Hp].
    rewrite <- Zle_Qle. lia.
  - apply Qle_trans with (inject_Z (2 ^ 52) * 2 ^ e2)%Q.
    + apply Qmult_le_l; [reflexivity|].
      apply Qpower_le_compat_l; [lia | discriminate].
    + apply Qmult_le_compat_r; [|apply Qlt_le_weak, pow2_pos].
      rewrite <- Zle_Qle. exact H2.
Qed.

Lemma to_Q_positive (m : positive) (e : Z) : (0 < F64.to_Q false m e)%Q.
Proof.
  unfold F64.to_Q; cbn [cond_Zopp].
  apply Qmult_lt_0_compat; [reflexivity | apply pow2_pos].
Qed.

Lemma to_Q_negative (m : positive) (e : Z) : (F64.to_Q true m e < 0)%Q.
Proof.
  unfold F64.to_Q; cbn [cond_Zopp].
  pose proof (to_Q_positive m e) as Hp. unfold F64.to_Q in Hp; cbn [cond_Zopp] in Hp.
  assert (E : (inject_Z (- Zpos m) * 2 ^ e == - (inject_Z (Zpos m) * 2 ^ e))%Q)
    by (rewrite inject_Z_opp; ring).
  rewrite E. apply Qopp_lt_compat in Hp. exact Hp.
Qed.

Lemma ltb_finite_pos (m1 m2 : positive) (e1 e2 : Z) :
  F64.ltb (S754_finite false m1 e1) (S754_finite false m2 e2) =
  match e1 ?= e2 with
  | Lt => true
  | Gt => false
  | Eq => Pos.ltb m1 m2
  end.
Proof.
  unfold F64.ltb, SFltb, SFcompare, Pos.ltb. fold (Pos.compare m1 m2).
  destruct (e1 ?= e2); reflexivity.
Qed.

(** Comparing against a literal that sits at or just above a bound
    [q]: no binary64 lies strictly between its predecessor and it. *)
Lemma ltb_below (x : spec_float) (md : positive) (ed : Z) (q : Q) :
  F64.binary64 x -> F64.binary64 (S754_finite false md ed) ->
  2 ^ 52 < Zpos md ->
  (F64.to_Q false (Pos.pred md) ed < q)%Q -> (q <= F64.to_Q false md ed)%Q ->
  F64.ltb x (S754_finite false md ed) = true <-> F64.lies_below x q.
Proof.
  intros Hx Hd Hmd Hlo Hhi.
  assert (Hq : (0 < q)%Q) by (eapply Qlt_trans; [apply to_Q_positive | exact Hlo]).
  apply bounded_inv in Hd as (Hed & Hmd53 & _).
  assert (Hpred : Zpos (Pos.pred md) = Zpos md - 1) by lia.
  destruct x as [s | s | | s m e]; cbn [F64.lies_below].
  - by split.
  - by destruct s.
  - by split.
  - apply bounded_inv in Hx as (He & Hm53 & Hm52).
    destruct s.
    + split; [intros _ | reflexivity].
      eapply Qlt_trans; [apply to_Q_negative | exact Hq].
    + rewrite ltb_finite_pos.
      destruct (Z.compare_spec e ed) as [-> | Hlt | Hgt].
      * destruct (Pos.ltb_spec m md) as [Hm | Hm]; split; try done.
        -- intros _. eapply Qle_lt_trans; [|exact Hlo]. apply to_Q_mono. lia.
        -- intros Hc. exfalso. apply (Qlt_irrefl q).
           eapply Qle_lt_trans; [exact Hhi|].
           eapply Qle_lt_trans; [|exact Hc]. apply to_Q_mono. lia.
      * split; [intros _ | reflexivity].
        eapply Qle_lt_trans; [|exact Hlo]. apply to_Q_next_exponent; lia.
      * split; [done|]. intros Hc. exfalso. apply (Qlt_irrefl q).
        eapply Qle_lt_trans; [exact Hhi|].
        eapply Qle_lt_trans; [|exact Hc]. apply to_Q_next_exponent; lia.
Qed.

(** Comparing against a literal that sits at or just below a bound. *)
Lemma ltb_above (x : spec_float) (md : positive) (ed : Z) (q : Q) :
  F64.binary64 x -> F64.binary64 (S754_finite false md ed) ->
  2 ^ 52 <= Zpos md -> Zpos md + 1 < 2 ^ 53 ->
  (F64.to_Q false md ed <= q)%Q -> (q < F64.to_Q false (Pos.succ md) ed)%Q ->
  F64.ltb (S754_finite false md ed) x = true <-> F64.lies_above x q.
Proof.
  intros Hx Hd Hmd Hsucc Hlo Hhi.
  assert (Hq : (0 < q)%Q) by (eapply Qlt_le_trans; [apply to_Q_positive | exact Hlo]).
  apply bounded_inv in Hd as (Hed & Hmd53 & _).
  destruct x as [s | s | | s m e]; cbn [F64.lies_above].
  - split; [done|]. intros Hc. exfalso. apply (Qlt_irrefl q). by eapply Qlt_trans.
  - by destruct s.
  - by split.
  - apply bounded_inv in Hx as (He & Hm53 & Hm52).
    destruct s.
    + split; [done|]. intros Hc. exfalso. apply (Qlt_irrefl q).
      eapply Qlt_trans; [exact Hc|].
      eapply Qlt_trans; [apply to_Q_negative | exact Hq].
    + rewrite ltb_finite_pos.
      destruct (Z.compare_spec ed e) as [<- | Hlt | Hgt].
      * destruct (Pos.ltb_spec md m) as [Hm | Hm]; split; try done.
        -- intros _. eapply Qlt_le_trans; [exact Hhi|]. apply to_Q_mono. lia.
        -- intros Hc. exfalso. apply (Qlt_irrefl q).
           eapply Qlt_le_trans; [exact Hc|].
           eapply Qle_trans; [|exact Hlo]. apply to_Q_mono. lia.
      * split; [intros _ | reflexivity].
        eapply Qlt_le_trans; [exact Hhi|]. apply to_Q_next_exponent; lia.
      * split; [done|]. intros Hc. exfalso. apply (Qlt_irrefl q).
        eapply Qlt_le_trans; [exact Hc|].
        eapply Qle_trans; [|exact Hlo]. apply to_Q_next_exponent; lia.
Qed.

End Binary64Order.

(** ** The scorer *)

Section ScorerFacts.
Variable float_of_str : string -> option spec_float.
Abbreviation py_float := (Scorer.py_float float_of_str).
Abbreviation process_sensor_data := (Scorer.process_sensor_data float_of_str).

Lemma py_max_nonzero (a : spec_float) (m : positive) (e : Z) :
  F64.is_zero (Scorer.py_max a (S754_finite false m e)) = false.
Proof.
  unfold Scorer.py_max.
  destruct (F64.ltb a _) eqn:E; [reflexivity|].
  by destruct a.
Qed.

Lemma py_truediv_max (a b c : spec_float) (m : positive) (e : Z) :
  c = S754_finite false m e ->
  Scorer.py_truediv a (Scorer.py_max b c) = Ok (F64.div a (Scorer.py_max b c)).
Proof. intros ->. unfold Scorer.py_truediv. by rewrite py_max_nonzero. Qed.

(** The entries of the scored record, in terms of the four readings. *)
Lemma process_fields (now : string) (data : dict) (t v p n : spec_float) :
  py_float (dict_get data "temperature" (VInt 0)) = Ok t ->
  py_float (dict_get data "vibration" (VInt 0)) = Ok v ->
  py_float (dict_get data "pressure" (VInt 0)) = Ok p ->
  py_float (dict_get data "rpm" (VInt 0)) = Ok n ->
  let ta := Scorer.anomalous Scorer.temp_normal t in
  let va := Scorer.anomalous Scorer.vibration_normal v in
  let pa := Scorer.anomalous Scorer.pressure_normal p in
  let ra := Scorer.anomalous Scorer.rpm_normal n in
  let rules := Scorer.failure_rules t v ta va pa ra in
  exists r,
    process_sensor_data now data = Ok r /\
    r !! "temperature" = Some (VFloat t) /\
    r !! "vibration" = Some (VFloat v) /\
    r !! "pressure" = Some (VFloat p) /\
    r !! "rpm" = Some (VFloat n) /\
    r !! "temp_anomaly" = Some (VBool ta) /\
    r !! "vibration_anomaly" = Some (VBool va) /\
    r !! "pressure_anomaly" = Some (VBool pa) /\
    r !! "rpm_anomaly" = Some (VBool ra) /\
    r !! "anomaly_detected" = Some (VBool (ta || va || pa || ra)) /\
    r !! "failure_probability" =
      (if ta || va || pa || ra then Some (VFloat (fst rules)) else None) /\
    r !! "failure_type" =
      (if ta || va || pa || ra then Some (VStr (snd rules)) else None).
Proof.
  intros Ht Hv Hp Hn ta va pa ra rules.
  unfold Scorer.process_sensor_data. rewrite Ht, Hv, Hp, Hn.
  cbn [mbind result_bind].
  rewrite (py_truediv_max _ _ (F64.of_Z 1) (2 ^ 52)%positive (-52)) by reflexivity.
  rewrite (py_truediv_max _ _ (F64.dec 1 10) 7205759403792794%positive (-56)) by reflexivity.
  cbn [mbind result_bind].
  fold ta va pa ra. fold rules.
  generalize (F64.div v (Scorer.py_max n (F64.of_Z 1))).
  generalize (F64.div t (Scorer.py_max p (F64.dec 1 10))).
  generalize (dict_get data "machine_id" (VStr "unknown")).
  destruct rules as [fp ft]. clearbody ta va pa ra.
  intros mid q1 q2.
  destruct (ta || va || pa || ra); eexists; (split; [reflexivity|]);
    repeat split; reflexivity.
Qed.

(** A failing conversion is the only way [process_sensor_data] can
    raise. *)
Lemma process_inv (now : string) (data : dict) (r : dict) :
  process_sensor_data now data = Ok r ->
  exists t v p n,
    py_float (dict_get data "temperature" (VInt 0)) = Ok t /\
    py_float (dict_get data "vibration" (VInt 0)) = Ok v /\
    py_float (dict_get data "pressure" (VInt 0)) = Ok p /\
    py_float (dict_get data "rpm" (VInt 0)) = Ok n.
Proof.
  unfold Scorer.process_sensor_data.
  destruct (py_float (dict_get data "temperature" _)) as [t|]; [|discriminate].
  destruct (py_float (dict_get data "vibration" _)) as [v|]; [|discriminate].
  destruct (py_float (dict_get data "pressure" _)) as [p|]; [|discriminate].
  destruct (py_float (dict_get data "rpm" _)) as [n|]; [|discriminate].
  intros _. by exists t, v, p, n.
Qed.

Lemma process_record (now : string) (data : dict) (r : dict) :
  process_sensor_data now data = Ok r ->
  exists t v p n,
    let ta := Scorer.anomalous Scorer.temp_normal t in
    let va := Scorer.anomalous Scorer.vibration_normal v in
    let pa := Scorer.anomalous Scorer.pressure_normal p in
    let ra := Scorer.anomalous Scorer.rpm_normal n in
    let rules := Scorer.failure_rules t v ta va pa ra in
    r !! "temperature" = Some (VFloat t) /\
    r !! "vibration" = Some (VFloat v) /\
    r !! "pressure_anomaly" = Some (VBool pa) /\
    r !! "rpm_anomaly" = Some (VBool ra) /\
    r !! "anomaly_detected" = Some (VBool (ta || va || pa || ra)) /\
    r !! "failure_probability" =
      (if ta || va || pa || ra then Some (VFloat (fst rules)) else None) /\
    r !! "failure_type" =
      (if ta || va || pa || ra then Some (VStr (snd rules)) else None).
Proof.
  intros Hr. destruct (process_inv _ _ _ Hr) as (t & v & p & n & Ht & Hv & Hp & Hn).
  destruct (process_fields now data t v p n Ht Hv Hp Hn)
    as (r' & Hr' & H1 & H2 & _ & _ & _ & _ & H3 & H4 & H5 & H6 & H7).
  assert (r' = r) as -> by congruence.
  by exists t, v, p, n.
Qed.

(** The imperative accumulation agrees with the specification's
    reading of it: the capped sum over all matching categories and
    the label of the first one. *)
Lemma failure_rules_spec (t v : spec_float) (pa ra : bool) :
  Scorer.failure_rules t v
    (Scorer.anomalous Scorer.temp_normal t)
    (Scorer.anomalous Scorer.vibration_normal v) pa ra =
  let cs :=
    Spec.four (F64.ltb (F64.of_Z 90) t) (F64.ltb (F64.dec 50 10) v) pa ra in
  (Spec.capped cs, Spec.first_match cs).
Proof.
  unfold Scorer.failure_rules, Scorer.anomalous.
  change (snd Scorer.temp_normal) with (F64.of_Z 90).
  change (snd Scorer.vibration_normal) with (F64.dec 50 10).
  destruct (F64.ltb (F64.of_Z 90) t), (F64.ltb t _),
    (F64.ltb (F64.dec 50 10) v), (F64.ltb v _), pa, ra; reflexivity.
Qed.

Lemma categories_of_record (r : dict) (t v : spec_float) (pa ra : bool) :
  r !! "temperature" = Some (VFloat t) ->
  r !! "vibration" = Some (VFloat v) ->
  r !! "pressure_anomaly" = Some (VBool pa) ->
  r !! "rpm_anomaly" = Some (VBool ra) ->
  Spec.categories r =
    Spec.four (F64.ltb (F64.of_Z 90) t) (F64.ltb (F64.dec 50 10) v) pa ra.
Proof.
  intros Ht Hv Hp Hn. unfold Spec.categories, Spec.reading, Spec.flag.
  by rewrite Ht, Hv, Hp, Hn.
Qed.

End ScorerFacts.

Section RangeChecks.

Lemma anomalous_outside (lo_m hi_m : positive) (lo_e hi_e : Z) (range : Q * Q)
    (x : spec_float) :
  F64.binary64 (S754_finite false lo_m lo_e) ->
  F64.binary64 (S754_finite false hi_m hi_e) ->
  2 ^ 52 < Zpos lo_m -> 2 ^ 52 <= Zpos hi_m -> Zpos hi_m + 1 < 2 ^ 53 ->
  (F64.to_Q false (Pos.pred lo_m) lo_e < fst range)%Q ->
  (fst range <= F64.to_Q false lo_m lo_e)%Q ->
  (F64.to_Q false hi_m hi_e <= snd range)%Q ->
  (snd range < F64.to_Q false (Pos.succ hi_m) hi_e)%Q ->
  F64.binary64 x ->
  Scorer.anomalous (S754_finite false lo_m lo_e, S754_finite false hi_m hi_e) x = true
  <-> Spec.outside range x.
Proof.
  intros Hlo Hhi H1 H2 H3 H4 H5 H6 H7 Hx.
  unfold Scorer.anomalous, Spec.outside; cbn [fst snd].
  rewrite orb_true_iff, ltb_below, ltb_above by eassumption.
  reflexivity.
Qed.

Lemma temp_anomalous_spec (x : spec_float) :
  F64.binary64 x ->
  Scorer.anomalous Scorer.temp_normal x = true <-> Spec.outside Spec.temp_range x.
Proof. apply anomalous_outside; by vm_compute. Qed.

Lemma vibration_anomalous_spec (x : spec_float) :
  F64.binary64 x ->
  Scorer.anomalous Scorer.vibration_normal x = true <-> Spec.outside Spec.vibration_range x.
Proof. apply anomalous_outside; by vm_compute. Qed.

Lemma pressure_anomalous_spec (x : spec_float) :
  F64.binary64 x ->
  Scorer.anomalous Scorer.pressure_normal x = true <-> Spec.outside Spec.pressure_range x.
Proof. apply anomalous_outside; by vm_compute. Qed.

Lemma rpm_anomalous_spec (x : spec_float) :
  F64.binary64 x ->
  Scorer.anomalous Scorer.rpm_normal x = true <-> Spec.outside Spec.rpm_range x.
Proof. apply anomalous_outside; by vm_compute. Qed.

Lemma above_temp (x : spec_float) :
  F64.binary64 x ->
  F64.ltb (F64.of_Z 90) x = true <-> F64.lies_above x (snd Spec.temp_range).
Proof. intros Hx. apply (ltb_above x 6333186975989760 (-46)); by vm_compute. Qed.

Lemma above_vibration (x : spec_float) :
  F64.binary64 x ->
  F64.ltb (F64.dec 50 10) x = true <-> F64.lies_above x (snd Spec.vibration_range).
Proof. intros Hx. apply (ltb_above x 5629499534213120 (-50)); by vm_compute. Qed.

Lemma within_not_outside (range : Q * Q) (x : spec_float) :
  Spec.within range x -> ~ Spec.outside range x.
Proof.
  unfold Spec.within, Spec.outside.
  destruct x as [s | s | | s m e]; try done; cbn [F64.lies_below F64.lies_above];
    intros [Hlo Hhi] [H | H].
  - by apply (Qle_not_lt _ _ Hlo).
  - by apply (Qle_not_lt _ _ Hhi).
  - by apply (Qle_not_lt _ _ Hlo).
  - by apply (Qle_not_lt _ _ Hhi).
Qed.

Lemma capped_bound (b1 b2 b3 b4 : bool) :
  F64.leb (Spec.capped (Spec.four b1 b2 b3 b4)) (F64.dec 95 100) = true /\
  ~ F64.lies_above (Spec.capped (Spec.four b1 b2 b3 b4)) (95 # 100).
Proof. by destruct b1, b2, b3, b4; vm_compute. Qed.

Lemma capped_mono (b1 b2 b3 b4 c1 c2 c3 c4 : bool) :
  Spec.included (Spec.four b1 b2 b3 b4) (Spec.four c1 c2 c3 c4) ->
  F64.leb (Spec.capped (Spec.four b1 b2 b3 b4)) (Spec.capped (Spec.four c1 c2 c3 c4)) = true.
Proof.
  unfold Spec.included, Spec.four. intros H.
  apply Forall2_cons_1 in H as [H1 H]. apply Forall2_cons_1 in H as [H2 H].
  apply Forall2_cons_1 in H as [H3 H]. apply Forall2_cons_1 in H as [H4 _].
  cbn [Spec.matches] in *.
  destruct b1, c1; try (by discriminate H1);
  destruct b2, c2; try (by discriminate H2);
  destruct b3, c3; try (by discriminate H3);
  destruct b4, c4; try (by discriminate H4); reflexivity.
Qed.

End RangeChecks.

Section ScorerClaims.

Variable float_of_str : string -> option spec_float.
Abbreviation py_float := (Scorer.py_float float_of_str).
Abbreviation process_sensor_data := (Scorer.process_sensor_data float_of_str).

(** C1.  Whenever the four readings convert, [process_sensor_data]
    returns a record in which each per-field anomaly flag is set
    exactly when the reading lies outside its documented normal range
    (temperature [50, 90], vibration [0.1, 5.0], pressure [0.8, 1.2],
    rpm [1000, 3000], compared as exact decimals), and
    [anomaly_detected] is the disjunction of the four flags.  A
    reading that is not a number is neither below nor above a bound,
    and its flag stays clear. *)
Theorem anomaly_flags_match_ranges (now : string) (data : dict) (t v p n : spec_float) :
  py_float (dict_get data "temperature" (VInt 0)) = Ok t ->
  py_float (dict_get data "vibration" (VInt 0)) = Ok v ->
  py_float (dict_get data "pressure" (VInt 0)) = Ok p ->
  py_float (dict_get data "rpm" (VInt 0)) = Ok n ->
  exists (r : dict) (ta va pa ra : bool),
    process_sensor_data now data = Ok r /\
    r !! "temp_anomaly" = Some (VBool ta) /\
    r !! "vibration_anomaly" = Some (VBool va) /\
    r !! "pressure_anomaly" = Some (VBool pa) /\
    r !! "rpm_anomaly" = Some (VBool ra) /\
    r !! "anomaly_detected" = Some (VBool (ta || va || pa || ra)) /\
    (F64.binary64 t -> ta = true <-> Spec.outside Spec.temp_range t) /\
    (F64.binary64 v -> va = true <-> Spec.outside Spec.vibration_range v) /\
    (F64.binary64 p -> pa = true <-> Spec.outside Spec.pressure_range p) /\
    (F64.binary64 n -> ra = true <-> Spec.outside Spec.rpm_range n).
Proof.
  intros Ht Hv Hp Hn.
  destruct (process_fields float_of_str now data t v p n Ht Hv Hp Hn)
    as (r & Hr & _ & _ & _ & _ & Hta & Hva & Hpa & Hra & Hany & _).
  exists r. do 4 eexists.
  repeat apply conj; try eassumption.
  - apply temp_anomalous_spec.
  - apply vibration_anomalous_spec.
  - apply pressure_anomalous_spec.
  - apply rpm_anomalous_spec.
Qed.

(** C2.  The failure probability of a scored record never exceeds
    0.95, and it is monotone in the set of matching rule categories:
    if every category matching one record also matches another, the
    first probability is at most the second. *)
Theorem failure_probability_capped_monotone (now now' : string) (data data' : dict)
    (r r' : dict) (fp fp' : spec_float) :
  process_sensor_data now data = Ok r ->
  process_sensor_data now' data' = Ok r' ->
  r !! "failure_probability" = Some (VFloat fp) ->
  r' !! "failure_probability" = Some (VFloat fp') ->
  F64.leb fp (F64.dec 95 100) = true /\
  ~ F64.lies_above fp (95 # 100) /\
  (Spec.included (Spec.categories r) (Spec.categories r') -> F64.leb fp fp' = true).
Proof.
  intros Hr Hr' Hfp Hfp'.
  destruct (process_record float_of_str _ _ _ Hr)
    as (t & v & p & n & Ht & Hv & Hp & Hn & _ & Hprob & _).
  destruct (process_record float_of_str _ _ _ Hr')
    as (t' & v' & p' & n' & Ht' & Hv' & Hp' & Hn' & _ & Hprob' & _).
  rewrite (categories_of_record r _ _ _ _ Ht Hv Hp Hn).
  rewrite (categories_of_record r' _ _ _ _ Ht' Hv' Hp' Hn').
  rewrite failure_rules_spec in Hprob, Hprob'. cbn [fst] in Hprob, Hprob'.
  destruct (_ || _); [|congruence]. destruct (_ || _); [|congruence].
  assert (fp = Spec.capped (Spec.four (F64.ltb (F64.of_Z 90) t) (F64.ltb (F64.dec 50 10) v)
                              (Scorer.anomalous Scorer.pressure_normal p)
                              (Scorer.anomalous Scorer.rpm_normal n))) as -> by congruence.
  assert (fp' = Spec.capped (Spec.four (F64.ltb (F64.of_Z 90) t') (F64.ltb (F64.dec 50 10) v')
                               (Scorer.anomalous Scorer.pressure_normal p')
                               (Scorer.anomalous Scorer.rpm_normal n'))) as -> by congruence.
  split; [apply capped_bound|]. split; [apply capped_bound|].
  apply capped_mono.
Qed.

(** C3.  For an anomalous input sample, with the four categories
    read off the input readings (temperature above its upper bound:
    "Overheating", vibration above its upper bound: "Bearing Failure",
    pressure outside its range: "Pressure Issue", rpm outside its
    range: "Motor Issue"), the failure type of the returned record is
    the label of the first matching category in this order, and the
    failure probability is the capped sum of the increments of all
    matching categories, so later matches add to it without changing
    the type. *)
Theorem failure_type_first_match (now : string) (data : dict) (t v p n : spec_float) :
  py_float (dict_get data "temperature" (VInt 0)) = Ok t ->
  py_float (dict_get data "vibration" (VInt 0)) = Ok v ->
  py_float (dict_get data "pressure" (VInt 0)) = Ok p ->
  py_float (dict_get data "rpm" (VInt 0)) = Ok n ->
  F64.binary64 t -> F64.binary64 v -> F64.binary64 p -> F64.binary64 n ->
  Spec.outside Spec.temp_range t \/ Spec.outside Spec.vibration_range v \/
  Spec.outside Spec.pressure_range p \/ Spec.outside Spec.rpm_range n ->
  exists (r : dict) (hot shaking pressure rpm : bool),
    process_sensor_data now data = Ok r /\
    (hot = true <-> F64.lies_above t (snd Spec.temp_range)) /\
    (shaking = true <-> F64.lies_above v (snd Spec.vibration_range)) /\
    (pressure = true <-> Spec.outside Spec.pressure_range p) /\
    (rpm = true <-> Spec.outside Spec.rpm_range n) /\
    Spec.categories r = Spec.four hot shaking pressure rpm /\
    r !! "anomaly_detected" = Some (VBool true) /\
    r !! "failure_type"
      = Some (VStr (Spec.first_match (Spec.four hot shaking pressure rpm))) /\
    r !! "failure_probability"
      = Some (VFloat (Spec.capped (Spec.four hot shaking pressure rpm))).
Proof.
  intros Ht Hv Hp Hn Bt Bv Bp Bn Hout.
  destruct (process_fields float_of_str now data t v p n Ht Hv Hp Hn)
    as (r & Hr & Rt & Rv & _ & _ & _ & _ & Rpa & Rra & Hany & Hprob & Htype).
  rewrite failure_rules_spec in Hprob, Htype. cbn [fst snd] in Hprob, Htype.
  assert (Hflag : Scorer.anomalous Scorer.temp_normal t
                  || Scorer.anomalous Scorer.vibration_normal v
                  || Scorer.anomalous Scorer.pressure_normal p
                  || Scorer.anomalous Scorer.rpm_normal n = true).
  { rewrite !orb_true_iff.
    destruct Hout as [H | [H | [H | H]]].
    - left; left; left. by apply temp_anomalous_spec.
    - left; left; right. by apply vibration_anomalous_spec.
    - left; right. by apply pressure_anomalous_spec.
    - right. by apply rpm_anomalous_spec. }
  rewrite Hflag in Hany, Hprob, Htype.
  exists r, (F64.ltb (F64.of_Z 90) t), (F64.ltb (F64.dec 50 10) v),
    (Scorer.anomalous Scorer.pressure_normal p), (Scorer.anomalous Scorer.rpm_normal n).
  split; [exact Hr|].
  split; [by apply above_temp|]. split; [by apply above_vibration|].
  split; [by apply pressure_anomalous_spec|]. split; [by apply rpm_anomalous_spec|].
  split; [exact (categories_of_record r _ _ _ _ Rt Rv Rpa Rra)|].
  split; [exact Hany|]. split; [exact Htype | exact Hprob].
Qed.

(** C4.  When the four readings lie inside their normal ranges, the
    returned record has [anomaly_detected] false and carries neither a
    [failure_probability] nor a [failure_type] key; scenario B
    (temperature 70, vibration 2.0, pressure 1.0, rpm 2000) is such a
    sample. *)
Theorem in_range_no_failure_fields :
  (forall (now : string) (data : dict) (t v p n : spec_float),
      py_float (dict_get data "temperature" (VInt 0)) = Ok t ->
      py_float (dict_get data "vibration" (VInt 0)) = Ok v ->
      py_float (dict_get data "pressure" (VInt 0)) = Ok p ->
      py_float (dict_get data "rpm" (VInt 0)) = Ok n ->
      F64.binary64 t -> F64.binary64 v -> F64.binary64 p -> F64.binary64 n ->
      Spec.within Spec.temp_range t ->
      Spec.within Spec.vibration_range v ->
      Spec.within Spec.pressure_range p ->
      Spec.within Spec.rpm_range n ->
      exists r,
        process_sensor_data now data = Ok r /\
        r !! "anomaly_detected" = Some (VBool false) /\
        r !! "failure_probability" = None /\
        r !! "failure_type" = None) /\
  (forall now : string,
      exists r,
        process_sensor_data now Spec.scenario_B = Ok r /\
        r !! "anomaly_detected" = Some (VBool false) /\
        r !! "failure_probability" = None /\
        r !! "failure_type" = None).
Proof.
  assert (General : forall (now : string) (data : dict) (t v p n : spec_float),
      py_float (dict_get data "temperature" (VInt 0)) = Ok t ->
      py_float (dict_get data "vibration" (VInt 0)) = Ok v ->
      py_float (dict_get data "pressure" (VInt 0)) = Ok p ->
      py_float (dict_get data "rpm" (VInt 0)) = Ok n ->
      F64.binary64 t -> F64.binary64 v -> F64.binary64 p -> F64.binary64 n ->
      Spec.within Spec.temp_range t ->
      Spec.within Spec.vibration_range v ->
      Spec.within Spec.pressure_range p ->
      Spec.within Spec.rpm_range n ->
      exists r,
        process_sensor_data now data = Ok r /\
        r !! "anomaly_detected" = Some (VBool false) /\
        r !! "failure_probability" = None /\
        r !! "failure_type" = None).
  { intros now data t v p n Ht Hv Hp Hn Bt Bv Bp Bn Wt Wv Wp Wn.
    destruct (process_fields float_of_str now data t v p n Ht Hv Hp Hn)
      as (r & Hr & _ & _ & _ & _ & _ & _ & _ & _ & Hany & Hprob & Htype).
    assert (Scorer.anomalous Scorer.temp_normal t = false) as Et.
    { apply not_true_is_false. intros E%temp_anomalous_spec; [|done].
      by apply (within_not_outside _ _ Wt). }
    assert (Scorer.anomalous Scorer.vibration_normal v = false) as Ev.
    { apply not_true_is_false. intros E%vibration_anomalous_spec; [|done].
      by apply (within_not_outside _ _ Wv). }
    assert (Scorer.anomalous Scorer.pressure_normal p = false) as Ep.
    { apply not_true_is_false. intros E%pressure_anomalous_spec; [|done].
      by apply (within_not_outside _ _ Wp). }
    assert (Scorer.anomalous Scorer.rpm_normal n = false) as En.
    { apply not_true_is_false. intros E%rpm_anomalous_spec; [|done].
      by apply (within_not_outside _ _ Wn). }
    rewrite Et, Ev, Ep, En in Hany, Hprob, Htype.
    by exists r. }
  split; [exact General|].
  intros now.
  apply (General now Spec.scenario_B (F64.of_Z 70) (F64.dec 20 10) (F64.dec 10 10)
           (F64.of_Z 2000)); by vm_compute.
Qed.

(** C10.  When the only anomalies are a temperature below 50 and/or a
    vibration below 0.1 (neither above its upper bound, pressure and
    rpm not outside their ranges), the record has [anomaly_detected]
    true, [failure_probability] 0.0 and [failure_type] "Unknown": no
    accumulation rule covers readings below these lower bounds. *)
Theorem low_only_anomaly_unknown (now : string) (data : dict) (t v p n : spec_float) :
  py_float (dict_get data "temperature" (VInt 0)) = Ok t ->
  py_float (dict_get data "vibration" (VInt 0)) = Ok v ->
  py_float (dict_get data "pressure" (VInt 0)) = Ok p ->
  py_float (dict_get data "rpm" (VInt 0)) = Ok n ->
  F64.binary64 t -> F64.binary64 v -> F64.binary64 p -> F64.binary64 n ->
  F64.lies_below t (fst Spec.temp_range) \/ F64.lies_below v (fst Spec.vibration_range) ->
  ~ F64.lies_above t (snd Spec.temp_range) ->
  ~ F64.lies_above v (snd Spec.vibration_range) ->
  ~ Spec.outside Spec.pressure_range p ->
  ~ Spec.outside Spec.rpm_range n ->
  exists r,
    process_sensor_data now data = Ok r /\
    r !! "anomaly_detected" = Some (VBool true) /\
    r !! "failure_probability" = Some (VFloat (S754_zero false)) /\
    r !! "failure_type" = Some (VStr "Unknown").
Proof.
  intros Ht Hv Hp Hn Bt Bv Bp Bn Hlow Ht90 Hv5 Hpin Hnin.
  destruct (process_fields float_of_str now data t v p n Ht Hv Hp Hn)
    as (r & Hr & _ & _ & _ & _ & _ & _ & _ & _ & Hany & Hprob & Htype).
  rewrite failure_rules_spec in Hprob, Htype. cbn [fst snd] in Hprob, Htype.
  assert (Scorer.anomalous Scorer.pressure_normal p = false) as Ep
    by (apply not_true_is_false; by intros E%pressure_anomalous_spec).
  assert (Scorer.anomalous Scorer.rpm_normal n = false) as En
    by (apply not_true_is_false; by intros E%rpm_anomalous_spec).
  assert (F64.ltb (F64.of_Z 90) t = false) as Et
    by (apply not_true_is_false; by intros E%above_temp).
  assert (F64.ltb (F64.dec 50 10) v = false) as Ev
    by (apply not_true_is_false; by intros E%above_vibration).
  assert (Scorer.anomalous Scorer.temp_normal t
          || Scorer.anomalous Scorer.vibration_normal v = true) as Elow.
  { apply orb_true_iff. destruct Hlow as [H | H]; [left | right].
    - apply temp_anomalous_spec; [done | by left].
    - apply vibration_anomalous_spec; [done | by left]. }
  rewrite Ep, En in Hany, Hprob, Htype. rewrite Et, Ev in Hprob, Htype.
  rewrite !orb_false_r in Hany, Hprob, Htype. rewrite Elow in Hany, Hprob, Htype.
  by exists r.
Qed.

End ScorerClaims.

(** ** The mock source *)

Section MockFacts.

Lemma randint_range (a b : Z) (g : Mock.rng) :
  a <= b -> a <= fst (Mock.randint a b g) <= b.
Proof.
  intros Hab. unfold Mock.randint. destruct g as [|z g]; cbn [fst]; [lia|].
  pose proof (Z.mod_pos_bound z (b - a + 1)). lia.
Qed.

(** The entries of a generated sample. *)
Lemma mock_sample_fields (now : spec_float) (g : Mock.rng) :
  exists tool_wear air_temp process_temp rotation_speed torque : Z,
    (1000 <= rotation_speed <= 3000 /\ 5 <= torque <= 75) /\
    fst (Mock.mock_sample now g) =
      <["power" := VFloat (Mock.power_of rotation_speed torque)]>
        (<["temp_diff" := VInt (process_temp - air_temp)]>
           (list_to_map
              [ ("tool_wear", VInt tool_wear);
                ("air_temp", VInt air_temp);
                ("process_temp", VInt process_temp);
                ("rotation_speed", VInt rotation_speed);
                ("torque", VInt torque);
                ("timestamp", VFloat now) ])).
Proof.
  unfold Mock.mock_sample.
  destruct (Mock.randint 0 300 g) as [tool_wear g1].
  destruct (Mock.randint 290 310 g1) as [air_temp g2].
  destruct (Mock.randint 290 330 g2) as [process_temp g3].
  pose proof (randint_range 1000 3000 g3 ltac:(lia)) as Hrs.
  destruct (Mock.randint 1000 3000 g3) as [rotation_speed g4].
  pose proof (randint_range 5 75 g4 ltac:(lia)) as Htq.
  destruct (Mock.randint 5 75 g4) as [torque g5].
  by exists tool_wear, air_temp, process_temp, rotation_speed, torque.
Qed.

(** What holds of every generated sample holds of every sample that
    the loop has put on the queue. *)
Lemma generate_mock_data_queue (P : dict -> Prop) (time : nat -> spec_float) :
  (forall now g, P (fst (Mock.mock_sample now g))) ->
  forall (n : nat) (st : Mock.state),
    Forall P (Mock.data_queue st) ->
    Forall P (Mock.data_queue (Mock.generate_mock_data time n st)).
Proof.
  intros HP n st Hst. induction n as [|n IH]; [exact Hst|].
  unfold Mock.generate_mock_data in *. rewrite Nat.iter_succ.
  set (st' := Nat.iter n (Mock.mock_iter time) st) in *.
  unfold Mock.mock_iter.
  pose proof (HP (time (Mock.iteration st')) (Mock.entropy st')) as Hs.
  destruct (Mock.mock_sample _ _) as [data g']. cbn [Mock.data_queue].
  apply Forall_app. split; [exact IH|]. by constructor.
Qed.

Lemma generate_mock_data_length (time : nat -> spec_float) (n : nat) (st : Mock.state) :
  length (Mock.data_queue (Mock.generate_mock_data time n st)) =
  (length (Mock.data_queue st) + n)%nat.
Proof.
  induction n as [|n IH]; [cbn; lia|].
  unfold Mock.generate_mock_data in *. rewrite Nat.iter_succ.
  set (st' := Nat.iter n (Mock.mock_iter time) st) in *.
  unfold Mock.mock_iter. destruct (Mock.mock_sample _ _) as [data g'].
  cbn [Mock.data_queue]. rewrite length_app, IH. cbn. lia.
Qed.

End MockFacts.

Section MockClaims.

(** C8, as the code has it.  After [n] iterations the queue holds [n]
    samples, and every one of them carries the derived fields
    [temp_diff = process_temp - air_temp] and
    [power = 2 * 3.14159 * rotation_speed * torque / 60], the product
    taken left to right in binary64 with the literal 3.14159 in the
    place of pi. *)
Theorem mock_derived_fields (time : nat -> spec_float) (n : nat) (g : Mock.rng) :
  let queue := Mock.data_queue (Mock.generate_mock_data time n (Mock.mk_state g 0 [])) in
  length queue = n /\
  Forall (fun data : dict =>
            exists air_temp process_temp rotation_speed torque : Z,
              data !! "air_temp" = Some (VInt air_temp) /\
              data !! "process_temp" = Some (VInt process_temp) /\
              data !! "rotation_speed" = Some (VInt rotation_speed) /\
              data !! "torque" = Some (VInt torque) /\
              data !! "temp_diff" = Some (VInt (process_temp - air_temp)) /\
              data !! "power" =
                Some (VFloat (Mock.power_formula Mock.pi_literal rotation_speed torque)))
         queue.
Proof.
  split; [apply generate_mock_data_length|].
  apply generate_mock_data_queue; [|constructor].
  intros now g0.
  destruct (mock_sample_fields now g0) as (tw & a & p & rs & tq & _ & ->).
  by exists a, p, rs, tq.
Qed.

(** C8 fails as stated: for the sample drawn from an exhausted
    entropy source (rotation speed 1000, torque 5) the stored power
    is not [2 pi r t / 60] evaluated at the binary64 nearest to pi,
    and it stays more than 0.0003 below the exact value of the formula
    at any pi of at least 3.141592. *)
Lemma mock_power_is_not_two_pi :
  let data := fst (Mock.mock_sample (S754_zero false) []) in
  data !! "rotation_speed" = Some (VInt 1000) /\
  data !! "torque" = Some (VInt 5) /\
  exists (m : positive) (e : Z),
    data !! "power" = Some (VFloat (S754_finite false m e)) /\
    S754_finite false m e <> Mock.power_formula Spec.pi64 1000 5 /\
    forall pi : Q,
      (3141592 # 1000000 <= pi)%Q ->
      (F64.to_Q false m e + (3 # 10000) < Spec.power_exact pi 1000 5)%Q.
Proof.
  cbv zeta. split; [reflexivity|]. split; [reflexivity|].
  exists 4605619646273071%positive, (-43). split; [by vm_compute|].
  split; [by vm_compute|].
  intros pi Hpi. unfold Spec.power_exact.
  assert (E : (F64.to_Q false 4605619646273071 (-43) == 4605619646273071 # 8796093022208)%Q)
    by reflexivity.
  rewrite E. clear E.
  apply Qlt_le_trans with (2 * (3141592 # 1000000) * inject_Z 1000 * inject_Z 5 / 60)%Q;
    [reflexivity|].
  apply Qmult_le_compat_r; [|discriminate].
  apply Qmult_le_compat_r; [|discriminate].
  apply Qmult_le_compat_r; [|discriminate].
  apply Qmult_le_l; [reflexivity | exact Hpi].
Qed.

End MockClaims.

Section MockScored.

Variable float_of_str : string -> option spec_float.

(** C9.  [process_sensor_data] substitutes 0 for a scored field that
    is missing from its input: the returned record carries the four
    readings as converted from the input, and for a missing field the
    reading is 0.0 and the anomaly flag of the field is set, 0 lying
    outside each of the four documented ranges.  Every sample the
    mock generator puts on the queue has none of [temperature],
    [vibration], [pressure], [rpm], so scoring it succeeds with the
    four readings 0.0 and with the four anomaly flags and
    [anomaly_detected] all true. *)
Theorem mock_samples_all_anomalous :
  (forall (now : string) (data : dict) (t v p n : spec_float),
      Scorer.py_float float_of_str (dict_get data "temperature" (VInt 0)) = Ok t ->
      Scorer.py_float float_of_str (dict_get data "vibration" (VInt 0)) = Ok v ->
      Scorer.py_float float_of_str (dict_get data "pressure" (VInt 0)) = Ok p ->
      Scorer.py_float float_of_str (dict_get data "rpm" (VInt 0)) = Ok n ->
      exists r,
        Scorer.process_sensor_data float_of_str now data = Ok r /\
        r !! "temperature" = Some (VFloat t) /\
        r !! "vibration" = Some (VFloat v) /\
        r !! "pressure" = Some (VFloat p) /\
        r !! "rpm" = Some (VFloat n) /\
        (data !! "temperature" = None ->
           t = S754_zero false /\ r !! "temp_anomaly" = Some (VBool true)) /\
        (data !! "vibration" = None ->
           v = S754_zero false /\ r !! "vibration_anomaly" = Some (VBool true)) /\
        (data !! "pressure" = None ->
           p = S754_zero false /\ r !! "pressure_anomaly" = Some (VBool true)) /\
        (data !! "rpm" = None ->
           n = S754_zero false /\ r !! "rpm_anomaly" = Some (VBool true))) /\
  (Spec.outside Spec.temp_range (S754_zero false) /\
   Spec.outside Spec.vibration_range (S754_zero false) /\
   Spec.outside Spec.pressure_range (S754_zero false) /\
   Spec.outside Spec.rpm_range (S754_zero false)) /\
  (forall (time : nat -> spec_float) (n : nat) (g : Mock.rng) (now : string),
      Forall (fun data : dict =>
                (data !! "temperature" = None /\ data !! "vibration" = None /\
                 data !! "pressure" = None /\ data !! "rpm" = None) /\
                exists r,
                  Scorer.process_sensor_data float_of_str now data = Ok r /\
                  r !! "temperature" = Some (VFloat (S754_zero false)) /\
                  r !! "vibration" = Some (VFloat (S754_zero false)) /\
                  r !! "pressure" = Some (VFloat (S754_zero false)) /\
                  r !! "rpm" = Some (VFloat (S754_zero false)) /\
                  r !! "temp_anomaly" = Some (VBool true) /\
                  r !! "vibration_anomaly" = Some (VBool true) /\
                  r !! "pressure_anomaly" = Some (VBool true) /\
                  r !! "rpm_anomaly" = Some (VBool true) /\
                  r !! "anomaly_detected" = Some (VBool true))
        (Mock.data_queue (Mock.generate_mock_data time n (Mock.mk_state g 0 [])))).
Proof.
  assert (Missing : forall (data : dict) (k : string) (x : spec_float),
             data !! k = None ->
             Scorer.py_float float_of_str (dict_get data k (VInt 0)) = Ok x ->
             x = S754_zero false).
  { intros data k x Hk. unfold dict_get. rewrite Hk. cbn. by intros [= <-]. }
  split; [|split].
  - intros now data t v p n Ht Hv Hp Hn.
    destruct (process_fields float_of_str now data t v p n Ht Hv Hp Hn)
      as (r & Hr & Rt & Rv & Rp & Rn & H1 & H2 & H3 & H4 & _).
    exists r. split; [exact Hr|].
    split; [exact Rt|]. split; [exact Rv|]. split; [exact Rp|]. split; [exact Rn|].
    split; [|split; [|split]]; intros Hk.
    + pose proof (Missing _ _ _ Hk Ht) as ->. by split.
    + pose proof (Missing _ _ _ Hk Hv) as ->. by split.
    + pose proof (Missing _ _ _ Hk Hp) as ->. by split.
    + pose proof (Missing _ _ _ Hk Hn) as ->. by split.
  - repeat split; by left.
  - intros time n g now.
    apply generate_mock_data_queue; [|constructor].
    intros t g0.
    destruct (mock_sample_fields t g0) as (tw & a & p & rs & tq & _ & ->).
    set (data := <["power" := _]> _).
    assert (Ht : data !! "temperature" = None) by reflexivity.
    assert (Hv : data !! "vibration" = None) by reflexivity.
    assert (Hp : data !! "pressure" = None) by reflexivity.
    assert (Hn : data !! "rpm" = None) by reflexivity.
    split; [done|].
    assert (Zero : forall k, data !! k = None ->
               Scorer.py_float float_of_str (dict_get data k (VInt 0)) = Ok (S754_zero false)).
    { intros k Hk. unfold dict_get. by rewrite Hk. }
    destruct (process_fields float_of_str now data _ _ _ _
                (Zero _ Ht) (Zero _ Hv) (Zero _ Hp) (Zero _ Hn))
      as (r & Hr & R1 & R2 & R3 & R4 & H1 & H2 & H3 & H4 & H5 & _).
    exists r. split; [exact Hr|].
    split; [exact R1|]. split; [exact R2|]. split; [exact R3|]. split; [exact R4|].
    split; [exact H1|]. split; [exact H2|]. split; [exact H3|]. split; [exact H4|]. exact H5.
Qed.

End MockScored.

(** ** Persistence *)

Section SinkFacts.

Lemma starts_with_slash_app (s x y : string) :
  starts_with_slash x = starts_with_slash y ->
  starts_with_slash (s +:+ x) = starts_with_slash (s +:+ y).
Proof. by destruct s. Qed.

(** Two entries of one directory that share a stem and differ in
    their suffix are different files. *)
Lemma path_join_suffix_ne (d s x y : string) :
  starts_with_slash x = starts_with_slash y -> x <> y ->
  path_join d (s +:+ x) <> path_join d (s +:+ y).
Proof.
  intros Hxy Hne Heq. apply Hne. unfold path_join in Heq.
  rewrite (starts_with_slash_app s x y Hxy) in Heq.
  destruct (starts_with_slash (s +:+ y)).
  - by apply (inj (String.append s)).
  - destruct (String.eqb d "" || ends_with_slash d).
    + apply (inj (String.append s)). by apply (inj (String.append d)).
    + apply (inj (String.append s)). apply (inj (String.append "/")).
      by apply (inj (String.append d)).
Qed.

Variable DATA_DIR : string.
Variable repr_float : spec_float -> string.

Lemma csv_ne_alert (mid : pyval) :
  Sink.csv_file_of DATA_DIR repr_float mid <> Sink.alert_file_of DATA_DIR repr_float mid.
Proof. by apply path_join_suffix_ne. Qed.

Lemma csv_ne_json (mid : pyval) :
  Sink.csv_file_of DATA_DIR repr_float mid <> Sink.alert_json_of DATA_DIR repr_float mid.
Proof. by apply path_join_suffix_ne. Qed.

Lemma alert_ne_json (mid : pyval) :
  Sink.alert_file_of DATA_DIR repr_float mid <> Sink.alert_json_of DATA_DIR repr_float mid.
Proof. by apply path_join_suffix_ne. Qed.

(** What one append does, by the outcome of the attempt. *)
Lemma to_csv_append_run (record : dict) (p : string) (header : bool) (w : Sink.world) :
  Sink.to_csv_append record p header w =
  let written :=
    <[p := (default [] (Sink.files w !! p)
              ++ (if header then [Sink.CsvHeader (map fst (map_to_list record))] else [])
              ++ [Sink.CsvRow record])%list]> (Sink.files w) in
  match Sink.faults w with
  | [] => (Ok tt, Sink.mk_world written [] (Sink.stdout w))
  | false :: fs => (Ok tt, Sink.mk_world written fs (Sink.stdout w))
  | true :: fs => (Raise OSError, Sink.mk_world (Sink.files w) fs (Sink.stdout w))
  end.
Proof.
  destruct w as [files faults stdout].
  unfold Sink.to_csv_append, Sink.attempt, Sink.contents, Sink.set_file.
  cbn. by destruct faults as [|[] fs].
Qed.

End SinkFacts.

Section SinkClaims.
Variable DATA_DIR : string.
Variable repr_float : spec_float -> string.

(** C5.  [store_data] always answers with a boolean, never with an
    exception: it answers [False], after printing the error, exactly
    when one of the writes it attempts fails.  Unless the first write
    fails, the per-machine CSV receives the record, preceded by a
    header only if the file did not exist, whatever the record says.
    The alerts CSV and the latest-alert JSON are untouched when
    [anomaly_detected] is not true; when it is true and no write
    fails, the alerts CSV receives the record in the same way and the
    JSON file holds exactly the record. *)
Theorem store_data_effects (record : dict) (w : Sink.world) :
  let machine_id := dict_get record "machine_id" (VStr "unknown") in
  let csv_file := Sink.csv_file_of DATA_DIR repr_float machine_id in
  let alert_file := Sink.alert_file_of DATA_DIR repr_float machine_id in
  let alert_json := Sink.alert_json_of DATA_DIR repr_float machine_id in
  let anomaly := truthy (dict_get record "anomaly_detected" (VBool false)) in
  let attempts := take (if anomaly then 4 else 1)%nat (Sink.faults w) in
  let appended (p : string) : list Sink.chunk :=
    (default [] (Sink.files w !! p)
       ++ (if bool_decide (is_Some (Sink.files w !! p)) then []
           else [Sink.CsvHeader (map fst (map_to_list record))])
       ++ [Sink.CsvRow record])%list in
  let '(ok, w') := Sink.store_data DATA_DIR repr_float record w in
  ok = negb (existsb id attempts) /\
  Sink.stdout w' = (Sink.stdout w ++ (if ok then [] else ["Error storing data"]))%list /\
  (hd false (Sink.faults w) = false ->
     Sink.files w' !! csv_file = Some (appended csv_file)) /\
  (anomaly = false ->
     Sink.files w' !! alert_file = Sink.files w !! alert_file /\
     Sink.files w' !! alert_json = Sink.files w !! alert_json) /\
  (anomaly = true -> ok = true ->
     Sink.files w' !! alert_file = Some (appended alert_file) /\
     Sink.files w' !! alert_json = Some [Sink.JsonDoc record]).
Proof.
  intros machine_id csv_file alert_file alert_json anomaly attempts appended.
  pose proof (csv_ne_alert DATA_DIR repr_float machine_id) as Hca.
  pose proof (csv_ne_json DATA_DIR repr_float machine_id) as Hcj.
  pose proof (alert_ne_json DATA_DIR repr_float machine_id) as Haj.
  fold csv_file alert_file alert_json in Hca, Hcj, Haj.
  unfold attempts, appended. clear attempts appended.
  fold machine_id csv_file alert_file alert_json anomaly.
  unfold Sink.store_data, Sink.store_body.
  fold machine_id. fold csv_file alert_file alert_json. fold anomaly.
  clearbody csv_file alert_file alert_json anomaly.
  destruct w as [files faults stdout].
  assert (Hac : alert_file <> csv_file) by congruence.
  assert (Hjc : alert_json <> csv_file) by congruence.
  assert (Hja : alert_json <> alert_file) by congruence.
  destruct anomaly.
  - destruct faults as [|[] [|[] [|[] [|[] faults]]]];
    cbv [mbind io_bind mret io_ret Sink.to_csv_append Sink.open_w Sink.json_dump
         Sink.isfile Sink.attempt Sink.contents Sink.set_file Sink.print
         Sink.files Sink.faults Sink.stdout take existsb id negb hd orb];
    rewrite ?app_nil_r; repeat split; try done; intros;
    repeat first [rewrite lookup_insert_eq | rewrite lookup_insert_ne by done];
    try destruct (files !! csv_file); try destruct (files !! alert_file); done.
  - destruct faults as [|[] faults];
    cbv [mbind io_bind mret io_ret Sink.to_csv_append Sink.open_w Sink.json_dump
         Sink.isfile Sink.attempt Sink.contents Sink.set_file Sink.print
         Sink.files Sink.faults Sink.stdout take existsb id negb hd orb];
    rewrite ?app_nil_r; repeat split; try done; intros;
    repeat first [rewrite lookup_insert_eq | rewrite lookup_insert_ne by done];
    try destruct (files !! csv_file); try destruct (files !! alert_file); done.
Qed.
End SinkClaims.

(** ** Change detection *)

Section MonitorFacts.
Import Monitor.

Lemma append_same_inv (s x : string) : s +:+ x = s -> x = "".
Proof.
  induction s as [|c s IH]; cbn; [done|]. intros H. injection H as H. by apply IH.
Qed.

Lemma prefix_append (s x : string) : String.prefix s (s +:+ x) = true.
Proof.
  induction s as [|c s IH]; simpl; [by destruct x|].
  destruct (Ascii.ascii_dec c c) as [_|Hc]; [exact IH | by destruct Hc].
Qed.

(** A snapshot never lands on the monitored file itself. *)
Lemma snapshot_ne_target (p d t : string) :
  (d, basename p +:+ "." +:+ t) <> locate p.
Proof.
  unfold locate. intros H. injection H as _ H.
  by apply append_same_inv in H.
Qed.

Lemma listdir_insert_fresh (d n bytes : string) (w w' : world) :
  files w !! (d, n) = None ->
  files w' = <[(d, n) := bytes]> (files w) ->
  listdir d w' ≡ₚ n :: listdir d w.
Proof.
  intros Hfresh Hw'. unfold listdir. rewrite Hw'.
  rewrite (map_to_list_insert _ _ _ Hfresh).
  rewrite filter_cons_True by done. done.
Qed.

Lemma sorted_snoc (l olds : list string) (x : string) :
  Sorted String.le olds -> TlRel String.le x olds ->
  l ≡ₚ x :: olds ->
  sorted l = olds ++ [x].
Proof.
  intros Hsorted Hle Hperm. unfold sorted.
  apply (Sorted_unique String.le).
  - apply Sorted_merge_sort, _.
  - by apply Sorted_snoc.
  - rewrite merge_sort_Permutation, Hperm. by rewrite Permutation_cons_append.
Qed.

Lemma backups_of_sorted (m : monitor) (w : world) : Sorted String.le (backups_of m w).
Proof. apply Sorted_merge_sort, _. Qed.

(** The listing of snapshots once a new one, sorting last, is written. *)
Lemma backups_of_insert (m : monitor) (w w' : world) (t bytes : string) :
  let name := basename (csv_path m) +:+ "." +:+ t in
  files w !! (backup_dir m, name) = None ->
  files w' = <[(backup_dir m, name) := bytes]> (files w) ->
  TlRel String.le name (backups_of m w) ->
  backups_of m w' = backups_of m w ++ [name].
Proof.
  intros name Hfresh Hw' Hlast. unfold backups_of at 1.
  apply sorted_snoc; [apply backups_of_sorted | exact Hlast |].
  rewrite (listdir_insert_fresh _ _ _ _ _ Hfresh Hw').
  rewrite filter_cons_True by apply prefix_append.
  apply Permutation_skip. unfold backups_of, sorted.
  by rewrite merge_sort_Permutation.
Qed.

Lemma listdir_empty_lookup (d n : string) (w : world) :
  listdir d w = [] -> files w !! (d, n) = None.
Proof.
  intros Hempty. destruct (files w !! (d, n)) as [bytes|] eqn:E; [|done].
  exfalso. apply elem_of_map_to_list in E.
  assert (Hin : (d, n, bytes) ∈ filter (fun kv => fst (fst kv) = d) (map_to_list (files w)))
    by (by apply list_elem_of_filter).
  apply list_elem_of_In, (in_map (fun kv => snd (fst kv))) in Hin.
  unfold listdir in Hempty. rewrite Hempty in Hin. destruct Hin.
Qed.

Variable ext : externals.

(** A check that finds the stored hash does nothing but note the time. *)
Lemma check_unchanged (now : clock) (m : monitor) (w : world) (bytes : string) :
  files w !! locate (csv_path m) = Some bytes ->
  last_hash m = Some (md5_hexdigest ext bytes) ->
  check_for_changes ext now m w = (set_last_check_time (check_time now) m, w).
Proof.
  intros Hfile Hhash. unfold check_for_changes, _get_file_hash.
  rewrite Hfile, Hhash. rewrite bool_decide_eq_true_2 by done.
  by rewrite andb_false_r.
Qed.

Lemma get_file_hash_found (m : monitor) (w : world) (bytes : string) :
  files w !! locate (csv_path m) = Some bytes ->
  _get_file_hash ext m w = (Some (md5_hexdigest ext bytes), w).
Proof. intros H. unfold _get_file_hash. by rewrite H. Qed.

(** A snapshot that can be read and written lands in the backup
    directory and consumes one write outcome. *)
Lemma backup_run (now : clock) (m : monitor) (w : world) (bytes : string) (df : frame) :
  files w !! locate (csv_path m) = Some bytes ->
  read_csv ext bytes = Some df ->
  hd false (faults w) = false ->
  let at_ := (backup_dir m, basename (csv_path m) +:+ "." +:+ backup_stamp now) in
  exists w',
    _backup_current_csv ext now m w = (Some at_, w') /\
    files w' = <[at_ := to_csv ext df]> (files w) /\
    faults w' = tl (faults w) /\
    alerts_raised w' = alerts_raised w /\
    outbox w' = outbox w.
Proof.
  intros Hfile Hread Hfault at_. unfold _backup_current_csv, write_file.
  rewrite Hfile. cbn [mbind option_bind]. rewrite Hread.
  destruct (faults w) as [|[] fs] eqn:E; try done; eexists; (split; [reflexivity|]);
    cbn; by rewrite ?E.
Qed.

(** The statistics of the compared columns, when none of them raises. *)
Lemma column_stats_defined (current_df previous_df : frame) :
  Spec.statistics_defined ext current_df previous_df ->
  is_Some (column_stats_of ext current_df previous_df).
Proof.
  intros Hdefined. unfold column_stats_of. apply mapM_is_Some, Forall_forall.
  intros col [Hprev Hnum]%list_elem_of_filter.
  destruct (Hdefined col Hnum Hprev) as ([a Ha] & [b Hb] & [c Hc] & [d Hd]).
  unfold compose, column_stat_of. rewrite Ha, Hb, Hc, Hd. by eexists.
Qed.

Lemma compare_run (now : clock) (m : monitor) (w : world) (previous_path : string * string)
    (bytes previous_bytes : string) (current_df previous_df : frame) :
  files w !! locate (csv_path m) = Some bytes ->
  read_csv ext bytes = Some current_df ->
  files w !! previous_path = Some previous_bytes ->
  read_csv ext previous_bytes = Some previous_df ->
  Spec.statistics_defined ext current_df previous_df ->
  exists report,
    _compare_csv_changes ext now m previous_path w = (Some report, w) /\
    current_rows report = len current_df /\
    previous_rows report = len previous_df /\
    rows_changed report = Z.abs (len current_df - len previous_df) /\
    container report = None.
Proof.
  intros H1 H2 H3 H4 [col_stats H5]%column_stats_defined. unfold _compare_csv_changes.
  rewrite H1, H3. cbn [mbind option_bind]. rewrite H2, H4, H5.
  by eexists.
Qed.

Lemma save_metrics_frame (now : clock) (m : monitor) (report : change_report) (w : world) :
  let w' := _save_metrics ext now m (Some report) w in
  alerts_raised w' = alerts_raised w /\
  outbox w' = outbox w /\
  files w' =
    (if hd false (faults w) then files w
     else <[(metrics_dir m, "metrics_" +:+ metrics_stamp now +:+ ".json")
              := json_dumps ext report]> (files w)).
Proof.
  unfold _save_metrics, write_file.
  by destruct (faults w) as [|[] fs].
Qed.

Lemma send_alert_frame (m : monitor) (subject message : string) (w : world) :
  let w' := _send_alert m subject message w in
  alerts_raised w' = alerts_raised w ++ [(subject, message)] /\
  files w' = files w.
Proof.
  unfold _send_alert. destruct (alert_email m) as [to|]; [|done].
  destruct (String.eqb to ""); [done|].
  cbn [smtp_up record_alert]. by destruct (smtp_up w).
Qed.

Lemma get_container_stats_frame (m : monitor) (w : world) :
  let r := _get_container_stats m w in
  alerts_raised r.2 = alerts_raised w /\ outbox r.2 = outbox w /\
  files r.2 = files w /\ faults r.2 = faults w.
Proof. unfold _get_container_stats. by destruct (docker w). Qed.

Lemma nth_penultimate (l : list string) (a b : string) :
  (2 <=? length ((l ++ [a]) ++ [b]))%nat = true /\
  nth (length ((l ++ [a]) ++ [b]) - 2) ((l ++ [a]) ++ [b]) "" = a.
Proof.
  rewrite !length_app. cbn [length]. split; [apply Nat.leb_le; lia|].
  rewrite <- app_assoc.
  replace (length l + 1 + 1 - 2)%nat with (length l + 0)%nat by lia.
  by rewrite app_nth2_plus.
Qed.

Lemma get_file_hash_frame (m : monitor) (w : world) :
  alerts_raised (_get_file_hash ext m w).2 = alerts_raised w.
Proof. unfold _get_file_hash. by destruct (files w !! _). Qed.

Lemma backup_frame (now : clock) (m : monitor) (w : world) :
  alerts_raised (_backup_current_csv ext now m w).2 = alerts_raised w.
Proof.
  unfold _backup_current_csv, write_file.
  destruct (_ ≫= _); [|done]. by destruct (faults w) as [|[] fs].
Qed.

Lemma compare_frame (now : clock) (m : monitor) (at_ : string * string) (w : world) :
  alerts_raised (_compare_csv_changes ext now m at_ w).2 = alerts_raised w.
Proof.
  unfold _compare_csv_changes.
  destruct (_ ≫= _) as [current_df|]; [|done].
  destruct (_ ≫= _) as [previous_df|]; [|done].
  by destruct (column_stats_of ext current_df previous_df).
Qed.

(** Whatever a check finds, it calls [_send_alert] at most once. *)
Lemma check_alerts_at_most_once (now : clock) (m : monitor) (w : world) :
  exists l : list (string * string),
    alerts_raised (check_for_changes ext now m w).2 = alerts_raised w ++ l /\
    (length l <= 1)%nat.
Proof.
  assert (Hnone : forall w' : world,
             alerts_raised w' = alerts_raised w ->
             exists l : list (string * string),
               alerts_raised w' = alerts_raised w ++ l /\ (length l <= 1)%nat).
  { intros w' Hw'. exists []. rewrite app_nil_r. split; [done | cbn; lia]. }
  unfold check_for_changes.
  pose proof (get_file_hash_frame m w) as H1.
  destruct (_get_file_hash ext m w) as [h w1]. cbn [snd] in H1.
  destruct (hash_truthy h && _); [|by apply Hnone].
  set (w1' := logging INFO _ w1).
  pose proof (backup_frame now m w1') as H2.
  destruct (_backup_current_csv ext now m w1') as [at_ w2]. cbn [snd w1' logging alerts_raised] in H2.
  destruct (2 <=? _)%nat; [|apply Hnone; cbn [snd]; congruence].
  match goal with |- context [_compare_csv_changes ext now m ?p w2] =>
    pose proof (compare_frame now m p w2) as H3;
    destruct (_compare_csv_changes ext now m p w2) as [[report|] w3]
  end; cbn [snd] in H3; [|apply Hnone; cbn [snd]; congruence].
  pose proof (get_container_stats_frame m w3) as (H4 & _).
  destruct (_get_container_stats m w3) as [stats w4]. cbn [snd] in H4.
  match goal with |- context [_save_metrics ext now m (Some ?r) w4] =>
    pose proof (save_metrics_frame now m r w4) as (H5 & _); set (report' := r) in *
  end.
  set (w5 := _save_metrics ext now m (Some report') w4) in *.
  destruct (1000 <? _); [|apply Hnone; cbn [snd]; congruence].
  match goal with |- context [_send_alert m ?s ?msg w5] =>
    pose proof (send_alert_frame m s msg w5) as (H6 & _); exists [(s, msg)]
  end.
  cbn [snd]. split; [congruence | cbn; lia].
Qed.
End MonitorFacts.

Section MonitorClaims.
Import Monitor.
Variable ext : externals.

(** C7.  No check calls [_send_alert] more than once.  When a check
    finds the monitored file changed, takes the snapshot, and the
    comparison with the immediately preceding snapshot (the one
    sorting just before the new one) computes its report, none of the
    column statistics raising, with more than 1000 changed rows,
    [_send_alert] is called exactly once with the row count; the
    persisted report carries [rows_changed], which is 1100 for a file
    grown from 500 to 1600 rows; and a further check of the unmodified
    file changes nothing, so the alert is not repeated at later
    intervals. *)
Theorem significant_change_alerts_once :
  (forall (now : clock) (m : monitor) (w : world),
      exists l : list (string * string),
        alerts_raised (check_for_changes ext now m w).2 = alerts_raised w ++ l /\
        (length l <= 1)%nat) /\
  (forall (now : clock) (m : monitor) (w : world)
          (bytes previous_bytes : string) (current_df previous_df : frame)
          (olds : list string) (previous_name : string),
      let name := basename (csv_path m) +:+ "." +:+ backup_stamp now in
      let metrics_path := (metrics_dir m, "metrics_" +:+ metrics_stamp now +:+ ".json") in
      let changed := Z.abs (len current_df - len previous_df) in
      files w !! locate (csv_path m) = Some bytes ->
      read_csv ext bytes = Some current_df ->
      md5_hexdigest ext bytes <> "" ->
      last_hash m <> Some (md5_hexdigest ext bytes) ->
      hd false (faults w) = false ->
      backups_of m w = olds ++ [previous_name] ->
      String.le previous_name name ->
      files w !! (backup_dir m, name) = None ->
      files w !! (backup_dir m, previous_name) = Some previous_bytes ->
      read_csv ext previous_bytes = Some previous_df ->
      Spec.statistics_defined ext current_df previous_df ->
      metrics_path <> locate (csv_path m) ->
      1000 < changed ->
      let r := check_for_changes ext now m w in
      alerts_raised r.2 =
        alerts_raised w ++
          [("ML Model Alert: Significant CSV Changes",
            "Detected " +:+ pretty changed +:+ " row changes in " +:+ csv_path m)] /\
      (hd false (tl (faults w)) = false ->
         exists report,
           files r.2 !! metrics_path = Some (json_dumps ext report) /\
           current_rows report = len current_df /\
           previous_rows report = len previous_df /\
           rows_changed report = changed) /\
      (len previous_df = 500 -> len current_df = 1600 -> changed = 1100) /\
      (forall now' : clock,
          check_for_changes ext now' r.1 r.2
          = (set_last_check_time (check_time now') r.1, r.2))).
Proof.
  split; [exact (check_alerts_at_most_once ext)|].
  intros now m w bytes previous_bytes current_df previous_df olds previous_name.
  intros name metrics_path changed Hfile Hread Hne Hlast Hfault Hbackups Hle Hfresh
    Hprev Hpread Hdefined Hmetrics Hbig r.
  set (w0 := logging INFO ("Changes detected in " +:+ csv_path m) w).
  destruct (backup_run ext now m w0 bytes current_df Hfile Hread Hfault)
    as (w1 & Hb & Hf1 & Hq1 & Ha1 & Ho1).
  cbn [files faults alerts_raised outbox logging w0] in Hf1, Hq1, Ha1, Ho1.
  fold name in Hb, Hf1.
  assert (Hlisting : backups_of m w1 = (olds ++ [previous_name]) ++ [name]).
  { rewrite <- Hbackups.
    apply (backups_of_insert m w w1 (backup_stamp now) (to_csv ext current_df)); [done..|].
    rewrite Hbackups. by constructor. }
  assert (Hfile1 : files w1 !! locate (csv_path m) = Some bytes).
  { rewrite Hf1, lookup_insert_ne; [done | apply snapshot_ne_target]. }
  assert (Hprev1 : files w1 !! (backup_dir m, previous_name) = Some previous_bytes).
  { rewrite Hf1, lookup_insert_ne; [done | congruence]. }
  destruct (compare_run ext now m w1 (backup_dir m, previous_name) _ _ _ _
              Hfile1 Hread Hprev1 Hpread Hdefined)
    as (report & Hc & Hcur & Hprevrows & Hchanged & _).
  destruct (nth_penultimate olds previous_name name) as [Hlen Hnth].
  assert (Hr : r = check_for_changes ext now m w) by done.
  unfold check_for_changes in Hr.
  rewrite (get_file_hash_found ext m w bytes Hfile) in Hr.
  cbn [hash_truthy] in Hr.
  rewrite (proj2 (String.eqb_neq _ _) Hne) in Hr.
  rewrite bool_decide_eq_false_2 in Hr by congruence.
  cbn [negb andb] in Hr. fold w0 in Hr. rewrite Hb, Hlisting, Hlen, Hnth, Hc in Hr.
  pose proof (get_container_stats_frame m w1) as Hstats.
  destruct (_get_container_stats m w1) as [stats w2].
  cbn [fst snd] in Hstats. destruct Hstats as (Ha2 & Ho2 & Hf2 & Hq2).
  set (report' := match stats with Some cs => _ | None => report end) in Hr.
  assert (Hrows : rows_changed report' = changed
                  /\ current_rows report' = len current_df
                  /\ previous_rows report' = len previous_df)
    by (unfold report'; by destruct stats).
  destruct Hrows as (Hrows & Hcur' & Hprev').
  pose proof (save_metrics_frame ext now m report' w2) as Hsave.
  set (w3 := _save_metrics ext now m (Some report') w2) in *.
  destruct Hsave as (Ha3 & Ho3 & Hf3).
  rewrite Hrows in Hr. rewrite (proj2 (Z.ltb_lt _ _) Hbig) in Hr.
  pose proof (send_alert_frame m "ML Model Alert: Significant CSV Changes"
                ("Detected " +:+ pretty changed +:+ " row changes in " +:+ csv_path m) w3)
    as Hsend.
  set (w4 := _send_alert m _ _ w3) in *. destruct Hsend as (Ha4 & Hf4).
  rewrite Hr. cbn [fst snd].
  split; [by rewrite Ha4, Ha3, Ha2, Ha1|].
  split; [|split; [lia|]].
  - intros Hfault2. exists report'.
    rewrite Hf4, Hf3, Hq2, Hq1, Hfault2, lookup_insert_eq. done.
  - intros now'. apply (check_unchanged ext _ _ _ bytes); [|done].
    cbn [csv_path set_last_check_time set_last_hash].
    rewrite Hf4, Hf3, Hf2. destruct (hd false (faults w2)); [done|].
    by rewrite lookup_insert_ne.
Qed.

(** C6.  A check that finds the content hash equal to the stored one
    leaves the whole world as it was (no snapshot, no metrics file,
    no alert, no log line) and only notes the time of the check.
    Hence, for a readable file in a fresh backup directory, two
    checks after the constructor leave exactly the one snapshot the
    constructor made, and nothing else. *)
Theorem unchanged_check_no_side_effects :
  (forall (now : clock) (m : monitor) (w : world) (bytes : string),
      files w !! locate (csv_path m) = Some bytes ->
      last_hash m = Some (md5_hexdigest ext bytes) ->
      check_for_changes ext now m w = (set_last_check_time (check_time now) m, w)) /\
  (forall (t0 t1 t2 : clock) (container_name csv_path : string) (check_interval : Z)
          (backup_dir metrics_dir : string) (alert_email : option string)
          (w0 : world) (bytes : string) (df : frame),
      files w0 !! locate csv_path = Some bytes ->
      read_csv ext bytes = Some df ->
      hd false (faults w0) = false ->
      listdir backup_dir w0 = [] ->
      let started := init ext t0 container_name csv_path check_interval backup_dir
                       metrics_dir alert_email w0 in
      let first := check_for_changes ext t1 started.1 started.2 in
      let second := check_for_changes ext t2 first.1 first.2 in
      first.2 = started.2 /\ second.2 = started.2 /\
      backups_of second.1 second.2 = [basename csv_path +:+ "." +:+ backup_stamp t0] /\
      alerts_raised second.2 = alerts_raised w0).
Proof.
  split; [apply (check_unchanged ext)|].
  intros t0 t1 t2 cn path ci bd md ae w0 bytes df Hfile Hread Hfault Hempty started.
  set (m0 := mk_monitor cn path ci bd md ae None (check_time t0)).
  set (m1 := set_last_hash (Some (md5_hexdigest ext bytes)) m0).
  destruct (backup_run ext t0 m1 w0 bytes df Hfile Hread Hfault)
    as (w1 & Hb & Hf1 & Hq1 & Ha1 & Ho1).
  cbn [csv_path Monitor.backup_dir m1 m0 set_last_hash] in Hb, Hf1.
  assert (Hstarted : started =
            (m1, logging INFO ("Container: " +:+ cn)
                   (logging INFO ("Started monitoring for CSV: " +:+ path) w1))).
  { unfold started, init. fold m0.
    rewrite (get_file_hash_found ext m0 w0 bytes Hfile). fold m1.
    by rewrite Hb. }
  clearbody started. subst started. cbn [fst snd].
  set (w2 := logging INFO _ (logging INFO _ w1)).
  assert (Hfile1 : files w2 !! locate path = Some bytes).
  { cbn [w2 files logging].
    rewrite Hf1, lookup_insert_ne; [done | apply snapshot_ne_target]. }
  rewrite (check_unchanged ext t1 m1 w2 bytes Hfile1 eq_refl). cbn [fst snd].
  rewrite (check_unchanged ext t2 (set_last_check_time (check_time t1) m1) w2 bytes
             Hfile1 eq_refl).
  cbn [fst snd].
  split; [done|]. split; [done|]. split; [|exact Ha1].
  change (backups_of _ w2) with (backups_of m1 w1).
  rewrite (backups_of_insert m1 w0 w1 (backup_stamp t0) (to_csv ext df)).
  - unfold backups_of. cbn [Monitor.backup_dir m1 m0 set_last_hash]. by rewrite Hempty.
  - by apply listdir_empty_lookup.
  - exact Hf1.
  - unfold backups_of. cbn [Monitor.backup_dir m1 m0 set_last_hash]. rewrite Hempty.
    constructor.
Qed.
End MonitorClaims.

(** ** Concrete instances *)


(** Scenario A: both the temperature and the vibration flag are set. *)
Lemma anomaly_flags_match_ranges_witness :
  exists (r : dict) (ta va pa ra : bool),
    Scorer.process_sensor_data Example.no_text Example.clock Spec.scenario_A = Ok r /\
    r !! "temp_anomaly" = Some (VBool ta) /\
    r !! "vibration_anomaly" = Some (VBool va) /\
    r !! "pressure_anomaly" = Some (VBool pa) /\
    r !! "rpm_anomaly" = Some (VBool ra) /\
    r !! "anomaly_detected" = Some (VBool (ta || va || pa || ra)) /\
    (F64.binary64 (F64.of_Z 95) -> ta = true <-> Spec.outside Spec.temp_range (F64.of_Z 95)) /\
    (F64.binary64 (F64.dec 60 10) ->
       va = true <-> Spec.outside Spec.vibration_range (F64.dec 60 10)) /\
    (F64.binary64 (F64.dec 10 10) ->
       pa = true <-> Spec.outside Spec.pressure_range (F64.dec 10 10)) /\
    (F64.binary64 (F64.of_Z 2000) -> ra = true <-> Spec.outside Spec.rpm_range (F64.of_Z 2000)).
Proof.
  apply (anomaly_flags_match_ranges Example.no_text Example.clock Spec.scenario_A); reflexivity.
Defined.

Lemma failure_probability_capped_monotone_witness :
  Scorer.process_sensor_data Example.no_text Example.clock Spec.scenario_A = Ok (Example.scored Spec.scenario_A) /\
  Scorer.process_sensor_data Example.no_text Example.clock Example.scenario_A_pressure = Ok (Example.scored Example.scenario_A_pressure) /\
  Example.scored Spec.scenario_A !! "failure_probability" = Some (VFloat (F64.dec 7 10)) /\
  Example.scored Example.scenario_A_pressure !! "failure_probability" = Some (VFloat (F64.add (F64.dec 7 10) (F64.dec 2 10))) /\
  F64.leb (F64.dec 7 10) (F64.dec 95 100) = true /\
  F64.leb (F64.dec 7 10) (F64.add (F64.dec 7 10) (F64.dec 2 10)) = true.
Proof.
  assert (H1 : Scorer.process_sensor_data Example.no_text Example.clock Spec.scenario_A
               = Ok (Example.scored Spec.scenario_A)).
  { unfold Example.scored.
    by destruct (process_fields Example.no_text Example.clock Spec.scenario_A _ _ _ _
                   eq_refl eq_refl eq_refl eq_refl) as (r & -> & _). }
  assert (H2 : Scorer.process_sensor_data Example.no_text Example.clock
                 Example.scenario_A_pressure
               = Ok (Example.scored Example.scenario_A_pressure)).
  { unfold Example.scored.
    by destruct (process_fields Example.no_text Example.clock Example.scenario_A_pressure
                   _ _ _ _ eq_refl eq_refl eq_refl eq_refl) as (r & -> & _). }
  assert (H3 : Example.scored Spec.scenario_A !! "failure_probability" = Some (VFloat (F64.dec 7 10)))
    by (vm_compute; reflexivity).
  assert (H4 : Example.scored Example.scenario_A_pressure !! "failure_probability"
               = Some (VFloat (F64.add (F64.dec 7 10) (F64.dec 2 10)))) by (vm_compute; reflexivity).
  destruct (failure_probability_capped_monotone Example.no_text _ _ _ _ _ _ _ _ H1 H2 H3 H4)
    as (Hcap & _ & Hmono).
  split; [exact H1|]. split; [exact H2|]. split; [exact H3|]. split; [exact H4|].
  split; [exact Hcap|]. apply Hmono. vm_compute.
  repeat (constructor; [cbn; intros H; first [reflexivity | exact H]|]).
  constructor.
Defined.

(** Scenario A: temperature and vibration both match; the type is
    "Overheating" and the probability 0.7. *)
Lemma failure_type_first_match_witness :
  exists r,
    Scorer.process_sensor_data Example.no_text Example.clock Spec.scenario_A = Ok r /\
    r !! "failure_type" = Some (VStr "Overheating") /\
    r !! "failure_probability" = Some (VFloat (F64.dec 7 10)).
Proof.
  destruct (failure_type_first_match Example.no_text Example.clock Spec.scenario_A
              (F64.of_Z 95) (F64.dec 60 10) (F64.dec 10 10) (F64.of_Z 2000))
    as (r & hot & shaking & pressure & rpm & Hr & Hhot & Hshaking & Hpressure & Hrpm
          & _ & _ & Htype & Hprob);
    [by vm_compute | by vm_compute | by vm_compute | by vm_compute
    | by vm_compute | by vm_compute | by vm_compute | by vm_compute
    | left; right; by vm_compute |].
  assert (hot = true) as -> by (apply Hhot; by vm_compute).
  assert (shaking = true) as -> by (apply Hshaking; by vm_compute).
  assert (pressure = false) as ->.
  { destruct pressure; [|done]. destruct (proj1 Hpressure eq_refl) as [H | H];
      by vm_compute in H. }
  assert (rpm = false) as ->.
  { destruct rpm; [|done]. destruct (proj1 Hrpm eq_refl) as [H | H];
      by vm_compute in H. }
  exists r. split; [exact Hr|]. split; [exact Htype|].
  rewrite Hprob. by vm_compute.
Defined.

(** Scenario B. *)
Lemma in_range_no_failure_fields_witness :
  exists r,
    Scorer.process_sensor_data Example.no_text Example.clock Spec.scenario_B = Ok r /\
    r !! "anomaly_detected" = Some (VBool false) /\
    r !! "failure_probability" = None /\
    r !! "failure_type" = None.
Proof.
  apply (proj1 (in_range_no_failure_fields Example.no_text) Example.clock Spec.scenario_B
           (F64.of_Z 70) (F64.dec 20 10) (F64.dec 10 10) (F64.of_Z 2000));
    by vm_compute.
Defined.

(** A machine at 40 degrees with everything else in range. *)
Lemma low_only_anomaly_unknown_witness :
  exists r,
    Scorer.process_sensor_data Example.no_text Example.clock Example.scenario_B_cold = Ok r /\
    r !! "anomaly_detected" = Some (VBool true) /\
    r !! "failure_probability" = Some (VFloat (S754_zero false)) /\
    r !! "failure_type" = Some (VStr "Unknown").
Proof.
  apply (low_only_anomaly_unknown Example.no_text Example.clock Example.scenario_B_cold
           (F64.of_Z 40) (F64.dec 20 10) (F64.dec 10 10) (F64.of_Z 2000));
    try reflexivity.
  - left. by vm_compute.
  - by vm_compute.
  - by vm_compute.
  - intros [H | H]; by vm_compute in H.
  - intros [H | H]; by vm_compute in H.
Defined.

(** A sample without a temperature is scored as one of temperature
    0.0, and the first mock sample is scored with every reading 0.0. *)
Lemma mock_samples_all_anomalous_witness :
  (exists r,
      Scorer.process_sensor_data Example.no_text Example.clock
        (delete "temperature" Spec.scenario_B) = Ok r /\
      r !! "temperature" = Some (VFloat (S754_zero false)) /\
      r !! "temp_anomaly" = Some (VBool true)) /\
  Forall (fun data : dict =>
            exists r,
              Scorer.process_sensor_data Example.no_text Example.clock data = Ok r /\
              r !! "rpm" = Some (VFloat (S754_zero false)) /\
              r !! "anomaly_detected" = Some (VBool true))
    (Mock.data_queue
       (Mock.generate_mock_data (fun _ => S754_zero false) 1 (Mock.mk_state [] 0 []))).
Proof.
  destruct (mock_samples_all_anomalous Example.no_text) as (Hsubst & _ & Hmock).
  split.
  - destruct (Hsubst Example.clock (delete "temperature" Spec.scenario_B)
                (S754_zero false) (F64.dec 20 10) (F64.dec 10 10) (F64.of_Z 2000))
      as (r & Hr & Rt & _ & _ & _ & Hmissing & _); [by vm_compute..|].
    exists r. split; [exact Hr|]. split; [exact Rt|]. by apply Hmissing.
  - eapply Forall_impl; [apply (Hmock _ 1%nat [] Example.clock)|].
    intros data (_ & r & Hr & _ & _ & _ & Rn & _ & _ & _ & _ & Hany). by exists r.
Defined.

(** Scenario A stored on an empty disk. *)
Lemma store_data_effects_witness :
  fst (Sink.store_data "/data" (fun _ => "") (Example.scored Spec.scenario_A) Example.empty_disk) = true.
Proof.
  pose proof (store_data_effects "/data" (fun _ => "") (Example.scored Spec.scenario_A) Example.empty_disk)
    as H.
  cbv zeta in H.
  destruct (Sink.store_data _ _ _ _) as [ok w']. destruct H as [H _].
  cbn [fst]. rewrite H. by vm_compute.
Defined.

(** Scenario C. *)
Lemma significant_change_alerts_once_witness :
  let r := Monitor.check_for_changes Example.line_externals
             (Example.at_ "20240101_000500") (fst Example.started) Example.grown in
  Monitor.alerts_raised r.2 =
    [("ML Model Alert: Significant CSV Changes",
      "Detected 1100 row changes in data/machine_1_sensor_data.csv")] /\
  forall now' : Monitor.clock,
    Monitor.check_for_changes Example.line_externals now' r.1 r.2 =
    (Monitor.set_last_check_time (Monitor.check_time now') r.1, r.2).
Proof.
  destruct (proj2 (significant_change_alerts_once Example.line_externals)
              (Example.at_ "20240101_000500") (fst Example.started) Example.grown
              (Example.stripes 1600) (Example.stripes 500)
              (Example.blank_frame 1600) (Example.blank_frame 500) []
              "machine_1_sensor_data.csv.20240101_000000")
    as (Halert & _ & _ & Hnext).
  - by vm_compute.
  - by vm_compute.
  - by vm_compute.
  - intros H. apply (f_equal (fun h => match h with
                                       | Some s => String.length s
                                       | None => O
                                       end)) in H.
    by vm_compute in H.
  - by vm_compute.
  - by vm_compute.
  - by vm_compute.
  - by vm_compute.
  - by vm_compute.
  - by vm_compute.
  - intros col Hcol. by apply elem_of_nil in Hcol.
  - by vm_compute.
  - by vm_compute.
  - split; [|exact Hnext]. exact Halert.
Defined.

(** The monitor started on the 500-row file, then checked twice. *)
Lemma unchanged_check_no_side_effects_witness :
  let first := Monitor.check_for_changes Example.line_externals
                 (Example.at_ "20240101_000500") (fst Example.started) (snd Example.started) in
  let second := Monitor.check_for_changes Example.line_externals
                  (Example.at_ "20240101_001000") first.1 first.2 in
  first.2 = snd Example.started /\ second.2 = snd Example.started /\
  Monitor.backups_of second.1 second.2 = ["machine_1_sensor_data.csv.20240101_000000"] /\
  Monitor.alerts_raised second.2 = [].
Proof.
  apply (proj2 (unchanged_check_no_side_effects Example.line_externals)
           (Example.at_ "20240101_000000") (Example.at_ "20240101_000500")
           (Example.at_ "20240101_001000") "busy_haslett" Example.target 300
           "./csv_backups" "./metrics" (Some "ops@example.com") Example.disk_500
           (Example.stripes 500) (Example.blank_frame 500)); by vm_compute.
Defined.

(** * Further properties *)

(** ** The scorer *)

Section ScorerMore.

Variable float_of_str : string -> option spec_float.
Abbreviation py_float := (Scorer.py_float float_of_str).
Abbreviation process_sensor_data := (Scorer.process_sensor_data float_of_str).

Lemma py_float_errors (v : pyval) (e : exn) :
  py_float v = Raise e -> e = TypeError \/ e = ValueError \/ e = OverflowError.
Proof.
  destruct v as [| b | z | f | s]; cbn.
  - intros [= <-]. by left.
  - discriminate.
  - destruct (F64.is_infinite _); [|discriminate]. intros [= <-]. by right; right.
  - discriminate.
  - destruct (float_of_str s); [discriminate|]. intros [= <-]. by right; left.
Qed.

(** X1.  Scoring fails exactly when one of the four conversions
    [float(data.get(k, 0))] fails, and then with the error of the
    first one that fails, in the order temperature, vibration,
    pressure, rpm.  The error is a [TypeError], a [ValueError] or an
    [OverflowError]; the two divisions never fail, their divisors
    being guarded by [max]. *)
Theorem process_raises_first_failed_conversion (now : string) (data : dict) :
  let conversions :=
    [ py_float (dict_get data "temperature" (VInt 0));
      py_float (dict_get data "vibration" (VInt 0));
      py_float (dict_get data "pressure" (VInt 0));
      py_float (dict_get data "rpm" (VInt 0)) ] in
  (Derived.first_error conversions = None <->
     exists r, process_sensor_data now data = Ok r) /\
  (forall e, process_sensor_data now data = Raise e <->
             Derived.first_error conversions = Some e) /\
  (forall e, process_sensor_data now data = Raise e ->
             e = TypeError \/ e = ValueError \/ e = OverflowError).
Proof.
  intros conversions.
  assert (Hraise : forall e, process_sensor_data now data = Raise e <->
                             Derived.first_error conversions = Some e).
  { intros e. unfold conversions, Scorer.process_sensor_data. cbn [Derived.first_error].
    destruct (py_float (dict_get data "temperature" _)) as [t|e1] eqn:Ht;
      [|cbn; split; congruence].
    destruct (py_float (dict_get data "vibration" _)) as [v|e2] eqn:Hv;
      [|cbn; split; congruence].
    destruct (py_float (dict_get data "pressure" _)) as [p|e3] eqn:Hp;
      [|cbn; split; congruence].
    destruct (py_float (dict_get data "rpm" _)) as [n|e4] eqn:Hn;
      [|cbn; split; congruence].
    destruct (process_fields float_of_str now data t v p n Ht Hv Hp Hn) as (r & Hr & _).
    unfold Scorer.process_sensor_data in Hr. rewrite Ht, Hv, Hp, Hn in Hr.
    rewrite Hr. split; discriminate. }
  split; [|split; [exact Hraise|]].
  - split.
    + intros Hnone. destruct (process_sensor_data now data) as [r|e]; [by exists r|].
      pose proof (proj1 (Hraise e) eq_refl). congruence.
    + intros [r Hr]. destruct (Derived.first_error conversions) as [e|]; [|done].
      pose proof (proj2 (Hraise e) eq_refl). congruence.
  - intros e He%Hraise. unfold conversions in He. cbn [Derived.first_error] in He.
    repeat match type of He with
           | context [match ?c with Ok _ => _ | Raise _ => _ end] =>
               destruct c eqn:?; [|injection He as <-; by eapply py_float_errors]
           end.
    discriminate.
Qed.

(** X2.  A reading that is NaN is never flagged: every comparison
    with NaN is false.  A sample whose four readings are NaN is scored
    as normal, without failure fields. *)
Theorem nan_reading_not_flagged (now : string) (data : dict) (t v p n : spec_float) :
  py_float (dict_get data "temperature" (VInt 0)) = Ok t ->
  py_float (dict_get data "vibration" (VInt 0)) = Ok v ->
  py_float (dict_get data "pressure" (VInt 0)) = Ok p ->
  py_float (dict_get data "rpm" (VInt 0)) = Ok n ->
  exists r,
    process_sensor_data now data = Ok r /\
    (t = S754_nan -> r !! "temp_anomaly" = Some (VBool false)) /\
    (v = S754_nan -> r !! "vibration_anomaly" = Some (VBool false)) /\
    (p = S754_nan -> r !! "pressure_anomaly" = Some (VBool false)) /\
    (n = S754_nan -> r !! "rpm_anomaly" = Some (VBool false)) /\
    (t = S754_nan -> v = S754_nan -> p = S754_nan -> n = S754_nan ->
       r !! "anomaly_detected" = Some (VBool false) /\
       r !! "failure_probability" = None /\ r !! "failure_type" = None).
Proof.
  intros Ht Hv Hp Hn.
  destruct (process_fields float_of_str now data t v p n Ht Hv Hp Hn)
    as (r & Hr & _ & _ & _ & _ & H1 & H2 & H3 & H4 & H5 & H6 & H7).
  exists r. split; [exact Hr|].
  split; [by intros ->|]. split; [by intros ->|]. split; [by intros ->|].
  split; [by intros ->|].
  intros -> -> -> ->. by split; [|split].
Qed.

(** X3.  The keys of a scored record do not depend on the input:
    the thirteen fixed ones, and the two failure fields exactly when
    [anomaly_detected] is set.  Further entries of the input are
    dropped. *)
Theorem scored_record_keys (now : string) (data : dict) (r : dict) :
  process_sensor_data now data = Ok r ->
  dom r = Derived.record_keys
          ∪ (if Spec.flag r "anomaly_detected" then Derived.failure_keys else ∅).
Proof.
  intros Hr.
  destruct (process_inv float_of_str _ _ _ Hr) as (t & v & p & n & Ht & Hv & Hp & Hn).
  revert Hr. unfold Scorer.process_sensor_data. rewrite Ht, Hv, Hp, Hn.
  cbn [mbind result_bind].
  rewrite (py_truediv_max _ _ (F64.of_Z 1) (2 ^ 52)%positive (-52)) by reflexivity.
  rewrite (py_truediv_max _ _ (F64.dec 1 10) 7205759403792794%positive (-56)) by reflexivity.
  cbn [mbind result_bind].
  generalize (F64.div v (Scorer.py_max n (F64.of_Z 1))).
  generalize (F64.div t (Scorer.py_max p (F64.dec 1 10))).
  generalize (dict_get data "machine_id" (VStr "unknown")).
  intros mid q1 q2.
  destruct (Scorer.failure_rules _ _ _ _ _ _) as [fp ft].
  destruct (_ || _ || _ || _) eqn:Eany; intros [= <-].
  - unfold Spec.flag. cbn [list_to_map foldr fst snd].
    rewrite !dom_insert_L, dom_empty_L.
    rewrite !lookup_insert_ne by done. rewrite lookup_insert_eq.
    unfold Derived.record_keys, Derived.failure_keys. cbn [list_to_set foldr].
    set_solver.
  - unfold Spec.flag. cbn [list_to_map foldr fst snd].
    rewrite !dom_insert_L, dom_empty_L.
    rewrite !lookup_insert_ne by done. rewrite lookup_insert_eq.
    unfold Derived.record_keys. cbn [list_to_set foldr].
    set_solver.
Qed.

(** X4.  Scoring a scored record again succeeds and changes
    nothing but the timestamp. *)
Theorem rescoring_changes_only_timestamp (now now' : string) (data : dict) (r : dict) :
  process_sensor_data now data = Ok r ->
  process_sensor_data now' r = Ok (<["timestamp" := VStr now']> r).
Proof.
  intros Hr.
  destruct (process_inv float_of_str _ _ _ Hr) as (t & v & p & n & Ht & Hv & Hp & Hn).
  revert Hr. unfold Scorer.process_sensor_data at 1. rewrite Ht, Hv, Hp, Hn.
  cbn [mbind result_bind].
  rewrite (py_truediv_max _ _ (F64.of_Z 1) (2 ^ 52)%positive (-52)) by reflexivity.
  rewrite (py_truediv_max _ _ (F64.dec 1 10) 7205759403792794%positive (-56)) by reflexivity.
  cbn [mbind result_bind].
  set (mid := dict_get data "machine_id" (VStr "unknown")).
  set (q1 := F64.div v _). set (q2 := F64.div t _).
  set (ta := Scorer.anomalous Scorer.temp_normal t).
  set (va := Scorer.anomalous Scorer.vibration_normal v).
  set (pa := Scorer.anomalous Scorer.pressure_normal p).
  set (ra := Scorer.anomalous Scorer.rpm_normal n).
  set (rules := Scorer.failure_rules t v ta va pa ra).
  set (base := list_to_map _).
  assert (Hagain : forall r0 : dict,
             r0 !! "temperature" = Some (VFloat t) ->
             r0 !! "vibration" = Some (VFloat v) ->
             r0 !! "pressure" = Some (VFloat p) ->
             r0 !! "rpm" = Some (VFloat n) ->
             r0 !! "machine_id" = Some mid ->
             process_sensor_data now' r0 =
             Ok (let base' : dict :=
                   <["timestamp" := VStr now']> base in
                 if ta || va || pa || ra
                 then <["failure_type" := VStr (snd rules)]>
                        (<["failure_probability" := VFloat (fst rules)]> base')
                 else base')).
  { intros r0 H1 H2 H3 H4 H5. unfold Scorer.process_sensor_data, dict_get.
    rewrite H1, H2, H3, H4, H5. cbn [Scorer.py_float mbind result_bind].
    rewrite (py_truediv_max _ _ (F64.of_Z 1) (2 ^ 52)%positive (-52)) by reflexivity.
    rewrite (py_truediv_max _ _ (F64.dec 1 10) 7205759403792794%positive (-56))
      by reflexivity.
    cbn [mbind result_bind]. fold q1 q2 ta va pa ra. fold rules.
    unfold base. clearbody mid q1 q2 ta va pa ra rules.
    destruct rules as [fp ft]. cbn [fst snd].
    by destruct (ta || va || pa || ra). }
  clearbody mid q1 q2 ta va pa ra rules. destruct rules as [fp ft].
  destruct (ta || va || pa || ra); intros [= <-]; cbn [fst snd] in Hagain.
  - rewrite Hagain by reflexivity. reflexivity.
  - rewrite Hagain by reflexivity. reflexivity.
Qed.

End ScorerMore.

(** ** Persistence *)

Section SinkMore.

Variable DATA_DIR : string.
Variable repr_float : spec_float -> string.

Abbreviation store_data := (Sink.store_data DATA_DIR repr_float).
Abbreviation csv_file_of := (Sink.csv_file_of DATA_DIR repr_float).
Abbreviation alert_file_of := (Sink.alert_file_of DATA_DIR repr_float).
Abbreviation alert_json_of := (Sink.alert_json_of DATA_DIR repr_float).

Ltac run_store :=
  cbv [mbind io_bind mret io_ret Sink.to_csv_append Sink.open_w Sink.json_dump
       Sink.isfile Sink.attempt Sink.contents Sink.set_file Sink.print
       Sink.files Sink.faults Sink.stdout].

Ltac lookups :=
  repeat first [rewrite lookup_insert_eq | rewrite lookup_insert_ne by congruence].

(** [store_data] on a disk where every write succeeds. *)
Lemma store_data_run (record : dict) (w : Sink.world) :
  Sink.faults w = [] ->
  let machine_id := dict_get record "machine_id" (VStr "unknown") in
  let appended (p : string) : list Sink.chunk :=
    default [] (Sink.files w !! p)
      ++ (if bool_decide (is_Some (Sink.files w !! p)) then []
          else [Sink.CsvHeader (map fst (map_to_list record))])
      ++ [Sink.CsvRow record] in
  exists w',
    store_data record w = (true, w') /\
    Sink.faults w' = [] /\ Sink.stdout w' = Sink.stdout w /\
    Sink.files w' !! csv_file_of machine_id = Some (appended (csv_file_of machine_id)) /\
    (if Derived.is_alert record then
       Sink.files w' !! alert_file_of machine_id = Some (appended (alert_file_of machine_id))
       /\ Sink.files w' !! alert_json_of machine_id = Some [Sink.JsonDoc record]
     else
       Sink.files w' !! alert_file_of machine_id = Sink.files w !! alert_file_of machine_id
       /\ Sink.files w' !! alert_json_of machine_id = Sink.files w !! alert_json_of machine_id).
Proof.
  intros Hfaults machine_id appended.
  pose proof (csv_ne_alert DATA_DIR repr_float machine_id) as Hca.
  pose proof (csv_ne_json DATA_DIR repr_float machine_id) as Hcj.
  pose proof (alert_ne_json DATA_DIR repr_float machine_id) as Haj.
  unfold appended, Derived.is_alert. clear appended.
  unfold Sink.store_data, Sink.store_body. fold machine_id.
  set (csv_file := csv_file_of machine_id) in *.
  set (alert_file := alert_file_of machine_id) in *.
  set (alert_json := alert_json_of machine_id) in *.
  clearbody csv_file alert_file alert_json.
  destruct w as [files faults stdout]. cbn [Sink.faults] in Hfaults. subst faults.
  destruct (truthy _); run_store; eexists; (split; [reflexivity|]);
    cbn [Sink.files Sink.faults Sink.stdout]; repeat split; lookups;
    try destruct (files !! csv_file); try destruct (files !! alert_file); done.
Qed.

Lemma csv_of_snoc (records : list dict) (record : dict) :
  Derived.csv_of (records ++ [record]) =
  Some (default [] (Derived.csv_of records)
          ++ (if bool_decide (is_Some (Derived.csv_of records)) then []
              else [Sink.CsvHeader (map fst (map_to_list record))])
          ++ [Sink.CsvRow record]).
Proof.
  destruct records as [|first rest]; [reflexivity|].
  rewrite bool_decide_eq_true_2 by (by eexists).
  simpl. by rewrite map_app.
Qed.

(** X5.  Records of one machine stored one after the other on a
    disk without faults, starting without the three files: the CSV
    file holds one header, taken from the first record, and then
    every record in order; the alerts file holds the same for the
    anomalous records and is absent when there is none; the JSON file
    holds the last anomalous record only.  Nothing is printed. *)
Theorem store_sequence_one_header (machine_id : pyval) (records : list dict)
    (w : Sink.world) :
  Sink.faults w = [] ->
  Sink.files w !! csv_file_of machine_id = None ->
  Sink.files w !! alert_file_of machine_id = None ->
  Sink.files w !! alert_json_of machine_id = None ->
  Forall (fun record => dict_get record "machine_id" (VStr "unknown") = machine_id) records ->
  let w' := foldl (fun w record => (store_data record w).2) w records in
  let alerts := filter (fun record => Derived.is_alert record = true) records in
  Sink.files w' !! csv_file_of machine_id = Derived.csv_of records /\
  Sink.files w' !! alert_file_of machine_id = Derived.csv_of alerts /\
  Sink.files w' !! alert_json_of machine_id = Derived.snapshot_of alerts /\
  Sink.stdout w' = Sink.stdout w.
Proof.
  intros Hfaults Hcsv Halert Hjson Hmid.
  cut (let w' := foldl (fun w record => (store_data record w).2) w records in
       let alerts := filter (fun record => Derived.is_alert record = true) records in
       Sink.faults w' = [] /\
       Sink.files w' !! csv_file_of machine_id = Derived.csv_of records /\
       Sink.files w' !! alert_file_of machine_id = Derived.csv_of alerts /\
       Sink.files w' !! alert_json_of machine_id = Derived.snapshot_of alerts /\
       Sink.stdout w' = Sink.stdout w); [cbv zeta; tauto|].
  induction records as [|record records IH] using rev_ind; [done|].
  apply Forall_app in Hmid as [Hrecords Hrecord]. rewrite Forall_singleton in Hrecord.
  specialize (IH Hrecords). cbv zeta in IH.
  destruct IH as (Hf & Hc & Ha & Hj & Hout).
  cbv zeta. rewrite foldl_app. cbn [foldl].
  set (w1 := foldl _ w records) in *.
  pose proof (store_data_run record w1 Hf) as Hstep.
  cbv beta zeta in Hstep, Hrecord. rewrite Hrecord in Hstep.
  destruct Hstep as (w2 & Hrun & Hf2 & Hout2 & Hc2 & Hrest).
  rewrite Hrun. cbn [snd].
  rewrite filter_app, filter_cons, filter_nil.
  split; [done|]. split; [by rewrite Hc2, Hc, csv_of_snoc|].
  destruct (Derived.is_alert record) eqn:Ealert.
  - destruct Hrest as [Ha2 Hj2]. rewrite decide_True by done.
    split; [by rewrite Ha2, Ha, csv_of_snoc|].
    split; [|congruence].
    rewrite Hj2. unfold Derived.snapshot_of. by rewrite last_snoc.
  - destruct Hrest as [Ha2 Hj2]. rewrite decide_False by done.
    rewrite app_nil_r. split; [congruence|]. split; congruence.
Qed.

(** Case analysis on the outcomes of the writes a call can attempt. *)
Ltac by_outcomes files faults :=
  destruct faults as [|[] [|[] [|[] [|[] faults]]]]; run_store;
  cbn [Sink.files Sink.faults Sink.stdout fst snd].

(** X6.  Whatever happens, [store_data] leaves every file other
    than the three files of the machine as it is. *)
Theorem store_data_touches_three_files (record : dict) (w : Sink.world) (p : string) :
  let machine_id := dict_get record "machine_id" (VStr "unknown") in
  p <> csv_file_of machine_id ->
  p <> alert_file_of machine_id ->
  p <> alert_json_of machine_id ->
  Sink.files (store_data record w).2 !! p = Sink.files w !! p.
Proof.
  intros machine_id Hc Ha Hj.
  unfold Sink.store_data, Sink.store_body. fold machine_id.
  set (csv_file := csv_file_of machine_id) in *.
  set (alert_file := alert_file_of machine_id) in *.
  set (alert_json := alert_json_of machine_id) in *.
  clearbody csv_file alert_file alert_json.
  destruct w as [files faults stdout].
  destruct (truthy _); by_outcomes files faults; by lookups.
Qed.

(** X7.  [store_data] never shortens or removes a file: but for
    the latest-alert JSON file, which it overwrites, the old contents
    of every file are a prefix of the new ones. *)
Theorem store_data_append_only (record : dict) (w : Sink.world) :
  let machine_id := dict_get record "machine_id" (VStr "unknown") in
  let w' := (store_data record w).2 in
  (forall p : string,
      p <> alert_json_of machine_id ->
      default [] (Sink.files w !! p) `prefix_of` default [] (Sink.files w' !! p)) /\
  (forall p : string, is_Some (Sink.files w !! p) -> is_Some (Sink.files w' !! p)).
Proof.
  intros machine_id.
  pose proof (csv_ne_alert DATA_DIR repr_float machine_id) as Hca.
  pose proof (csv_ne_json DATA_DIR repr_float machine_id) as Hcj.
  pose proof (alert_ne_json DATA_DIR repr_float machine_id) as Haj.
  unfold Sink.store_data, Sink.store_body. fold machine_id.
  set (csv_file := csv_file_of machine_id) in *.
  set (alert_file := alert_file_of machine_id) in *.
  set (alert_json := alert_json_of machine_id) in *.
  clearbody csv_file alert_file alert_json.
  destruct w as [files faults stdout].
  destruct (truthy _); by_outcomes files faults; (split; intros p Hp);
    destruct (decide (p = csv_file)) as [->|];
    try destruct (decide (p = alert_file)) as [->|];
    try destruct (decide (p = alert_json)) as [->|];
    lookups; try done; try (by eexists); try (by apply prefix_app_r).
Qed.

(** X8.  [store_data] does not undo what it wrote before a
    failure: when a later write of an anomalous record fails, the call
    answers [False] while the row is already in the CSV file (and in
    the alerts file, when it is the JSON write that fails). *)
Theorem store_data_keeps_what_it_wrote (record : dict) (w : Sink.world) (later : list bool) :
  let machine_id := dict_get record "machine_id" (VStr "unknown") in
  let appended (p : string) : list Sink.chunk :=
    default [] (Sink.files w !! p)
      ++ (if bool_decide (is_Some (Sink.files w !! p)) then []
          else [Sink.CsvHeader (map fst (map_to_list record))])
      ++ [Sink.CsvRow record] in
  Derived.is_alert record = true ->
  (Sink.faults w = false :: true :: later ->
     (store_data record w).1 = false /\
     Sink.files (store_data record w).2 !! csv_file_of machine_id
       = Some (appended (csv_file_of machine_id)) /\
     Sink.files (store_data record w).2 !! alert_file_of machine_id
       = Sink.files w !! alert_file_of machine_id /\
     Sink.files (store_data record w).2 !! alert_json_of machine_id
       = Sink.files w !! alert_json_of machine_id) /\
  (Sink.faults w = false :: false :: true :: later ->
     (store_data record w).1 = false /\
     Sink.files (store_data record w).2 !! csv_file_of machine_id
       = Some (appended (csv_file_of machine_id)) /\
     Sink.files (store_data record w).2 !! alert_file_of machine_id
       = Some (appended (alert_file_of machine_id)) /\
     Sink.files (store_data record w).2 !! alert_json_of machine_id
       = Sink.files w !! alert_json_of machine_id).
Proof.
  intros machine_id appended Halert.
  pose proof (csv_ne_alert DATA_DIR repr_float machine_id) as Hca.
  pose proof (csv_ne_json DATA_DIR repr_float machine_id) as Hcj.
  pose proof (alert_ne_json DATA_DIR repr_float machine_id) as Haj.
  unfold appended. clear appended. unfold Derived.is_alert in Halert.
  unfold Sink.store_data, Sink.store_body. fold machine_id. rewrite Halert.
  set (csv_file := csv_file_of machine_id) in *.
  set (alert_file := alert_file_of machine_id) in *.
  set (alert_json := alert_json_of machine_id) in *.
  clearbody csv_file alert_file alert_json.
  destruct w as [files faults stdout]. cbn [Sink.faults].
  split; intros ->; run_store; cbn [Sink.files Sink.faults Sink.stdout fst snd];
    repeat split; lookups;
    try destruct (files !! csv_file); try destruct (files !! alert_file); done.
Qed.

End SinkMore.

Section MockToDisk.

Variable float_of_str : string -> option spec_float.
Variable DATA_DIR : string.
Variable repr_float : spec_float -> string.

(** The identification of a scored record. *)
Lemma process_identity (now : string) (data : dict) (r : dict) :
  Scorer.process_sensor_data float_of_str now data = Ok r ->
  r !! "timestamp" = Some (VStr now) /\
  r !! "machine_id" = Some (dict_get data "machine_id" (VStr "unknown")).
Proof.
  intros Hr.
  destruct (process_inv float_of_str _ _ _ Hr) as (t & v & p & n & Ht & Hv & Hp & Hn).
  revert Hr. unfold Scorer.process_sensor_data. rewrite Ht, Hv, Hp, Hn.
  cbn [mbind result_bind].
  rewrite (py_truediv_max _ _ (F64.of_Z 1) (2 ^ 52)%positive (-52)) by reflexivity.
  rewrite (py_truediv_max _ _ (F64.dec 1 10) 7205759403792794%positive (-56)) by reflexivity.
  cbn [mbind result_bind].
  generalize (F64.div v (Scorer.py_max n (F64.of_Z 1))).
  generalize (F64.div t (Scorer.py_max p (F64.dec 1 10))).
  generalize (dict_get data "machine_id" (VStr "unknown")).
  intros mid q1 q2.
  destruct (Scorer.failure_rules _ _ _ _ _ _) as [fp ft].
  by destruct (_ || _ || _ || _); intros [= <-].
Qed.

(** X9.  From the generator to the disk: every mock sample is
    scored without error, and storing the result on a disk without
    faults puts it last in both CSV files of the machine ["unknown"]
    and makes it the latest alert. *)
Theorem mock_sample_stored_as_alert (time_now : spec_float) (g : Mock.rng) (now : string)
    (w : Sink.world) :
  Sink.faults w = [] ->
  exists r,
    Scorer.process_sensor_data float_of_str now (Mock.mock_sample time_now g).1 = Ok r /\
    (Sink.store_data DATA_DIR repr_float r w).1 = true /\
    let w' := (Sink.store_data DATA_DIR repr_float r w).2 in
    let unknown := VStr "unknown" in
    Sink.files w' !! Sink.alert_json_of DATA_DIR repr_float unknown = Some [Sink.JsonDoc r] /\
    last (default [] (Sink.files w' !! Sink.alert_file_of DATA_DIR repr_float unknown))
      = Some (Sink.CsvRow r) /\
    last (default [] (Sink.files w' !! Sink.csv_file_of DATA_DIR repr_float unknown))
      = Some (Sink.CsvRow r).
Proof.
  intros Hfaults.
  destruct (mock_sample_fields time_now g) as (tw & a & p & rs & tq & _ & ->).
  set (data := <["power" := _]> _).
  assert (Hmissing : forall k, data !! k = None ->
            Scorer.py_float float_of_str (dict_get data k (VInt 0)) = Ok (S754_zero false)).
  { intros k Hk. unfold dict_get. by rewrite Hk. }
  destruct (process_fields float_of_str now data _ _ _ _
              (Hmissing "temperature" eq_refl) (Hmissing "vibration" eq_refl)
              (Hmissing "pressure" eq_refl) (Hmissing "rpm" eq_refl))
    as (r & Hr & _ & _ & _ & _ & _ & _ & _ & _ & Hany & _).
  exists r. split; [exact Hr|].
  destruct (process_identity now data r Hr) as [_ Hmid].
  assert (Hunknown : dict_get r "machine_id" (VStr "unknown") = VStr "unknown").
  { unfold dict_get. by rewrite Hmid. }
  assert (Halert : Derived.is_alert r = true).
  { unfold Derived.is_alert, dict_get. by rewrite Hany. }
  pose proof (store_data_run DATA_DIR repr_float r w Hfaults) as Hrun.
  cbv zeta in Hrun. rewrite Hunknown, Halert in Hrun.
  destruct Hrun as (w' & Hrun & _ & _ & Hcsv & Ha & Hj).
  rewrite Hrun. cbn [fst snd]. split; [done|].
  split; [exact Hj|].
  cbv zeta. rewrite Ha, Hcsv. cbn [from_option]. unfold id.
  by rewrite !app_assoc, !last_snoc.
Qed.

End MockToDisk.

Section MonitorMore.
Import Monitor.
Variable ext : externals.

(** Worlds that differ in a way [Derived.quiet] allows. *)
Ltac quiet :=
  unfold Derived.quiet;
  cbn [alerts_raised outbox smtp_up docker log_file files faults logging set_files
       set_faults record_alert deliver fst snd];
  repeat split; first [done | by apply prefix_app_r].

Lemma quiet_refl (w : world) : Derived.quiet w w.
Proof. quiet. Qed.

Lemma quiet_trans (w1 w2 w3 : world) :
  Derived.quiet w1 w2 -> Derived.quiet w2 w3 -> Derived.quiet w1 w3.
Proof.
  unfold Derived.quiet. intros (?&?&?&?&?) (?&?&?&?&?).
  repeat split; [congruence.. | by etrans].
Qed.

Lemma logging_quiet (l : level) (msg : string) (w : world) :
  Derived.quiet w (logging l msg w).
Proof. quiet. Qed.

Lemma get_file_hash_world (m : monitor) (w : world) :
  let r := _get_file_hash ext m w in
  files r.2 = files w /\ Derived.quiet w r.2.
Proof. unfold _get_file_hash. destruct (files w !! _); (split; [done | quiet]). Qed.

Lemma backup_world (now : clock) (m : monitor) (w : world) :
  let r := _backup_current_csv ext now m w in
  (exists snapshot,
      files r.2 =
        Derived.write_opt (backup_dir m, basename (csv_path m) +:+ "." +:+ backup_stamp now)
          snapshot (files w))
  /\ Derived.quiet w r.2.
Proof.
  unfold _backup_current_csv, write_file.
  destruct (_ ≫= _) as [df|]; [|split; [by exists None | quiet]].
  destruct (faults w) as [|[] fs]; cbn [fst snd]; (split; [|quiet]);
    first [by exists (Some (to_csv ext df)) | by exists None].
Qed.

Lemma compare_world (now : clock) (m : monitor) (at_ : string * string) (w : world) :
  let r := _compare_csv_changes ext now m at_ w in
  files r.2 = files w /\ Derived.quiet w r.2.
Proof.
  unfold _compare_csv_changes.
  destruct (_ ≫= _) as [current_df|]; [|split; [done | quiet]].
  destruct (_ ≫= _) as [previous_df|]; [|split; [done | quiet]].
  destruct (column_stats_of ext current_df previous_df); (split; [done | quiet]).
Qed.

Lemma container_stats_world (m : monitor) (w : world) :
  let r := _get_container_stats m w in
  files r.2 = files w /\ Derived.quiet w r.2.
Proof. unfold _get_container_stats. destruct (docker w); (split; [done | quiet]). Qed.

Lemma save_metrics_world (now : clock) (m : monitor) (report : change_report) (w : world) :
  let w' := _save_metrics ext now m (Some report) w in
  (exists metrics,
      files w' =
        Derived.write_opt (metrics_dir m, "metrics_" +:+ metrics_stamp now +:+ ".json")
          metrics (files w))
  /\ Derived.quiet w w'.
Proof.
  unfold _save_metrics, write_file.
  destruct (faults w) as [|[] fs]; cbn [fst snd]; (split; [|quiet]);
    first [by exists (Some (json_dumps ext report)) | by exists None].
Qed.

Lemma mails_for_nil (m : monitor) (up : bool) : Derived.mails_for m up [] = [].
Proof.
  unfold Derived.mails_for. destruct (alert_email m) as [to|]; [|done].
  by destruct (negb (String.eqb to "") && up).
Qed.

Lemma send_alert_world (m : monitor) (subject message : string) (w : world) :
  let w' := _send_alert m subject message w in
  files w' = files w /\
  alerts_raised w' = alerts_raised w ++ [(subject, message)] /\
  outbox w' = outbox w ++ Derived.mails_for m (smtp_up w) [(subject, message)] /\
  smtp_up w' = smtp_up w /\ docker w' = docker w /\
  log_file w `prefix_of` log_file w'.
Proof.
  unfold _send_alert, Derived.mails_for.
  destruct w as [fs qs dk up lg al ob], (alert_email m) as [to|];
    [destruct (String.eqb to ""); [|destruct up]|]; cbn; rewrite ?app_nil_r;
    repeat split; first [done | by apply prefix_app_r].
Qed.

(** What a check does to the world: at most the snapshot and the
    metrics file are written, the log file grows, at most one alert is
    raised, and the mails are those of the alert. *)
Lemma check_world (now : clock) (m : monitor) (w : world) :
  let r := check_for_changes ext now m w in
  exists (snapshot metrics : option string) (calls : list (string * string)),
    files r.2 =
      Derived.write_opt (metrics_dir m, "metrics_" +:+ metrics_stamp now +:+ ".json") metrics
        (Derived.write_opt
           (backup_dir m, basename (csv_path m) +:+ "." +:+ backup_stamp now) snapshot
           (files w)) /\
    alerts_raised r.2 = alerts_raised w ++ calls /\
    (length calls <= 1)%nat /\
    outbox r.2 = outbox w ++ Derived.mails_for m (smtp_up w) calls /\
    smtp_up r.2 = smtp_up w /\ docker r.2 = docker w /\
    log_file w `prefix_of` log_file r.2.
Proof.
  assert (Hnone : forall (w' : world) snapshot metrics,
             files w' =
               Derived.write_opt (metrics_dir m, "metrics_" +:+ metrics_stamp now +:+ ".json")
                 metrics
                 (Derived.write_opt
                    (backup_dir m, basename (csv_path m) +:+ "." +:+ backup_stamp now)
                    snapshot (files w)) ->
             Derived.quiet w w' ->
             exists (snapshot metrics : option string) (calls : list (string * string)),
               files w' =
                 Derived.write_opt
                   (metrics_dir m, "metrics_" +:+ metrics_stamp now +:+ ".json") metrics
                   (Derived.write_opt
                      (backup_dir m, basename (csv_path m) +:+ "." +:+ backup_stamp now)
                      snapshot (files w)) /\
               alerts_raised w' = alerts_raised w ++ calls /\
               (length calls <= 1)%nat /\
               outbox w' = outbox w ++ Derived.mails_for m (smtp_up w) calls /\
               smtp_up w' = smtp_up w /\ docker w' = docker w /\
               log_file w `prefix_of` log_file w').
  { intros w' snapshot metrics Hf (Ha & Ho & Hs & Hd & Hl).
    exists snapshot, metrics, []. rewrite mails_for_nil, !app_nil_r.
    repeat split; try done. cbn; lia. }
  unfold check_for_changes.
  pose proof (get_file_hash_world m w) as [Hf1 Hq1].
  destruct (_get_file_hash ext m w) as [h w1]. cbn [snd] in Hf1, Hq1.
  destruct (hash_truthy h && _); [|by apply (Hnone _ None None)].
  set (w1' := logging INFO _ w1).
  assert (Hq1' : Derived.quiet w w1') by (exact (quiet_trans _ _ _ Hq1 (logging_quiet _ _ _))).
  pose proof (backup_world now m w1') as [[snapshot Hf2] Hq2].
  destruct (_backup_current_csv ext now m w1') as [at_ w2].
  cbn [snd w1' logging files] in Hf2. cbn [snd] in Hq2. rewrite Hf1 in Hf2.
  pose proof (quiet_trans _ _ _ Hq1' Hq2) as Hq2'.
  destruct (2 <=? _)%nat; [|by apply (Hnone _ snapshot None)].
  match goal with |- context [_compare_csv_changes ext now m ?p w2] =>
    pose proof (compare_world now m p w2) as [Hf3 Hq3];
    destruct (_compare_csv_changes ext now m p w2) as [[report|] w3]
  end; cbn [snd] in Hf3, Hq3; pose proof (quiet_trans _ _ _ Hq2' Hq3) as Hq3';
    [|apply (Hnone _ snapshot None); [cbn [snd Derived.write_opt]; congruence | done]].
  pose proof (container_stats_world m w3) as [Hf4 Hq4].
  destruct (_get_container_stats m w3) as [stats w4]. cbn [snd] in Hf4, Hq4.
  pose proof (quiet_trans _ _ _ Hq3' Hq4) as Hq4'.
  match goal with |- context [_save_metrics ext now m (Some ?r) w4] =>
    pose proof (save_metrics_world now m r w4) as [[metrics Hf5] Hq5]; set (report' := r) in *
  end.
  set (w5 := _save_metrics ext now m (Some report') w4) in *.
  pose proof (quiet_trans _ _ _ Hq4' Hq5) as Hq5'.
  assert (Hfiles5 : files w5 =
            Derived.write_opt (metrics_dir m, "metrics_" +:+ metrics_stamp now +:+ ".json")
              metrics
              (Derived.write_opt
                 (backup_dir m, basename (csv_path m) +:+ "." +:+ backup_stamp now)
                 snapshot (files w))) by congruence.
  destruct (1000 <? _); [|by apply (Hnone _ snapshot metrics)].
  match goal with |- context [_send_alert m ?s ?msg w5] =>
    pose proof (send_alert_world m s msg w5) as (Hf6 & Ha6 & Ho6 & Hs6 & Hd6 & Hl6);
    exists snapshot, metrics, [(s, msg)]
  end.
  destruct Hq5' as (Ha & Ho & Hs & Hd & Hl). cbn [snd].
  repeat split;
    [congruence | congruence | cbn; lia | congruence | congruence | congruence | by etrans].
Qed.

(** What a check does to the monitor. *)
Lemma check_monitor (now : clock) (m : monitor) (w : world) :
  let h := (_get_file_hash ext m w).1 in
  (check_for_changes ext now m w).1 =
    set_last_check_time (check_time now)
      (if hash_truthy h && negb (bool_decide (h = last_hash m)) then set_last_hash h m else m).
Proof.
  unfold check_for_changes.
  destruct (_get_file_hash ext m w) as [h w1]. cbn [fst].
  destruct (hash_truthy h && _); [|done].
  destruct (_backup_current_csv ext now m _) as [at_ w2]. done.
Qed.

Lemma write_opt_lookup_ne (at_ k : string * string) (bytes : option string)
    (fs : gmap (string * string) string) :
  k <> at_ -> Derived.write_opt at_ bytes fs !! k = fs !! k.
Proof. intros Hk. destruct bytes; cbn; [by rewrite lookup_insert_ne|done]. Qed.

Lemma write_opt_keeps (at_ k : string * string) (bytes : option string)
    (fs : gmap (string * string) string) :
  is_Some (fs !! k) -> is_Some (Derived.write_opt at_ bytes fs !! k).
Proof.
  intros Hk. destruct bytes as [b|]; cbn; [|done].
  destruct (decide (at_ = k)) as [->|Hne]; [by rewrite lookup_insert_eq|].
  by rewrite lookup_insert_ne.
Qed.

Lemma metrics_ne_snapshot_target (m : monitor) (now : clock) :
  String.prefix "metrics_" (basename (csv_path m)) = false ->
  (metrics_dir m, "metrics_" +:+ metrics_stamp now +:+ ".json") <> locate (csv_path m).
Proof.
  intros Hprefix Heq. unfold locate in Heq. injection Heq as _ Heq.
  rewrite <- Heq in Hprefix. by rewrite prefix_append in Hprefix.
Qed.

(** The monitored file itself survives every check. *)
Lemma check_keeps_target (now : clock) (m : monitor) (w : world) :
  (metrics_dir m, "metrics_" +:+ metrics_stamp now +:+ ".json") <> locate (csv_path m) ->
  files (check_for_changes ext now m w).2 !! locate (csv_path m)
    = files w !! locate (csv_path m).
Proof.
  intros Hmetrics.
  destruct (check_world now m w) as (snapshot & metrics & calls & Hf & _).
  rewrite Hf, !write_opt_lookup_ne; [done | apply not_eq_sym, snapshot_ne_target | congruence].
Qed.

Lemma check_keeps_config (now : clock) (m : monitor) (w : world) :
  let m' := (check_for_changes ext now m w).1 in
  csv_path m' = csv_path m /\ backup_dir m' = backup_dir m /\
  metrics_dir m' = metrics_dir m /\ alert_email m' = alert_email m /\
  check_interval m' = check_interval m /\ container_name m' = container_name m.
Proof. cbv zeta. rewrite check_monitor. by destruct (_ && _). Qed.

(** A check with nothing to detect changes neither files nor alerts
    nor the stored hash. *)
Lemma check_settled (now : clock) (m : monitor) (w : world) :
  Derived.settled ext m w ->
  let r := check_for_changes ext now m w in
  files r.2 = files w /\ Derived.quiet w r.2 /\ last_hash r.1 = last_hash m.
Proof.
  unfold Derived.settled, check_for_changes, _get_file_hash.
  destruct (files w !! locate (csv_path m)) as [bytes|];
    [|intros _; split; [done|]; split; [quiet | done]].
  intros [Hempty | Hseen]; cbn [hash_truthy].
  - rewrite Hempty. split; [done|]. split; [quiet | done].
  - rewrite Hseen, bool_decide_eq_true_2, andb_false_r by done.
    split; [done|]. split; [quiet | done].
Qed.

(** Every check leaves the monitor with nothing to detect. *)
Lemma check_settles (now : clock) (m : monitor) (w : world) :
  (metrics_dir m, "metrics_" +:+ metrics_stamp now +:+ ".json") <> locate (csv_path m) ->
  let r := check_for_changes ext now m w in
  Derived.settled ext r.1 r.2.
Proof.
  intros Hmetrics r. unfold Derived.settled, r.
  destruct (check_keeps_config now m w) as (-> & _).
  rewrite (check_keeps_target now m w Hmetrics), check_monitor.
  unfold _get_file_hash.
  destruct (files w !! locate (csv_path m)) as [bytes|] eqn:E; [|done].
  cbn [fst hash_truthy].
  destruct (String.eqb_spec (md5_hexdigest ext bytes) "") as [Hempty|Hne]; [by left|].
  right. cbn [negb andb].
  destruct (decide (Some (md5_hexdigest ext bytes) = last_hash m)) as [Heq|Hneq].
  - rewrite bool_decide_eq_true_2 by done. by cbn.
  - by rewrite bool_decide_eq_false_2.
Qed.

Lemma loop_settled (turns : list clock) (m : monitor) (w : world) :
  Derived.settled ext m w ->
  let r := Loop.run_monitor_loop ext turns m w in
  files r.2 = files w /\ Derived.quiet w r.2 /\ last_hash r.1 = last_hash m.
Proof.
  revert m w. induction turns as [|now later IH]; intros m w Hsettled.
  - cbn. split; [done|]. split; [apply quiet_refl | done].
  - cbn [Loop.run_monitor_loop].
    pose proof (check_settled now m w Hsettled) as (Hf & Hq & Hh).
    pose proof (check_keeps_config now m w) as (Hpath & _).
    destruct (check_for_changes ext now m w) as [m1 w1]. cbn [fst snd] in *.
    set (w1' := logging INFO _ w1).
    assert (Hsettled' : Derived.settled ext m1 w1').
    { unfold Derived.settled in *. cbn [w1' files logging]. by rewrite Hpath, Hf, Hh. }
    destruct (IH m1 w1' Hsettled') as (Hf' & Hq' & Hh').
    split; [by rewrite Hf'|]. split; [|congruence].
    exact (quiet_trans _ _ _ (quiet_trans _ _ _ Hq (logging_quiet _ _ _)) Hq').
Qed.

(** The run of a check that finds a change and can compare it with the
    preceding snapshot. *)
Lemma compared_change_run (now : clock) (m : monitor) (w : world)
    (bytes previous_bytes : string) (current_df previous_df : frame)
    (olds : list string) (previous_name : string) :
  let name := basename (csv_path m) +:+ "." +:+ backup_stamp now in
  let metrics_path := (metrics_dir m, "metrics_" +:+ metrics_stamp now +:+ ".json") in
  let changed := Z.abs (len current_df - len previous_df) in
  let calls :=
    if 1000 <? changed
    then [("ML Model Alert: Significant CSV Changes",
           "Detected " +:+ pretty changed +:+ " row changes in " +:+ csv_path m)]
    else [] in
  files w !! locate (csv_path m) = Some bytes ->
  read_csv ext bytes = Some current_df ->
  md5_hexdigest ext bytes <> "" ->
  last_hash m <> Some (md5_hexdigest ext bytes) ->
  hd false (faults w) = false ->
  backups_of m w = olds ++ [previous_name] ->
  String.le previous_name name ->
  files w !! (backup_dir m, name) = None ->
  files w !! (backup_dir m, previous_name) = Some previous_bytes ->
  read_csv ext previous_bytes = Some previous_df ->
  Spec.statistics_defined ext current_df previous_df ->
  let r := check_for_changes ext now m w in
  alerts_raised r.2 = alerts_raised w ++ calls /\
  outbox r.2 = outbox w ++ Derived.mails_for m (smtp_up w) calls /\
  (hd false (tl (faults w)) = false ->
     exists report,
       files r.2 !! metrics_path = Some (json_dumps ext report) /\
       current_rows report = len current_df /\
       previous_rows report = len previous_df /\
       rows_changed report = changed /\
       container report = docker w).
Proof.
  intros name metrics_path changed calls Hfile Hread Hne Hlast Hfault Hbackups Hle Hfresh
    Hprev Hpread Hdefined r.
  set (w0 := logging INFO ("Changes detected in " +:+ csv_path m) w).
  destruct (backup_run ext now m w0 bytes current_df Hfile Hread Hfault)
    as (w1 & Hb & Hf1 & Hq1 & Ha1 & Ho1).
  pose proof (backup_world now m w0) as [_ (_ & _ & Hs1 & Hd1 & _)].
  rewrite Hb in Hs1, Hd1.
  cbn [files faults alerts_raised outbox smtp_up docker logging w0 snd]
    in Hf1, Hq1, Ha1, Ho1, Hs1, Hd1.
  fold name in Hb, Hf1.
  assert (Hlisting : backups_of m w1 = (olds ++ [previous_name]) ++ [name]).
  { rewrite <- Hbackups.
    apply (backups_of_insert m w w1 (backup_stamp now) (to_csv ext current_df)); [done..|].
    rewrite Hbackups. by constructor. }
  assert (Hfile1 : files w1 !! locate (csv_path m) = Some bytes).
  { rewrite Hf1, lookup_insert_ne; [done | apply snapshot_ne_target]. }
  assert (Hprev1 : files w1 !! (backup_dir m, previous_name) = Some previous_bytes).
  { rewrite Hf1, lookup_insert_ne; [done | congruence]. }
  destruct (compare_run ext now m w1 (backup_dir m, previous_name) _ _ _ _
              Hfile1 Hread Hprev1 Hpread Hdefined)
    as (report & Hc & Hcur & Hprevrows & Hchanged & Hcont).
  destruct (nth_penultimate olds previous_name name) as [Hlen Hnth].
  assert (Hr : r = check_for_changes ext now m w) by done.
  unfold check_for_changes in Hr.
  rewrite (get_file_hash_found ext m w bytes Hfile) in Hr.
  cbn [hash_truthy] in Hr.
  rewrite (proj2 (String.eqb_neq _ _) Hne) in Hr.
  rewrite bool_decide_eq_false_2 in Hr by congruence.
  cbn [negb andb] in Hr. fold w0 in Hr. rewrite Hb, Hlisting, Hlen, Hnth, Hc in Hr.
  pose proof (get_container_stats_frame m w1) as Hstats.
  pose proof (container_stats_world m w1) as [_ (_ & _ & Hs2 & Hd2 & _)].
  assert (Hanswer : (_get_container_stats m w1).1 = docker w).
  { unfold _get_container_stats. rewrite Hd1. by destruct (docker w). }
  destruct (_get_container_stats m w1) as [stats w2].
  cbn [fst snd] in Hstats, Hs2, Hd2, Hanswer. destruct Hstats as (Ha2 & Ho2 & Hf2 & Hq2).
  set (report' := match stats with Some cs => _ | None => report end) in Hr.
  assert (Hrows : rows_changed report' = changed
                  /\ current_rows report' = len current_df
                  /\ previous_rows report' = len previous_df
                  /\ container report' = docker w).
  { unfold report'. rewrite <- Hanswer. by destruct stats. }
  destruct Hrows as (Hrows & Hcur' & Hprev' & Hcont').
  pose proof (save_metrics_frame ext now m report' w2) as Hsave.
  pose proof (save_metrics_world now m report' w2) as [_ (_ & _ & Hs3 & Hd3 & _)].
  set (w3 := _save_metrics ext now m (Some report') w2) in *.
  destruct Hsave as (Ha3 & Ho3 & Hf3).
  rewrite Hrows in Hr. unfold calls.
  destruct (1000 <? changed).
  - pose proof (send_alert_world m "ML Model Alert: Significant CSV Changes"
                  ("Detected " +:+ pretty changed +:+ " row changes in " +:+ csv_path m) w3)
      as Hsend.
    set (w4 := _send_alert m _ _ w3) in *. destruct Hsend as (Hf4 & Ha4 & Ho4 & _).
    rewrite Hr. cbn [fst snd].
    split; [by rewrite Ha4, Ha3, Ha2, Ha1|].
    split; [by rewrite Ho4, Ho3, Ho2, Ho1, Hs3, Hs2, Hs1|].
    intros Hfault2. exists report'.
    rewrite Hf4, Hf3, Hq2, Hq1, Hfault2, lookup_insert_eq. done.
  - rewrite Hr. cbn [fst snd]. rewrite mails_for_nil, !app_nil_r.
    split; [by rewrite Ha3, Ha2, Ha1|].
    split; [by rewrite Ho3, Ho2, Ho1|].
    intros Hfault2. exists report'.
    rewrite Hf3, Hq2, Hq1, Hfault2, lookup_insert_eq. done.
Qed.

(** X10.  Besides appending to its log file, a check writes at most
    two files: the snapshot and the metrics file, each named after
    the reading of the clock taken for it.  Every other file is left
    as it is, no file is deleted, and the monitored file itself is
    not changed. *)
Theorem check_writes_snapshot_metrics_and_log (now : clock) (m : monitor) (w : world) :
  let r := check_for_changes ext now m w in
  let snapshot_path := (backup_dir m, basename (csv_path m) +:+ "." +:+ backup_stamp now) in
  let metrics_path := (metrics_dir m, "metrics_" +:+ metrics_stamp now +:+ ".json") in
  (forall k,
      k <> snapshot_path -> k <> metrics_path -> k <> locate log_path ->
      files r.2 !! k = files w !! k) /\
  (forall k, is_Some (files w !! k) -> is_Some (files r.2 !! k)) /\
  (String.prefix "metrics_" (basename (csv_path m)) = false ->
   locate (csv_path m) <> locate log_path ->
   files r.2 !! locate (csv_path m) = files w !! locate (csv_path m)) /\
  log_file w `prefix_of` log_file r.2.
Proof.
  intros r snapshot_path metrics_path.
  destruct (check_world now m w)
    as (snapshot & metrics & calls & Hf & _ & _ & _ & _ & _ & Hlog).
  fold r snapshot_path metrics_path in Hf.
  split; [|split; [|split]].
  - intros k Hs Hm _. by rewrite Hf, !write_opt_lookup_ne.
  - intros k Hk. rewrite Hf. by do 2 apply write_opt_keeps.
  - intros Hprefix _. apply check_keeps_target. by apply metrics_ne_snapshot_target.
  - exact Hlog.
Qed.

(** X11.  The mails of a check follow its alert: at most one mail,
    none without a configured address or with the empty address, none
    when the mail server fails, and every mail is the alert of this
    check sent to the configured address. *)
Theorem check_mails_follow_alerts (now : clock) (m : monitor) (w : world) :
  let r := check_for_changes ext now m w in
  exists (calls : list (string * string)) (mails : list (string * string * string)),
    alerts_raised r.2 = alerts_raised w ++ calls /\
    outbox r.2 = outbox w ++ mails /\
    (length mails <= length calls <= 1)%nat /\
    (alert_email m = None -> mails = []) /\
    (alert_email m = Some "" -> mails = []) /\
    (smtp_up w = false -> mails = []) /\
    (forall to subject message,
        (to, subject, message) ∈ mails ->
        alert_email m = Some to /\ (subject, message) ∈ calls).
Proof.
  intros r.
  destruct (check_world now m w) as (snapshot & metrics & calls & _ & Ha & Hlen & Ho & _).
  fold r in Ha, Ho.
  exists calls, (Derived.mails_for m (smtp_up w) calls).
  split; [exact Ha|]. split; [exact Ho|].
  unfold Derived.mails_for.
  destruct (alert_email m) as [to|];
    [destruct (String.eqb_spec to "") as [->|Hto]; [|destruct (smtp_up w)]|];
    cbn [negb andb].
  - cbn. split; [lia|]. repeat split; try done; by apply elem_of_nil in H.
  - rewrite length_map. split; [lia|]. split; [done|]. split; [congruence|].
    split; [done|].
    intros to' subject message Hin.
    apply list_elem_of_fmap in Hin as ([s msg] & [= -> -> ->] & Hin). done.
  - cbn. split; [lia|]. repeat split; try done; by apply elem_of_nil in H.
  - cbn. split; [lia|]. repeat split; try done; by apply elem_of_nil in H.
Qed.




(** X13.  The alert threshold is strict: a change of up to 1000 rows
    whose comparison with the preceding snapshot computes its report
    raises no alert and sends no mail, while the report, with the
    answer of [docker stats], is still saved. *)
Theorem change_up_to_threshold_is_silent (now : clock) (m : monitor) (w : world)
    (bytes previous_bytes : string) (current_df previous_df : frame)
    (olds : list string) (previous_name : string) :
  let name := basename (csv_path m) +:+ "." +:+ backup_stamp now in
  let metrics_path := (metrics_dir m, "metrics_" +:+ metrics_stamp now +:+ ".json") in
  let changed := Z.abs (len current_df - len previous_df) in
  files w !! locate (csv_path m) = Some bytes ->
  read_csv ext bytes = Some current_df ->
  md5_hexdigest ext bytes <> "" ->
  last_hash m <> Some (md5_hexdigest ext bytes) ->
  hd false (faults w) = false ->
  hd false (tl (faults w)) = false ->
  backups_of m w = olds ++ [previous_name] ->
  String.le previous_name name ->
  files w !! (backup_dir m, name) = None ->
  files w !! (backup_dir m, previous_name) = Some previous_bytes ->
  read_csv ext previous_bytes = Some previous_df ->
  Spec.statistics_defined ext current_df previous_df ->
  changed <= 1000 ->
  let r := check_for_changes ext now m w in
  alerts_raised r.2 = alerts_raised w /\
  outbox r.2 = outbox w /\
  exists report,
    files r.2 !! metrics_path = Some (json_dumps ext report) /\
    rows_changed report = changed /\
    container report = docker w.
Proof.
  intros name metrics_path changed Hfile Hread Hne Hlast Hfault Hfault2 Hbackups Hle Hfresh
    Hprev Hpread Hdefined Hsmall r.
  destruct (compared_change_run now m w bytes previous_bytes current_df previous_df olds
              previous_name Hfile Hread Hne Hlast Hfault Hbackups Hle Hfresh Hprev Hpread
              Hdefined)
    as (Ha & Ho & Hreport).
  fold changed r in Ha, Ho, Hreport.
  rewrite (proj2 (Z.ltb_ge _ _) Hsmall) in Ha, Ho.
  rewrite mails_for_nil in Ho. rewrite app_nil_r in Ha, Ho.
  split; [exact Ha|]. split; [exact Ho|].
  destruct (Hreport Hfault2) as (report & Hsaved & _ & _ & Hrows & Hcont).
  by exists report.
Qed.

(** X14.  While the monitored file is missing, the loop only logs:
    every turn appends an error line and the announcement of the next
    check to the log file; no other file is written, no alert is
    raised, no mail is sent, and the stored hash is kept. *)
Theorem loop_on_missing_file_only_logs (turns : list clock) (m : monitor) (w : world) :
  files w !! locate (csv_path m) = None ->
  let r := Loop.run_monitor_loop ext turns m w in
  (forall k, k <> locate log_path -> files r.2 !! k = files w !! k) /\
  alerts_raised r.2 = alerts_raised w /\
  outbox r.2 = outbox w /\
  last_hash r.1 = last_hash m /\
  log_file r.2 = log_file w ++ concat (map (fun _ => Derived.missing_file_lines m) turns).
Proof.
  intros Hmissing r.
  assert (Hrun : files r.2 = files w /\ alerts_raised r.2 = alerts_raised w /\
                 outbox r.2 = outbox w /\ last_hash r.1 = last_hash m /\
                 log_file r.2
                 = log_file w ++ concat (map (fun _ => Derived.missing_file_lines m) turns)).
  { unfold r. clear r. revert m w Hmissing.
    induction turns as [|now later IH]; intros m w Hmissing.
    - cbn. by rewrite app_nil_r.
    - cbn [Loop.run_monitor_loop].
      assert (Hcheck : check_for_changes ext now m w
                       = (set_last_check_time (check_time now) m,
                          logging ERROR "Error hashing file" w)).
      { unfold check_for_changes, _get_file_hash. by rewrite Hmissing. }
      rewrite Hcheck.
      set (m1 := set_last_check_time (check_time now) m).
      set (w1 := logging INFO _ (logging ERROR _ w)).
      destruct (IH m1 w1 Hmissing) as (Hf & Ha & Ho & Hh & Hl).
      split; [by rewrite Hf|]. split; [by rewrite Ha|]. split; [by rewrite Ho|].
      split; [by rewrite Hh|].
      rewrite Hl. cbn [map concat]. rewrite app_assoc. f_equal.
      cbn [w1 logging log_file m1 set_last_check_time check_interval
           Derived.missing_file_lines].
      by rewrite <- app_assoc. }
  destruct Hrun as (Hf & Ha & Ho & Hh & Hl).
  split; [intros k _; by rewrite Hf|]. by repeat split.
Qed.

(** X15.  Left alone with the disk, the loop does no more than its
    first check did, but for the lines it appends to the log file:
    later turns write no other file, raise no alert and send no mail.
    So the whole run raises at most one alert, also when the snapshot
    or the metrics of the first check could not be written. *)
Theorem loop_acts_in_first_check_only (now : clock) (later : list clock)
    (m : monitor) (w : world) :
  String.prefix "metrics_" (basename (csv_path m)) = false ->
  let first := check_for_changes ext now m w in
  let r := Loop.run_monitor_loop ext (now :: later) m w in
  (forall k, k <> locate log_path -> files r.2 !! k = files first.2 !! k) /\
  log_file first.2 `prefix_of` log_file r.2 /\
  alerts_raised r.2 = alerts_raised first.2 /\
  outbox r.2 = outbox first.2 /\
  last_hash r.1 = last_hash first.1 /\
  exists calls : list (string * string),
    alerts_raised r.2 = alerts_raised w ++ calls /\ (length calls <= 1)%nat.
Proof.
  intros Hprefix first r.
  pose proof (check_settles now m w (metrics_ne_snapshot_target m now Hprefix)) as Hsettled.
  destruct (check_alerts_at_most_once ext now m w) as (calls & Hcalls & Hlen).
  fold first in Hsettled, Hcalls.
  unfold r. cbn [Loop.run_monitor_loop]. fold first.
  destruct first as [m1 w1]. cbn [fst snd] in *.
  set (w1' := logging INFO _ w1).
  assert (Hsettled' : Derived.settled ext m1 w1') by done.
  destruct (loop_settled later m1 w1' Hsettled') as (Hf & (Ha & Ho & _ & _ & Hl) & Hh).
  split; [intros k _; by rewrite Hf|].
  split; [etrans; [|exact Hl]; by apply prefix_app_r|].
  split; [exact Ha|]. split; [exact Ho|]. split; [exact Hh|].
  exists calls. split; [by rewrite Ha | exact Hlen].
Qed.

End MonitorMore.

Section MockMore.

(** X16.  Every generated sample has exactly the eight entries of the
    source, with the five draws in their ranges; the temperature
    difference lies between -20 and 40, so it can be negative. *)
Theorem mock_sample_ranges (now : spec_float) (g : Mock.rng) :
  let data := fst (Mock.mock_sample now g) in
  dom data = Derived.mock_keys /\
  exists tool_wear air_temp process_temp rotation_speed torque : Z,
    data !! "tool_wear" = Some (VInt tool_wear) /\ 0 <= tool_wear <= 300 /\
    data !! "air_temp" = Some (VInt air_temp) /\ 290 <= air_temp <= 310 /\
    data !! "process_temp" = Some (VInt process_temp) /\ 290 <= process_temp <= 330 /\
    data !! "rotation_speed" = Some (VInt rotation_speed) /\ 1000 <= rotation_speed <= 3000 /\
    data !! "torque" = Some (VInt torque) /\ 5 <= torque <= 75 /\
    data !! "temp_diff" = Some (VInt (process_temp - air_temp)) /\
    -20 <= process_temp - air_temp <= 40 /\
    data !! "timestamp" = Some (VFloat now).
Proof.
  unfold Mock.mock_sample.
  pose proof (randint_range 0 300 g ltac:(lia)) as Htw.
  destruct (Mock.randint 0 300 g) as [tool_wear g1].
  pose proof (randint_range 290 310 g1 ltac:(lia)) as Hat.
  destruct (Mock.randint 290 310 g1) as [air_temp g2].
  pose proof (randint_range 290 330 g2 ltac:(lia)) as Hpt.
  destruct (Mock.randint 290 330 g2) as [process_temp g3].
  pose proof (randint_range 1000 3000 g3 ltac:(lia)) as Hrs.
  destruct (Mock.randint 1000 3000 g3) as [rotation_speed g4].
  pose proof (randint_range 5 75 g4 ltac:(lia)) as Htq.
  destruct (Mock.randint 5 75 g4) as [torque g5].
  cbn [fst] in *. split.
  - cbn [list_to_map foldr fst snd uncurry]. rewrite !dom_insert_L, dom_empty_L.
    unfold Derived.mock_keys. cbn [list_to_set foldr]. set_solver.
  - exists tool_wear, air_temp, process_temp, rotation_speed, torque.
    repeat split; try reflexivity; lia.
Qed.

(** X17.  The queue after [n] more iterations: what was queued stays in
    front, in its order, and the [k]-th new sample is the one built
    from the clock reading of the [k]-th iteration. *)
Theorem mock_queue_in_production_order (time : nat -> spec_float) (n : nat) (st : Mock.state) :
  let st' := Mock.generate_mock_data time n st in
  Mock.iteration st' = (Mock.iteration st + n)%nat /\
  exists new : list dict,
    Mock.data_queue st' = Mock.data_queue st ++ new /\
    length new = n /\
    forall (k : nat) (data : dict),
      new !! k = Some data ->
      data !! "timestamp" = Some (VFloat (time (Mock.iteration st + k)%nat)).
Proof.
  induction n as [|n IH].
  - cbn. split; [lia|]. exists []. rewrite app_nil_r. by repeat split.
  - cbv zeta in *. unfold Mock.generate_mock_data in *. rewrite Nat.iter_succ.
    set (st' := Nat.iter n (Mock.mock_iter time) st) in *.
    destruct IH as (Hit & new & Hq & Hlen & Hstamps).
    unfold Mock.mock_iter.
    pose proof (mock_sample_fields (time (Mock.iteration st')) (Mock.entropy st'))
      as (tw & a & p & rs & tq & _ & Hdata).
    destruct (Mock.mock_sample _ _) as [data g']. cbn [fst] in Hdata.
    cbn [Mock.iteration Mock.data_queue]. split; [lia|].
    exists (new ++ [data]). split; [by rewrite Hq, app_assoc|].
    split; [rewrite length_app; cbn; lia|].
    intros k d Hk. apply lookup_app_Some in Hk as [Hk | [Hge Hk]].
    + by apply Hstamps.
    + apply list_lookup_singleton_Some in Hk as [Hk <-].
      replace k with n by lia. rewrite <- Hit, Hdata. reflexivity.
Qed.

End MockMore.

Section ConnectorMore.
Import Connector.
Variable cd : codec.


Lemma read_loop_step (ev : tick) (rest : list tick) (c : connector) :
  running c = true ->
  read_loop cd (ev :: rest) c =
    match read_step cd ev c with
    | (Ok _, c') => read_loop cd rest c'
    | (Raise e, c') => (Raise e, c')
    end.
Proof.
  intros Hrun. cbn [read_loop]. rewrite Hrun. unfold mbind, io_bind.
  by destruct (read_step cd ev c) as [[[]|e] c'].
Qed.


(** A turn on which the port opens and reads without error. *)
Lemma read_step_readable (ev : tick) (c : connector) :
  well_formed c -> readable cd ev ->
  exists c',
    read_step cd ev c = (Ok tt, c') /\
    connected c' = true /\ serial_conn c' = Some true /\ running c' = running c /\
    data_queue c' = (fun q => q ++ option_list (accepted cd ev)) <$> data_queue c.
Proof.
  unfold well_formed, readable, harmless, read_step, accepted, connect.
  intros Hwf (Hopens & Hport & Hharmless). rewrite Hopens.
  destruct (connected c) eqn:Hc; cbn [negb fst snd];
    (destruct (port_offers ev) as [|raw|]; [| |done]);
    [| destruct (decode_utf8 cd raw) as [text|]; [|done];
       destruct (json_loads cd (strip cd text)) as [d| |]; [| done |]
     | | destruct (decode_utf8 cd raw) as [text|]; [|done];
       destruct (json_loads cd (strip cd text)) as [d| |]; [| done |] ];
    eexists; (split; [reflexivity|]); unfold put; cbn;
    destruct (data_queue c) as [q|] eqn:Hq; cbn; rewrite ?Hq, ?app_nil_r; auto.
Qed.

Lemma read_loop_readable (ticks : list tick) (c : connector) :
  well_formed c -> running c = true ->
  Forall (readable cd) ticks ->
  exists c',
    read_loop cd ticks c = (Ok tt, c') /\
    data_queue c' = (fun q => q ++ omap (accepted cd) ticks) <$> data_queue c /\
    (ticks <> [] -> connected c' = true /\ serial_conn c' = Some true).
Proof.
  revert c. induction ticks as [|ev rest IH]; intros c Hwf Hrun Hticks.
  - exists c. cbn. split; [done|]. split; [|done].
    destruct (data_queue c); cbn; by rewrite ?app_nil_r.
  - apply Forall_cons in Hticks as [Hev Hrest].
    rewrite (read_loop_step ev rest c Hrun).
    destruct (read_step_readable ev c Hwf Hev) as (c1 & -> & Hc1 & Hs1 & Hr1 & Hq1).
    destruct (IH c1 ltac:(by intros _) ltac:(congruence) Hrest) as (c' & Hloop & Hq' & Hlive).
    exists c'. split; [exact Hloop|]. split.
    + rewrite Hq', Hq1. destruct (data_queue c) as [q|]; cbn [fmap option_fmap option_map]; [|done].
      f_equal. cbn [omap list_omap]. rewrite <- app_assoc. f_equal.
      by destruct (accepted cd ev).
    + intros _. destruct rest as [|ev' rest']; [|by apply Hlive].
      cbn in Hloop. by injection Hloop as <-.
Qed.


(** X19.  While the port opens and reads without error, every object the
    ticks offer is queued, in order; lines that are not JSON are
    skipped and the connection is kept.  Without a queue the samples
    are read and dropped. *)
Theorem readable_ticks_are_all_queued (ticks : list tick) (c : connector) :
  well_formed c ->
  Forall (readable cd) ticks ->
  exists c',
    read_data cd ticks c = (Ok tt, c') /\
    data_queue c' = (fun q => q ++ omap (accepted cd) ticks) <$> data_queue c /\
    (ticks <> [] -> connected c' = true /\ serial_conn c' = Some true).
Proof.
  intros Hwf Hticks.
  exact (read_loop_readable ticks (set_running true c) Hwf eq_refl Hticks).
Qed.

(** X20.  While the port cannot be opened, [read_data] looks at nothing the
    port offers: the queue and the connection stay as they are, and
    every turn prints its two lines. *)
Theorem unreachable_port_reads_nothing (ticks : list tick) (c : connector) :
  connected c = false ->
  Forall (fun ev => opens ev = false) ticks ->
  exists c',
    read_data cd ticks c = (Ok tt, c') /\
    data_queue c' = data_queue c /\
    connected c' = false /\ serial_conn c' = serial_conn c /\
    length (stdout c') = (length (stdout c) + 2 * length ticks)%nat.
Proof.
  intros Hc Hticks. unfold read_data.
  assert (Hgen : forall c0, connected c0 = false -> running c0 = true ->
            exists c', read_loop cd ticks c0 = (Ok tt, c') /\
              data_queue c' = data_queue c0 /\ connected c' = false /\
              serial_conn c' = serial_conn c0 /\
              length (stdout c') = (length (stdout c0) + 2 * length ticks)%nat).
  { induction ticks as [|ev rest IH]; intros c0 Hc0 Hrun.
    - exists c0. cbn. repeat split; try done; lia.
    - apply Forall_cons in Hticks as [Hev Hrest].
      rewrite (read_loop_step ev rest c0 Hrun).
      unfold read_step, connect. rewrite Hc0, Hev. cbn [negb].
      destruct (IH Hrest (print "Waiting to reconnect to Arduino..."
                            (print "Failed to connect to Arduino" c0)) Hc0 Hrun)
        as (c' & Hloop & Hq & Hc' & Hs & Hout).
      exists c'. split; [exact Hloop|]. split; [exact Hq|]. split; [exact Hc'|].
      split; [exact Hs|]. rewrite Hout. cbn [print stdout]. rewrite !length_app. cbn. lia. }
  destruct (Hgen (set_running true c) Hc eq_refl) as (c' & Hloop & Hq & Hc' & Hs & Hout).
  by exists c'.
Qed.

(** X21.  A serial error closes the port and marks the connector as
    disconnected, and the loop goes on: with the port readable again
    it reconnects and queues everything that follows. *)
Theorem serial_error_is_survived (ev : tick) (rest : list tick) (c : connector) :
  connected c = true -> serial_conn c = Some true ->
  port_offers ev = Broken ->
  Forall (readable cd) rest ->
  exists c',
    read_data cd (ev :: rest) c = (Ok tt, c') /\
    data_queue c' = (fun q => q ++ omap (accepted cd) rest) <$> data_queue c /\
    (rest = [] -> connected c' = false /\ serial_conn c' = Some false) /\
    (rest <> [] -> connected c' = true /\ serial_conn c' = Some true).
Proof.
  intros Hc Hs Hbroken Hrest. unfold read_data.
  rewrite (read_loop_step ev rest (set_running true c) eq_refl).
  unfold read_step. cbn [set_running connected]. rewrite Hc, Hbroken. cbn [negb].
  set (c1 := drop_connection _).
  destruct (read_loop_readable rest c1 ltac:(by intros ?) eq_refl Hrest)
    as (c' & Hloop & Hq & Hlive).
  exists c'. split; [exact Hloop|]. split; [exact Hq|]. split; [|exact Hlive].
  intros ->. cbn in Hloop. injection Hloop as <-. cbn. by rewrite Hs.
Qed.

(** X22.  A line that cannot be decoded, or that is JSON but not an object,
    ends [read_data] with an exception: nothing that follows is read,
    while the connector still says it is running and connected. *)
Theorem unhandled_line_ends_the_reader (ev : tick) (rest : list tick) (c : connector) :
  connected c = true -> serial_conn c = Some true ->
  ~ harmless cd ev ->
  exists e,
    read_data cd (ev :: rest) c = (Raise e, set_running true c) /\
    (e = ValueError \/ e = TypeError).
Proof.
  intros Hc Hs Hbad. unfold read_data.
  rewrite (read_loop_step ev rest (set_running true c) eq_refl).
  unfold read_step, harmless in *. cbn [set_running connected]. rewrite Hc. cbn [negb].
  destruct (port_offers ev) as [|raw|]; try done.
  destruct (decode_utf8 cd raw) as [text|]; [|exists ValueError; split; [reflexivity | by left]].
  destruct (json_loads cd (strip cd text)) as [d| |];
    [by destruct Hbad | | by destruct Hbad].
  exists TypeError. split; [reflexivity | by right].
Qed.

End ConnectorMore.

Section PipelineLoop.
Import Pipeline.

Variable float_of_str : string -> option spec_float.
Variable DATA_DIR : string.
Variable repr_float : spec_float -> string.
Variable format_4f : pyval -> option string.

(** X23.  The consumer of [main.py] scores and stores nothing: it calls the
    scorer with a second argument, so every sample it takes off the
    queue ends in the handler.  After any number of turns the disk is
    as it was, no task is marked as done, and the samples taken are
    gone, one error line printed for each. *)
Theorem data_processing_loop_drops_every_sample (clock : list string) (st : state) :
  let st' := data_processing_loop float_of_str DATA_DIR repr_float format_4f clock st in
  let taken := Nat.min (length clock) (length (data_queue st)) in
  disk st' = disk st /\
  unfinished_tasks st' = unfinished_tasks st /\
  csv_open st' = csv_open st /\
  data_queue st' = drop (length clock) (data_queue st) /\
  stdout st' = stdout st ++ replicate taken "Error in data processing".
Proof.
  revert st. induction clock as [|now later IH]; intros st.
  - cbn. by rewrite drop_0, app_nil_r.
  - cbv zeta in *. unfold data_processing_loop in *. cbn [foldl].
    set (st1 := loop_turn _ _ _ _ now st).
    destruct (IH st1) as (Hd & Hu & Hc & Hq & Ho).
    assert (Hturn : disk st1 = disk st /\ unfinished_tasks st1 = unfinished_tasks st /\
                    csv_open st1 = csv_open st /\ data_queue st1 = drop 1 (data_queue st) /\
                    stdout st1 = stdout st ++
                      replicate (Nat.min 1 (length (data_queue st))) "Error in data processing").
    { unfold st1, loop_turn. destruct (data_queue st) as [|data rest] eqn:E.
      - cbn. by rewrite E, app_nil_r.
      - by cbn. }
    destruct Hturn as (Hd1 & Hu1 & Hc1 & Hq1 & Ho1).
    split; [congruence|]. split; [congruence|]. split; [congruence|].
    split; [by rewrite Hq, Hq1, drop_drop|].
    rewrite Ho, Ho1, <- app_assoc, <- replicate_add. do 2 f_equal.
    rewrite Hq1, length_drop. cbn [length]. lia.
Qed.

End PipelineLoop.

(** ** Further concrete instances *)

(** The text in the temperature is met before the [None] in the rpm. *)
Lemma process_raises_first_failed_conversion_witness :
  Scorer.process_sensor_data Example.no_text Example.clock Cases.unreadable_sample
  = Raise ValueError.
Proof.
  apply (proj1 (proj2 (process_raises_first_failed_conversion Example.no_text Example.clock
                         Cases.unreadable_sample))).
  reflexivity.
Defined.

Lemma nan_reading_not_flagged_witness :
  exists r,
    Scorer.process_sensor_data Example.no_text Example.clock Cases.nan_sample = Ok r /\
    r !! "anomaly_detected" = Some (VBool false) /\
    r !! "failure_probability" = None /\ r !! "failure_type" = None.
Proof.
  destruct (nan_reading_not_flagged Example.no_text Example.clock Cases.nan_sample
              S754_nan S754_nan S754_nan S754_nan eq_refl eq_refl eq_refl eq_refl)
    as (r & Hr & _ & _ & _ & _ & Hall).
  exists r. split; [exact Hr|]. by apply Hall.
Defined.

Lemma scored_record_keys_witness :
  dom (Example.scored Spec.scenario_B) = Derived.record_keys /\
  dom (Example.scored Spec.scenario_A) = Derived.record_keys ∪ Derived.failure_keys.
Proof.
  assert (HA : Scorer.process_sensor_data Example.no_text Example.clock Spec.scenario_A
               = Ok (Example.scored Spec.scenario_A)).
  { unfold Example.scored.
    by destruct (process_fields Example.no_text Example.clock Spec.scenario_A _ _ _ _
                   eq_refl eq_refl eq_refl eq_refl) as (r & -> & _). }
  assert (HB : Scorer.process_sensor_data Example.no_text Example.clock Spec.scenario_B
               = Ok (Example.scored Spec.scenario_B)).
  { unfold Example.scored.
    by destruct (process_fields Example.no_text Example.clock Spec.scenario_B _ _ _ _
                   eq_refl eq_refl eq_refl eq_refl) as (r & -> & _). }
  pose proof (scored_record_keys Example.no_text _ _ _ HA) as KA.
  pose proof (scored_record_keys Example.no_text _ _ _ HB) as KB.
  assert (FA : Spec.flag (Example.scored Spec.scenario_A) "anomaly_detected" = true)
    by (vm_compute; reflexivity).
  assert (FB : Spec.flag (Example.scored Spec.scenario_B) "anomaly_detected" = false)
    by (vm_compute; reflexivity).
  rewrite FA in KA. rewrite FB in KB. rewrite union_empty_r_L in KB. by split.
Defined.

Lemma rescoring_changes_only_timestamp_witness :
  Scorer.process_sensor_data Example.no_text "2024-01-02 00:00:00"
    (Example.scored Spec.scenario_A)
  = Ok (<["timestamp" := VStr "2024-01-02 00:00:00"]> (Example.scored Spec.scenario_A)).
Proof.
  apply (rescoring_changes_only_timestamp Example.no_text Example.clock _ Spec.scenario_A).
  unfold Example.scored.
  by destruct (process_fields Example.no_text Example.clock Spec.scenario_A _ _ _ _
                 eq_refl eq_refl eq_refl eq_refl) as (r & -> & _).
Defined.

(** Scenario A, then scenario B, stored on an empty disk. *)
Lemma store_sequence_one_header_witness :
  let records := [Example.scored Spec.scenario_A; Example.scored Spec.scenario_B] in
  let w' := foldl (fun w record => (Sink.store_data "/data" (fun _ => "") record w).2)
              Example.empty_disk records in
  Sink.files w' !! "/data/unknown_sensor_data.csv" = Derived.csv_of records /\
  Sink.files w' !! "/data/unknown_alerts.csv"
    = Derived.csv_of [Example.scored Spec.scenario_A] /\
  Sink.files w' !! "/data/unknown_latest_alert.json"
    = Some [Sink.JsonDoc (Example.scored Spec.scenario_A)].
Proof.
  destruct (store_sequence_one_header "/data" (fun _ => "") (VStr "unknown")
              [Example.scored Spec.scenario_A; Example.scored Spec.scenario_B]
              Example.empty_disk)
    as (Hcsv & Halerts & Hjson & _).
  - reflexivity.
  - reflexivity.
  - reflexivity.
  - reflexivity.
  - repeat constructor; by vm_compute.
  - cbv zeta. split; [exact Hcsv|].
    assert (Hfilter : filter (fun record => Derived.is_alert record = true)
                        [Example.scored Spec.scenario_A; Example.scored Spec.scenario_B]
                      = [Example.scored Spec.scenario_A]).
    { rewrite filter_cons_True by (by vm_compute).
      rewrite filter_cons_False by (by vm_compute). done. }
    rewrite Hfilter in Halerts, Hjson. split; [exact Halerts | exact Hjson].
Defined.

Lemma store_data_touches_three_files_witness :
  Sink.files (Sink.store_data "/data" (fun _ => "") (Example.scored Spec.scenario_A)
                Example.empty_disk).2 !! "/data/machine_7_sensor_data.csv" = None.
Proof.
  rewrite (store_data_touches_three_files "/data" (fun _ => "")
             (Example.scored Spec.scenario_A) Example.empty_disk
             "/data/machine_7_sensor_data.csv").
  - reflexivity.
  - intros H. by vm_compute in H.
  - intros H. by vm_compute in H.
  - intros H. by vm_compute in H.
Defined.

(** Scenario A stored on a disk without faults that already holds the
    CSV file of the machine: the old contents stay in front. *)
Lemma store_data_append_only_witness :
  let w := Sink.mk_world {[ "/data/unknown_sensor_data.csv" := [Sink.CsvHeader []] ]} [] [] in
  let w' := (Sink.store_data "/data" (fun _ => "") (Example.scored Spec.scenario_A) w).2 in
  [Sink.CsvHeader []]
    `prefix_of` default [] (Sink.files w' !! "/data/unknown_sensor_data.csv").
Proof.
  intros w w'.
  apply (proj1 (store_data_append_only "/data" (fun _ => "")
                  (Example.scored Spec.scenario_A) w) "/data/unknown_sensor_data.csv").
  intros H. by vm_compute in H.
Defined.

(** Scenario A on a disk whose second write fails: the answer is
    [False] and the row is in the CSV file. *)
Lemma store_data_keeps_what_it_wrote_witness :
  let r := Sink.store_data "/data" (fun _ => "") (Example.scored Spec.scenario_A)
             Cases.flaky_disk in
  r.1 = false /\
  Sink.files r.2 !! "/data/unknown_sensor_data.csv"
    = Derived.csv_of [Example.scored Spec.scenario_A] /\
  Sink.files r.2 !! "/data/unknown_alerts.csv" = None.
Proof.
  destruct (proj1 (store_data_keeps_what_it_wrote "/data" (fun _ => "")
                     (Example.scored Spec.scenario_A) Cases.flaky_disk []
                     ltac:(by vm_compute)) eq_refl)
    as (Hanswer & Hcsv & Halerts & _).
  assert (Hid : dict_get (Example.scored Spec.scenario_A) "machine_id" (VStr "unknown")
                = VStr "unknown") by (by vm_compute).
  rewrite Hid in Hcsv, Halerts.
  cbv zeta. split; [exact Hanswer|]. split; [exact Hcsv | exact Halerts].
Defined.

Lemma mock_sample_stored_as_alert_witness :
  exists r,
    Scorer.process_sensor_data Example.no_text Example.clock
      (Mock.mock_sample (S754_zero false) []).1 = Ok r /\
    (Sink.store_data "/data" (fun _ => "") r Example.empty_disk).1 = true /\
    Sink.files (Sink.store_data "/data" (fun _ => "") r Example.empty_disk).2
      !! "/data/unknown_latest_alert.json" = Some [Sink.JsonDoc r].
Proof.
  destruct (mock_sample_stored_as_alert Example.no_text "/data" (fun _ => "")
              (S754_zero false) [] Example.clock Example.empty_disk eq_refl)
    as (r & Hr & Hok & Hjson & _).
  exists r. split; [exact Hr|]. split; [exact Hok | exact Hjson].
Defined.

(** Scenario C: the check of the grown file leaves the monitored file
    itself as it is, and adds lines to the log file. *)
Lemma check_writes_snapshot_metrics_and_log_witness :
  let r := Monitor.check_for_changes Example.line_externals
             (Example.at_ "20240101_000500") (fst Example.started) Example.grown in
  Monitor.files r.2 !! Monitor.locate (Monitor.csv_path (fst Example.started))
    = Some (Example.stripes 1600) /\
  Monitor.log_file Example.grown `prefix_of` Monitor.log_file r.2.
Proof.
  destruct (check_writes_snapshot_metrics_and_log Example.line_externals
              (Example.at_ "20240101_000500") (fst Example.started) Example.grown)
    as (_ & _ & Htarget & Hlog).
  cbv zeta. split; [|exact Hlog].
  rewrite Htarget; [by vm_compute | by vm_compute |].
  intros H. by vm_compute in H.
Defined.

(** Scenario C with the mail server down: no mail leaves. *)
Lemma check_mails_follow_alerts_witness :
  Monitor.outbox
    (Monitor.check_for_changes Example.line_externals (Example.at_ "20240101_000500")
       (fst Example.started) Example.grown).2 = [].
Proof.
  destruct (check_mails_follow_alerts Example.line_externals (Example.at_ "20240101_000500")
              (fst Example.started) Example.grown)
    as (calls & mails & _ & Hout & _ & _ & _ & Hdown & _).
  rewrite Hout, Hdown; by vm_compute.
Defined.


(** The file grown from 500 to 1500 rows: 1000 changed rows raise no
    alert. *)
Lemma change_up_to_threshold_is_silent_witness :
  let r := Monitor.check_for_changes Example.line_externals (Example.at_ "20240101_000500")
             (fst Example.started) Cases.grown_to_1500 in
  Monitor.alerts_raised r.2 = [] /\
  exists report,
    Monitor.files r.2 !! ("./metrics", "metrics_20240101_000500.json")
      = Some (Monitor.json_dumps Example.line_externals report) /\
    Monitor.rows_changed report = 1000.
Proof.
  destruct (change_up_to_threshold_is_silent Example.line_externals
              (Example.at_ "20240101_000500")
              (fst Example.started) Cases.grown_to_1500
              (Example.stripes 1500) (Example.stripes 500)
              (Example.blank_frame 1500) (Example.blank_frame 500) []
              "machine_1_sensor_data.csv.20240101_000000")
    as (Halerts & _ & report & Hsaved & Hrows & _).
  - by vm_compute.
  - by vm_compute.
  - intros H. apply (f_equal String.length) in H. by vm_compute in H.
  - intros H. apply (f_equal (fun h => match h with
                                       | Some s => String.length s
                                       | None => O
                                       end)) in H.
    by vm_compute in H.
  - by vm_compute.
  - by vm_compute.
  - by vm_compute.
  - by vm_compute.
  - by vm_compute.
  - by vm_compute.
  - by vm_compute.
  - intros col Hcol. by apply elem_of_nil in Hcol.
  - by vm_compute.
  - cbv zeta. split; [rewrite Halerts; by vm_compute|].
    exists report. split; [exact Hsaved|]. rewrite Hrows. by vm_compute.
Defined.

(** Two turns of the loop without the file. *)
Lemma loop_on_missing_file_only_logs_witness :
  let r := Loop.run_monitor_loop Example.line_externals
             [Example.at_ "20240101_000500"; Example.at_ "20240101_001000"]
             (fst Cases.early) Cases.bare_disk in
  Monitor.files r.2 !! Monitor.locate Example.target = None /\
  Monitor.alerts_raised r.2 = [] /\
  length (Monitor.log_file r.2) = 4%nat.
Proof.
  destruct (loop_on_missing_file_only_logs Example.line_externals
              [Example.at_ "20240101_000500"; Example.at_ "20240101_001000"]
              (fst Cases.early) Cases.bare_disk)
    as (Hfiles & Halerts & _ & _ & Hlog).
  - by vm_compute.
  - cbv zeta. split; [|split; [exact Halerts | by rewrite Hlog]].
    rewrite Hfiles; [by vm_compute|]. intros H. by vm_compute in H.
Defined.

(** Scenario C run for three turns: the alert of the first turn is
    the only one. *)
Lemma loop_acts_in_first_check_only_witness :
  Monitor.alerts_raised
    (Loop.run_monitor_loop Example.line_externals
       [Example.at_ "20240101_000500"; Example.at_ "20240101_001000";
        Example.at_ "20240101_001500"]
       (fst Example.started) Example.grown).2
  = Monitor.alerts_raised
      (Monitor.check_for_changes Example.line_externals (Example.at_ "20240101_000500")
         (fst Example.started) Example.grown).2.
Proof.
  destruct (loop_acts_in_first_check_only Example.line_externals
              (Example.at_ "20240101_000500")
              [Example.at_ "20240101_001000"; Example.at_ "20240101_001500"]
              (fst Example.started) Example.grown)
    as (_ & _ & Halerts & _).
  - by vm_compute.
  - exact Halerts.
Defined.

(** Three iterations: the third sample carries the third clock
    reading. *)
Lemma mock_queue_in_production_order_witness :
  exists new : list dict,
    Mock.data_queue
      (Mock.generate_mock_data (fun k => F64.of_Z (Z.of_nat k)) 3 (Mock.mk_state [] 0 []))
    = new /\
    length new = 3%nat /\
    forall data : dict,
      new !! 2%nat = Some data -> data !! "timestamp" = Some (VFloat (F64.of_Z 2)).
Proof.
  destruct (mock_queue_in_production_order (fun k => F64.of_Z (Z.of_nat k)) 3
              (Mock.mk_state [] 0 []))
    as (_ & new & Hqueue & Hlen & Hstamps).
  exists new. split; [exact Hqueue|]. split; [exact Hlen|].
  intros data Hdata. exact (Hstamps 2%nat data Hdata).
Defined.


Lemma readable_ticks_are_all_queued_witness :
  exists c',
    Connector.read_data Cases.line_codec Cases.calm_ticks Cases.fresh_connector
      = (Ok tt, c') /\
    Connector.data_queue c' = Some [<["timestamp" := VFloat (F64.of_Z 1)]> ∅] /\
    Connector.connected c' = true.
Proof.
  destruct (readable_ticks_are_all_queued Cases.line_codec Cases.calm_ticks
              Cases.fresh_connector)
    as (c' & Hrun & Hq & Hlive).
  - intros H. by vm_compute in H.
  - repeat constructor; by vm_compute.
  - exists c'. split; [exact Hrun|]. split; [exact Hq|]. by apply Hlive.
Defined.

Lemma unreachable_port_reads_nothing_witness :
  exists c',
    Connector.read_data Cases.line_codec Cases.unplugged_ticks Cases.fresh_connector
      = (Ok tt, c') /\
    Connector.data_queue c' = Some [] /\
    length (Connector.stdout c') = 4%nat.
Proof.
  destruct (unreachable_port_reads_nothing Cases.line_codec Cases.unplugged_ticks
              Cases.fresh_connector)
    as (c' & Hrun & Hq & _ & _ & Hout).
  - reflexivity.
  - repeat constructor.
  - exists c'. split; [exact Hrun|]. split; [exact Hq | exact Hout].
Defined.

(** A serial error on a live connector, then the three calm turns. *)
Lemma serial_error_is_survived_witness :
  exists c',
    Connector.read_data Cases.line_codec
      (Connector.mk_tick true Connector.Broken (F64.of_Z 0) :: Cases.calm_ticks)
      Cases.live_connector = (Ok tt, c') /\
    Connector.data_queue c' = Some [<["timestamp" := VFloat (F64.of_Z 1)]> ∅] /\
    Connector.connected c' = true.
Proof.
  destruct (serial_error_is_survived Cases.line_codec
              (Connector.mk_tick true Connector.Broken (F64.of_Z 0)) Cases.calm_ticks
              Cases.live_connector)
    as (c' & Hrun & Hq & _ & Hlive).
  - reflexivity.
  - reflexivity.
  - reflexivity.
  - repeat constructor; by vm_compute.
  - exists c'. split; [exact Hrun|]. split; [exact Hq|]. by apply Hlive.
Defined.

(** The line [42] on a live connector: the calm turns after it are
    never read. *)
Lemma unhandled_line_ends_the_reader_witness :
  exists e,
    Connector.read_data Cases.line_codec
      (Connector.mk_tick true (Connector.Line "42") (F64.of_Z 0) :: Cases.calm_ticks)
      Cases.live_connector
    = (Raise e, Connector.set_running true Cases.live_connector).
Proof.
  destruct (unhandled_line_ends_the_reader Cases.line_codec
              (Connector.mk_tick true (Connector.Line "42") (F64.of_Z 0)) Cases.calm_ticks
              Cases.live_connector)
    as (e & Hrun & _).
  - reflexivity.
  - reflexivity.
  - intros H. by apply H.
  - by exists e.
Defined.
